(** * GCN stock-analysis service: a shallow embedding of [backend/gcn]

    The development follows the two source files:
    - [backend/gcn/app.py]: request models, the helpers [build_adj_matrix],
      [normalize_adj], [normalize_scores], [train_model] and the five POST
      handlers;
    - [backend/gcn/model.py]: the model classes and [create_model].

    Numbers.  NumPy and torch values are IEEE floats.  The handlers and the
    models are embedded over the type [fl]: a rational for every finite
    value, plus the three special values +inf, -inf and NaN with their IEEE
    rules (x/0, inf-inf, 0*inf, comparisons with NaN).  Arithmetic on finite
    values of [fl] is exact: it has no rounding, no overflow to infinity and
    no signed zero, so what is stated over [fl] is what does not depend on
    them (shapes, keys, control flow, exceptions, signs, zero entries).
    Where rounding or overflow decides a property, the function is embedded
    a second time over IEEE-754 values (module [IEEE], on Rocq's
    [spec_float] with correctly rounded binary32 and binary64 operations). *)

From Stdlib Require Import ZArith QArith Qround Qabs Lqa Lia Bool SpecFloat.
From stdpp Require Import base list strings pretty.

Open Scope Q_scope.

(** ** Floating-point values *)

Inductive fl : Type :=
| Fin (q : Q)
| PInf
| NInf
| NaN.

Declare Scope fl_scope.
Delimit Scope fl_scope with fl.
Bind Scope fl_scope with fl.

Module Fl.

Definition zero : fl := Fin 0.
Definition one : fl := Fin 1.

Definition is_finite (x : fl) : bool :=
  match x with Fin _ => true | _ => false end.

Definition is_nan (x : fl) : bool :=
  match x with NaN => true | _ => false end.


Definition Qltb (a b : Q) : bool := negb (Qle_bool b a).
Definition Qeqb (a b : Q) : bool := Qeq_bool a b.

Definition neg (x : fl) : fl :=
  match x with
  | Fin q => Fin (- q)
  | PInf => NInf
  | NInf => PInf
  | NaN => NaN
  end.

Definition add (x y : fl) : fl :=
  match x, y with
  | NaN, _ | _, NaN => NaN
  | Fin a, Fin b => Fin (a + b)
  | PInf, NInf | NInf, PInf => NaN
  | PInf, _ | _, PInf => PInf
  | NInf, _ | _, NInf => NInf
  end.

Definition sub (x y : fl) : fl := add x (neg y).

(** Sign of a finite value: [Gt], [Eq] or [Lt] against 0. *)
Definition sgn (q : Q) : comparison := Qcompare q 0.

Definition signed_inf (c : comparison) : fl :=
  match c with Gt => PInf | Lt => NInf | Eq => NaN end.

Definition flip (c : comparison) : comparison :=
  match c with Gt => Lt | Lt => Gt | Eq => Eq end.

Definition mul (x y : fl) : fl :=
  match x, y with
  | NaN, _ | _, NaN => NaN
  | Fin a, Fin b => Fin (a * b)
  | PInf, Fin b | Fin b, PInf => signed_inf (sgn b)
  | NInf, Fin b | Fin b, NInf => signed_inf (flip (sgn b))
  | PInf, PInf | NInf, NInf => PInf
  | PInf, NInf | NInf, PInf => NInf
  end.

(** IEEE division: a non-zero finite value over 0 is an infinity, 0/0 and
    inf/inf are NaN, a finite value over an infinity is 0. *)
Definition div (x y : fl) : fl :=
  match x, y with
  | NaN, _ | _, NaN => NaN
  | Fin a, Fin b =>
      if Qeqb b 0 then signed_inf (sgn a) else Fin (a / b)
  | Fin _, (PInf | NInf) => Fin 0
  | (PInf | NInf), (PInf | NInf) => NaN
  | PInf, Fin b => if Qltb b 0 then NInf else PInf
  | NInf, Fin b => if Qltb b 0 then PInf else NInf
  end.

(** Comparisons: every comparison with NaN is false. *)
Definition ltb (x y : fl) : bool :=
  match x, y with
  | NaN, _ | _, NaN => false
  | Fin a, Fin b => Qltb a b
  | NInf, (Fin _ | PInf) => true
  | Fin _, PInf => true
  | _, _ => false
  end.

Definition gtb (x y : fl) : bool := ltb y x.

(** [np.min] / [np.max] of two values: NaN propagates. *)
Definition min (x y : fl) : fl :=
  match x, y with
  | NaN, _ | _, NaN => NaN
  | _, _ => if ltb y x then y else x
  end.

Definition max (x y : fl) : fl :=
  match x, y with
  | NaN, _ | _, NaN => NaN
  | _, _ => if ltb x y then y else x
  end.

(** [F.relu]: NaN stays NaN, negatives go to 0. *)
Definition relu (x : fl) : fl :=
  match x with
  | NaN => NaN
  | _ => if ltb x zero then zero else x
  end.

(** Membership of a closed interval and equality with a rational. *)
Definition between (lo hi : Q) (x : fl) : Prop :=
  match x with Fin q => lo <= q /\ q <= hi | _ => False end.

Definition equals (v : Q) (x : fl) : Prop :=
  match x with Fin q => q == v | _ => False end.

Definition nonneg (x : fl) : Prop :=
  match x with Fin q => 0 <= q | _ => False end.

End Fl.

Infix "+" := Fl.add : fl_scope.
Infix "-" := Fl.sub : fl_scope.
Infix "*" := Fl.mul : fl_scope.
Infix "/" := Fl.div : fl_scope.

(** ** Vectors and matrices (NumPy arrays, torch tensors of rank 1 and 2) *)

Abbreviation vector := (list fl) (only parsing).
Abbreviation matrix := (list (list fl)) (only parsing).

(** [np.zeros((n, m))], [np.ones((n, m))] *)
Definition zeros (n m : nat) : matrix := replicate n (replicate m Fl.zero).
Definition ones (n m : nat) : matrix := replicate n (replicate m Fl.one).

(** [A[i, j]] *)
Definition mget (A : matrix) (i j : nat) : option fl :=
  match A !! i with
  | Some row => row !! j
  | None => None
  end.

(** [A[i, j] = v].  NumPy raises IndexError out of range; every call site
    in the source checks the indices first, so the update below (which
    leaves [A] unchanged out of range) is only used in range. *)
Definition mset (A : matrix) (i j : nat) (v : fl) : matrix :=
  match A !! i with
  | Some row => <[i := <[j := v]> row]> A
  | None => A
  end.

(** [A.shape == (n, m)] *)
Definition has_shape (n m : nat) (A : matrix) : Prop :=
  length A = n /\ Forall (fun row => length row = m) A.

(** ** [build_adj_matrix] (app.py) *)

(** [0 <= i < n] on a Python int. *)
Definition index_ok (n : nat) (i : Z) : bool :=
  ((0 <=? i) && (i <? Z.of_nat n))%Z.

(** One turn of [for e in edges]. *)
Definition add_edge (n : nat) (A : matrix) (e : list Z) : matrix :=
  match e with
  | i :: j :: _ =>
      if index_ok n i && index_ok n j then
        let A := mset A (Z.to_nat i) (Z.to_nat j) Fl.one in
        mset A (Z.to_nat j) (Z.to_nat i) Fl.one
      else A
  | _ => A
  end.

(** One turn of [for i in range(n): A[i, i] = 1.0]. *)
Definition add_self_loop (A : matrix) (i : nat) : matrix :=
  mset A i i Fl.one.

Definition build_adj_matrix (n : nat) (edges : list (list Z)) : matrix :=
  let A := zeros n n in
  let A := foldl (add_edge n) A edges in
  foldl add_self_loop A (seq 0 n).

(** The edges that pass both guards of the loop body. *)
Definition edge_in_range (n : nat) (e : list Z) : bool :=
  match e with
  | i :: j :: _ => index_ok n i && index_ok n j
  | _ => false
  end.

(** What the two loops of [build_adj_matrix] keep true of [A]: its shape,
    its symmetry, entries 0.0 or 1.0. *)
Record adj_inv (n : nat) (A : matrix) : Prop := {
  adj_shape : has_shape n n A;
  adj_sym : forall i j, mget A i j = mget A j i;
  adj_binary : forall i j x, mget A i j = Some x -> x = Fl.zero \/ x = Fl.one
}.

(** ** External numerical routines

    What NumPy, torch and scikit-learn compute and the source only calls is
    taken as a parameter: square root and exponential on finite values, the
    global random generator behind weight initialisation and dropout, the
    autograd and Adam step, correlation, k-NN, K-Means and PCA. *)

Class Numerics := {
  Qsqrt : Q -> Q;   (* [np.sqrt] on a positive finite value *)
  Qexp : Q -> Q     (* [exp] on a finite value, used by softmax *)
}.

Section numerics.
Context {N : Numerics}.

(** [np.sqrt]: NaN below zero, 0 at 0, +inf at +inf. *)
Definition fl_sqrt (x : fl) : fl :=
  match x with
  | Fin q =>
      if Fl.Qltb q 0 then NaN
      else if Fl.Qeqb q 0 then Fin 0
      else Fin (Qsqrt q)
  | PInf => PInf
  | NInf | NaN => NaN
  end.

(** [np.sum] of a vector, and [np.sum(A, axis=1)]. *)
Definition vsum (v : vector) : fl := foldl Fl.add Fl.zero v.
Definition sum_axis1 (A : matrix) : vector := map vsum A.

(** [np.where(cond, x, y)] with a scalar [y]; [x] is computed for every
    position, also where [cond] is false. *)
Definition np_where (cond : list bool) (x : vector) (y : fl) : vector :=
  zip_with (fun (c : bool) a => if c then a else y) cond x.

(** [np.diag(v)] *)
Definition diag (v : vector) : matrix :=
  imap (fun i x => <[i := x]> (replicate (length v) Fl.zero)) v.

(** [A @ B] on operands of matching shapes (NumPy raises ValueError on a
    mismatch; the handlers only multiply an n-by-n matrix by n-row
    operands). *)
Definition dot (u v : vector) : fl := vsum (zip_with Fl.mul u v).

Definition column (B : matrix) (j : nat) : vector :=
  map (fun row => default NaN (row !! j)) B.

Definition ncols (B : matrix) : nat :=
  match B with
  | row :: _ => length row
  | [] => 0
  end.

Definition matmul (A B : matrix) : matrix :=
  map (fun row => map (fun j => dot row (column B j)) (seq 0 (ncols B))) A.

(** ** [normalize_adj] (app.py) *)

Definition degree_inv_sqrt (A : matrix) : vector :=
  let D := sum_axis1 A in
  np_where (map (fun d => Fl.gtb d (Fin 0)) D)
           (map (fun d => (Fin 1.0 / fl_sqrt d)%fl) D)
           (Fin 0.0).

Definition normalize_adj (A : matrix) : matrix :=
  let D_inv_sqrt := degree_inv_sqrt A in
  let D_mat := diag D_inv_sqrt in
  matmul (matmul D_mat A) D_mat.




(** ** [normalize_adjacency] (model.py), the torch variant *)

(** [np.eye(n)], [torch.eye(n)] *)
Definition eye (n : nat) : matrix := diag (replicate n Fl.one).

(** Entrywise sum of two tensors of one shape. *)
Definition madd (a b : matrix) : matrix := zip_with (zip_with Fl.add) a b.



End numerics.

(** ** Exceptions *)

Inductive exn : Type :=
| HTTPException (status_code : Z) (detail : string)
| ValueError (msg : string)
| TypeError (msg : string)
| IndexError (msg : string)
| KeyError (msg : string)
| UnboundLocalError (msg : string)
| OverflowError (msg : string)
| RuntimeError (msg : string).

(** A computation that returns or raises. *)
Definition result (A : Type) : Type := exn + A.

(** ** [normalize_scores] (app.py) *)

(** [scores.min()], [scores.max()]: no value on an empty array (NumPy
    raises ValueError there). *)
Definition vmin (v : vector) : option fl :=
  match v with
  | [] => None
  | x :: rest => Some (foldl Fl.min x rest)
  end.

Definition vmax (v : vector) : option fl :=
  match v with
  | [] => None
  | x :: rest => Some (foldl Fl.max x rest)
  end.

(** The literal [1e-6]: Python reads it as the nearest binary64 number,
    4722366482869645 / 2^72, a little below 1/10^6. *)
Definition tolerance : Q := 4722366482869645 # 4722366482869645213696.

Definition normalize_scores (scores : vector) : result (list fl) :=
  match vmin scores, vmax scores with
  | Some s_min, Some s_max =>
      if Fl.ltb (s_max - s_min) (Fin tolerance) then
        inr (map (fun _ => Fin 50.0) scores)
      else
        inr (map (fun s => (Fin 100.0 * (s - s_min) / (s_max - s_min))%fl)
               scores)
  | _, _ =>
      inl (ValueError
             "zero-size array to reduction operation minimum which has no identity")
  end.

Definition all_finite (v : vector) : Prop :=
  Forall (fun x => Fl.is_finite x = true) v.

(** ** IEEE-754 arithmetic

    Where a property depends on rounding or overflow, a function is
    embedded a second time over IEEE-754 values: [spec_float] is Rocq's
    specification of binary floating point (sign, mantissa, exponent,
    signed zeros, infinities, NaN), with correctly rounded [+], [-], [*],
    [/] and square root for a given precision and exponent range. *)

Module IEEE.

(** A binary format: bits of precision and exponent of the infinities. *)
Record format : Type := { prec : Z; emax : Z }.

Definition binary32 : format := {| prec := 24; emax := 128 |}.
Definition binary64 : format := {| prec := 53; emax := 1024 |}.

Definition add (f : format) : spec_float -> spec_float -> spec_float :=
  SFadd (prec f) (emax f).
Definition sub (f : format) : spec_float -> spec_float -> spec_float :=
  SFsub (prec f) (emax f).
Definition mul (f : format) : spec_float -> spec_float -> spec_float :=
  SFmul (prec f) (emax f).
Definition div (f : format) : spec_float -> spec_float -> spec_float :=
  SFdiv (prec f) (emax f).
Definition sqrt (f : format) : spec_float -> spec_float :=
  SFsqrt (prec f) (emax f).

(** The value [m * 2^e], rounded to the format. *)
Definition of_Z (f : format) (m e : Z) : spec_float :=
  binary_normalize (prec f) (emax f) m e false.

(** Conversion of a value to the format: rounding to nearest even, an
    infinity beyond the largest number. *)
Definition round (f : format) (x : spec_float) : spec_float :=
  match x with
  | S754_finite s m e => binary_normalize (prec f) (emax f) (cond_Zopp s (Zpos m)) e s
  | _ => x
  end.

Definition is_nan (x : spec_float) : bool :=
  match x with S754_nan => true | _ => false end.

(** Neither NaN nor an infinity. *)
Definition is_finite (x : spec_float) : bool :=
  match x with S754_zero _ | S754_finite _ _ _ => true | _ => false end.

(** [np.min] / [np.max] of two values: NaN propagates. *)
Definition min (x y : spec_float) : spec_float :=
  if is_nan x then x else if is_nan y then y
  else if SFltb y x then y else x.

Definition max (x y : spec_float) : spec_float :=
  if is_nan x then x else if is_nan y then y
  else if SFltb x y then y else x.

(** [a.min()], [a.max()] on the array [x :: rest]. *)
Definition amin (x : spec_float) (rest : list spec_float) : spec_float :=
  foldl min x rest.
Definition amax (x : spec_float) (rest : list spec_float) : spec_float :=
  foldl max x rest.

(** The literals [1e-6], [50.0] and [100.0] as Python reads them (binary64),
    and [100.0] in binary32. *)
Definition f64_1e_6 : spec_float := S754_finite false 4722366482869645 (-72).
Definition f64_50 : spec_float := S754_finite false 7036874417766400 (-47).
Definition f64_100 : spec_float := S754_finite false 7036874417766400 (-46).
Definition f32_100 : spec_float := S754_finite false 13107200 (-17).

(** *** [normalize_scores] (app.py) on a float32 array

    [s_min] and [s_max] are Python floats, so the spread and its test
    against [1e-6] are binary64.  In the rescaling, [s] is a [numpy.float32]
    scalar and the other operands are Python floats; what NumPy does with
    such a pair depends on its version:
    - NumPy 1 (value-based casting) computes all three operations in
      binary64;
    - NumPy 2 (NEP 50) converts the Python float to float32 and computes in
      binary32: [s_min] converts back exactly, [100.0] is exact, the spread
      is rounded to float32. *)
Inductive numpy : Type := NumPy1 | NumPy2.

(** [100.0 * (s - s_min) / (s_max - s_min)], [spread] being the binary64
    value of [s_max - s_min]. *)
Definition rescale (v : numpy) (s s_min spread : spec_float) : spec_float :=
  match v with
  | NumPy1 =>
      div binary64 (mul binary64 f64_100 (sub binary64 s s_min)) spread
  | NumPy2 =>
      div binary32 (mul binary32 f32_100 (sub binary32 s s_min))
        (round binary32 spread)
  end.

Definition normalize_scores (v : numpy) (scores : list spec_float)
  : result (list spec_float) :=
  match scores with
  | [] =>
      inl (ValueError
             "zero-size array to reduction operation minimum which has no identity")
  | x :: rest =>
      let s_min := amin x rest in
      let s_max := amax x rest in
      if SFltb (sub binary64 s_max s_min) f64_1e_6 then
        inr (map (fun _ => f64_50) scores)
      else
        inr (map (fun s => rescale v s s_min (sub binary64 s_max s_min))
               scores)
  end.

(** The rational a value stands for; none for NaN and the infinities. *)
Definition to_Q (x : spec_float) : option Q :=
  match x with
  | S754_zero _ => Some 0
  | S754_finite s m e => Some (inject_Z (cond_Zopp s (Zpos m)) * Qpower 2 e)
  | S754_infinity _ | S754_nan => None
  end.

(** A number of the interval [lo, hi]. *)
Definition between (lo hi : Q) (x : spec_float) : Prop :=
  match to_Q x with
  | Some q => lo <= q /\ q <= hi
  | None => False
  end.

(** *** [normalize_adj] (app.py) on a float32 matrix

    [np.sum], [np.sqrt], the division and the two products are binary32.
    Sums are taken from left to right, starting from 0.0; NumPy's pairwise
    summation and the BLAS product may associate the terms of a sum in
    another order, which gives the same value whenever at most one term is
    not zero, as in every product with [np.diag(...)]. *)
Definition zero : spec_float := S754_zero false.
Definition f32_1 : spec_float := S754_finite false 8388608 (-23).

Definition vsum (f : format) (v : list spec_float) : spec_float :=
  foldl (add f) zero v.

Definition dot (f : format) (u v : list spec_float) : spec_float :=
  vsum f (zip_with (mul f) u v).

Definition diag (v : list spec_float) : list (list spec_float) :=
  imap (fun i x => <[i := x]> (replicate (length v) zero)) v.

Definition column (B : list (list spec_float)) (j : nat) : list spec_float :=
  map (fun row => default S754_nan (row !! j)) B.

Definition ncols (B : list (list spec_float)) : nat :=
  match B with
  | row :: _ => length row
  | [] => 0
  end.

Definition matmul (f : format) (A B : list (list spec_float))
  : list (list spec_float) :=
  map (fun row => map (fun j => dot f row (column B j)) (seq 0 (ncols B))) A.

(** [np.where(D > 0, 1.0 / np.sqrt(D), 0.0)] *)
Definition degree_inv_sqrt (A : list (list spec_float)) : list spec_float :=
  map (fun d => if SFltb zero d then div binary32 f32_1 (sqrt binary32 d)
                else zero)
    (map (vsum binary32) A).

Definition normalize_adj (A : list (list spec_float))
  : list (list spec_float) :=
  let D_mat := diag (degree_inv_sqrt A) in
  matmul binary32 (matmul binary32 D_mat A) D_mat.

End IEEE.

(** A rational stand-in for the two routines, used to run the definitions
    on concrete inputs: the integer square root of numerator times
    denominator over the denominator, and 2 to the floor of the argument. *)
Definition Qsqrt_floor (q : Q) : Q :=
  Z.sqrt (Qnum q * Zpos (Qden q)) # Qden q.

Definition Qexp2_floor (q : Q) : Q := Qpower 2 (Qfloor q).

Definition rational_numerics : Numerics :=
  {| Qsqrt := Qsqrt_floor; Qexp := Qexp2_floor |}.

(** ** Computations: exceptions over the global random generator

    A handler runs with the state [S] of torch's random generator and either
    returns a value or raises; the state survives a caught exception. *)

Definition M (S A : Type) : Type := S -> result A * S.

Definition ret {S A} (a : A) : M S A := fun s => (inr a, s).

Definition raise {S A} (e : exn) : M S A := fun s => (inl e, s).

Definition bind {S A B} (c : M S A) (k : A -> M S B) : M S B :=
  fun s =>
    match c s with
    | (inr a, s') => k a s'
    | (inl e, s') => (inl e, s')
    end.

(** A computation that only returns or raises. *)
Definition lift {S A} (r : result A) : M S A := fun s => (r, s).

(** A draw from the random generator. *)
Definition draw {S A} (f : S -> A * S) : M S A :=
  fun s => let (a, s') := f s in (inr a, s').

(** [try: body except Exception as e: handler(e)].  Every exception of the
    model derives from [Exception], [HTTPException] included. *)
Definition try_except {S A} (body : M S A) (handler : exn -> M S A) : M S A :=
  fun s =>
    match body s with
    | (inr a, s') => (inr a, s')
    | (inl e, s') => handler e s'
    end.

Notation "x <- c ;; k" := (bind c (fun x => k))
  (at level 100, c at next level, right associativity).

(** A [for] loop that threads an accumulator and stops at the first
    exception. *)
Fixpoint for_each {S A B} (l : list B) (body : A -> B -> M S A) (acc : A)
  : M S A :=
  match l with
  | [] => ret acc
  | b :: rest => acc' <- body acc b ;; for_each rest body acc'
  end.

(** [repr] of a Python [str], on its UTF-8 bytes.  The string is put in
    single quotes, or in double quotes when it holds a single quote and no
    double quote; a backslash, the enclosing quote, tab, newline and
    carriage return get a backslash escape, the other ASCII control
    characters the escape [\xNN].  Bytes beyond ASCII are kept, as Python
    keeps every printable character; the characters beyond ASCII that it
    escapes are not modelled, see [is_ascii]. *)
Definition backslash : Ascii.ascii := Ascii.ascii_of_nat 92.
Definition double_quote : Ascii.ascii := Ascii.ascii_of_nat 34.
Definition single_quote : Ascii.ascii := Ascii.ascii_of_nat 39.

Definition hex_digit (n : nat) : Ascii.ascii :=
  nth n (String.list_ascii_of_string "0123456789abcdef")
    (Ascii.ascii_of_nat 48).

Definition repr_char (quote c : Ascii.ascii) : list Ascii.ascii :=
  let n := Ascii.nat_of_ascii c in
  if decide (c = backslash) then [backslash; backslash]
  else if decide (c = quote) then [backslash; quote]
  else if (n =? 9)%nat then [backslash; Ascii.ascii_of_nat 116]    (* \t *)
  else if (n =? 10)%nat then [backslash; Ascii.ascii_of_nat 110]   (* \n *)
  else if (n =? 13)%nat then [backslash; Ascii.ascii_of_nat 114]   (* \r *)
  else if ((n <? 32) || (n =? 127))%nat then
    [backslash; Ascii.ascii_of_nat 120;                            (* \x *)
     hex_digit (n / 16); hex_digit (n mod 16)]
  else [c].

Definition py_repr (s : string) : string :=
  let cs := String.list_ascii_of_string s in
  let quote :=
    if bool_decide (single_quote ∈ cs)
       && negb (bool_decide (double_quote ∈ cs))
    then double_quote else single_quote in
  String.string_of_list_ascii
    (quote :: flat_map (repr_char quote) cs ++ [quote]).

(** A string of ASCII characters only. *)
Definition is_ascii (s : string) : bool :=
  forallb (fun c => Ascii.nat_of_ascii c <? 128)%nat
    (String.list_ascii_of_string s).

(** [str(e)].  Starlette's [HTTPException.__str__] gives
    [f"{status_code}: {detail}"]; a [KeyError] prints the [repr] of its
    key. *)
Definition str_exn (e : exn) : string :=
  match e with
  | HTTPException status_code detail => pretty status_code +:+ ": " +:+ detail
  | KeyError msg => py_repr msg
  | ValueError msg | TypeError msg | IndexError msg
  | UnboundLocalError msg | OverflowError msg | RuntimeError msg => msg
  end.

(** ** Python values and dicts *)

#[warnings="-register-all"]
Inductive json : Type :=
| JNull
| JBool (b : bool)
| JInt (z : Z)
| JFloat (x : fl)
| JStr (s : string)
| JList (l : list json)
| JDict (d : list (string * json)).

(** A Python dict keeps its keys in insertion order; assigning to a key
    that is present replaces the value in place. *)
Fixpoint dict_get {V} (k : string) (d : list (string * V)) : option V :=
  match d with
  | [] => None
  | (k', v) :: rest => if decide (k' = k) then Some v else dict_get k rest
  end.

Fixpoint dict_set {V} (k : string) (v : V) (d : list (string * V))
  : list (string * V) :=
  match d with
  | [] => [(k, v)]
  | (k', v') :: rest =>
      if decide (k' = k) then (k, v) :: rest
      else (k', v') :: dict_set k v rest
  end.

Definition dict_keys {V} (d : list (string * V)) : list string := d.*1.

(** [l[i]] on a Python list, for [i] in [range(...)]. *)
Definition list_getitem {S A} (l : list A) (i : nat) : M S A :=
  match l !! i with
  | Some a => ret a
  | None => raise (IndexError "list index out of range")
  end.

(** [sorted(l, key=key, reverse=True)]: descending, and stable (entries
    with equal keys keep their order).  An entry is inserted before the
    first entry with a strictly smaller key. *)
Fixpoint insert_desc {A} (key : A -> fl) (a : A) (l : list A) : list A :=
  match l with
  | [] => [a]
  | b :: rest =>
      if Fl.ltb (key b) (key a) then a :: b :: rest
      else b :: insert_desc key a rest
  end.

Definition sorted_desc {A} (key : A -> fl) (l : list A) : list A :=
  foldl (fun acc a => insert_desc key a acc) [] l.

(** [int(x)] on a float: truncation towards zero. *)
Definition fl_to_int (x : fl) : result Z :=
  match x with
  | Fin q => inr (Z.quot (Qnum q) (Zpos (Qden q)))
  | PInf | NInf => inl (OverflowError "cannot convert float infinity to integer")
  | NaN => inl (ValueError "cannot convert float NaN to integer")
  end.

(** ** NumPy arrays built from request bodies *)

(** [np.array(rows, dtype=np.float32)] on a list of lists: the empty list
    gives a rank-1 array of shape (0,), rows of one length a rank-2 array,
    rows of different lengths raise ValueError. *)
Inductive ndarray : Type :=
| Arr1 (v : list fl)
| Arr2 (m : list (list fl)).

Definition np_array (rows : list (list fl)) : result ndarray :=
  match rows with
  | [] => inr (Arr1 [])
  | r :: rest =>
      if forallb (fun r' => length r' =? length r)%nat rest
      then inr (Arr2 rows)
      else inl (ValueError
        "setting an array element with a sequence. The requested array has an inhomogeneous shape")
  end.

Definition shape (X : ndarray) : list nat :=
  match X with
  | Arr1 v => [length v]
  | Arr2 m => [length m; ncols m]
  end.

Definition as_matrix (X : ndarray) : matrix :=
  match X with
  | Arr1 _ => []
  | Arr2 m => m
  end.

(** [n, f = X.shape] *)
Definition unpack2 (dims : list nat) : result (nat * nat) :=
  match dims with
  | [n; f] => inr (n, f)
  | _ :: _ :: _ :: _ =>
      inl (ValueError "too many values to unpack (expected 2)")
  | _ =>
      inl (ValueError
             ("not enough values to unpack (expected 2, got "
                +:+ pretty (length dims) +:+ ")"))
  end.

(** [N, T, F = x_seq.shape] *)
Definition unpack3 (dims : list nat) : result (nat * nat * nat) :=
  match dims with
  | [N; T; F] => inr (N, T, F)
  | _ :: _ :: _ :: _ :: _ =>
      inl (ValueError "too many values to unpack (expected 3)")
  | _ =>
      inl (ValueError
             ("not enough values to unpack (expected 3, got "
                +:+ pretty (length dims) +:+ ")"))
  end.

(** ** Layers and models (model.py) *)

(** [nn.Linear]: [weight] has one row per output feature. *)
Record Linear : Type := {
  weight : list (list fl);
  bias : list fl
}.

(** [GraphConvLayer]: [weight] is [in_features] by [out_features]. *)
Record GraphConvLayer : Type := {
  gc_weight : list (list fl);
  gc_bias : option (list fl)
}.

Record SimpleGCN : Type := {
  fc1 : Linear;
  fc2 : Linear
}.

(** [HybridGCN]: the [nn.Sequential] members are named by their index, as
    in its [state_dict] ([mlp.0], [mlp.3], [fusion.0], [fusion.3],
    [attention.0]). *)
Record HybridGCN : Type := {
  dropout : Q;
  gcn1 : GraphConvLayer;
  gcn2 : GraphConvLayer;
  mlp_0 : Linear;
  mlp_3 : Linear;
  fusion_0 : Linear;
  fusion_3 : Linear;
  attention_0 : Linear
}.

(** The torch, scikit-learn and SciPy routines the source calls. *)
Class Torch : Type := {
  rng : Type;
  (* weight initialisation ([xavier_uniform_], the default of [nn.Linear]) *)
  init_matrix : nat -> nat -> rng -> list (list fl) * rng;
  init_vector : nat -> rng -> list fl * rng;
  (* the keep-mask of a dropout with rate [p], entries 0.0 or 1.0 *)
  dropout_mask : Q -> nat -> nat -> rng -> list (list fl) * rng;
  (* model classes that no property below looks into *)
  DeepGCN : Type;
  GATModel : Type;
  TemporalGCN : Type;
  DeepGCN_init : nat -> list Z -> Z -> Q -> bool -> M rng DeepGCN;
  GATModel_init : nat -> Z -> Z -> Z -> Q -> M rng GATModel;
  TemporalGCN_init : nat -> Z -> Z -> Z -> Z -> Q -> M rng TemporalGCN;
  DeepGCN_forward :
    DeepGCN -> bool -> list (list fl) -> list (list fl) -> M rng (list fl);
  GATModel_forward :
    GATModel -> bool -> list (list fl) -> list (list fl) -> M rng (list fl);
  (* [loss.backward(); optimizer.step()] for each class *)
  optimizer : Type;
  (* the optimizer [optim.Adam] builds for a learning rate it accepts *)
  Adam : Q -> optimizer;
  step_SimpleGCN : optimizer -> SimpleGCN -> list (list fl) -> list (list fl)
                   -> SimpleGCN * optimizer;
  step_DeepGCN : optimizer -> DeepGCN -> list (list fl) -> list (list fl)
                 -> DeepGCN * optimizer;
  step_GATModel : optimizer -> GATModel -> list (list fl) -> list (list fl)
                  -> GATModel * optimizer;
  step_HybridGCN : optimizer -> HybridGCN -> list (list fl) -> list (list fl)
                   -> HybridGCN * optimizer;
  step_TemporalGCN : optimizer -> TemporalGCN -> list (list fl)
                     -> list (list fl) -> TemporalGCN * optimizer;
  (* [x.grad] after [out.sum().backward()] *)
  input_gradient : SimpleGCN -> list (list fl) -> list (list fl)
                   -> list (list fl);
  (* [np.corrcoef], [sklearn.neighbors.kneighbors_graph(...).toarray()] *)
  corrcoef : list (list fl) -> result (list (list fl));
  kneighbors_graph : list (list fl) -> Z -> result (list (list fl));
  (* [KMeans(...).fit_predict]: labels and cluster centres *)
  KMeans_fit_predict : Z -> list (list fl) -> result (list Z * list (list fl));
  (* [PCA(n_components=2).fit_transform]: coordinates, explained variance *)
  PCA_fit_transform : list (list fl) -> result (list (list fl) * list fl);
  (* [scipy.stats.spearmanr], first component *)
  spearmanr : list fl -> list fl -> result fl
}.

Section models.
Context {N : Numerics} {T : Torch}.

(** [torch.matmul] / [torch.mm] on rank-2 tensors: RuntimeError unless the
    inner dimensions agree. *)
Definition torch_mm (A B : matrix) : result matrix :=
  if decide (Forall (fun row => length row = length B) A)
  then inr (matmul A B)
  else inl (RuntimeError "mat1 and mat2 shapes cannot be multiplied").

(** [nn.Linear.forward]: [h @ weight.T + bias].  A parameter tensor keeps
    the shape it was created with, so this product is not re-checked. *)
Definition Linear_forward (l : Linear) (h : matrix) : matrix :=
  map (fun row => zip_with Fl.add (map (dot row) (weight l)) (bias l)) h.

Definition Linear_new (in_features out_features : nat) : M rng Linear :=
  w <- draw (init_matrix out_features in_features) ;;
  b <- draw (init_vector out_features) ;;
  ret {| weight := w; bias := b |}.

Definition GraphConvLayer_forward (l : GraphConvLayer) (x adj : matrix)
  : result matrix :=
  match torch_mm x (gc_weight l) with
  | inl e => inl e
  | inr support =>
      match torch_mm adj support with
      | inl e => inl e
      | inr output =>
          match gc_bias l with
          | Some b => inr (map (fun row => zip_with Fl.add row b) output)
          | None => inr output
          end
      end
  end.

(** [reset_parameters]: Xavier weights, zero bias. *)
Definition GraphConvLayer_new (in_features out_features : nat)
  : M rng GraphConvLayer :=
  w <- draw (init_matrix in_features out_features) ;;
  ret {| gc_weight := w; gc_bias := Some (replicate out_features Fl.zero) |}.

Definition F_relu (h : matrix) : matrix := map (map Fl.relu) h.

(** [F.dropout(h, p, training)]: the identity in evaluation mode; in
    training mode the entries are masked and rescaled by [1 / (1 - p)]. *)
Definition F_dropout (h : matrix) (p : Q) (training : bool) : M rng matrix :=
  if training then
    mask <- draw (dropout_mask p (length h) (ncols h)) ;;
    ret (zip_with (zip_with (fun a k => (a * k / Fin (1 - p))%fl)) h mask)
  else ret h.

(** [x.squeeze(-1)] on an [N] by 1 tensor ([out_feats] is 1 at every call
    site of the handlers). *)
Definition squeeze_last (h : matrix) : vector :=
  map (fun row => default NaN (head row)) h.

(** [torch.cat([a, b], dim=-1)] *)
Definition cat_last (a b : matrix) : matrix := zip_with app a b.

Definition fl_exp (x : fl) : fl :=
  match x with
  | Fin q => Fin (Qexp q)
  | PInf => PInf
  | NInf => Fin 0
  | NaN => NaN
  end.

(** [nn.Softmax(dim=-1)] *)
Definition softmax_last (h : matrix) : matrix :=
  map (fun row =>
         let e := map fl_exp row in
         let total := vsum e in
         map (fun a => (a / total)%fl) e) h.

(** *** [SimpleGCN.forward] *)
Definition SimpleGCN_forward (m : SimpleGCN) (x adj_norm : matrix)
  : result vector :=
  match torch_mm adj_norm x with
  | inl e => inl e
  | inr h =>
      let h := Linear_forward (fc1 m) h in
      let h := F_relu h in
      match torch_mm adj_norm h with
      | inl e => inl e
      | inr h =>
          let h := Linear_forward (fc2 m) h in
          inr (squeeze_last h)
      end
  end.

(** *** [HybridGCN.forward] *)

(** [self.mlp] and [self.fusion]: Linear, ReLU, Dropout, Linear. *)
Definition mlp_forward (l0 l3 : Linear) (p : Q) (training : bool)
  (h : matrix) : M rng matrix :=
  let h := F_relu (Linear_forward l0 h) in
  h <- F_dropout h p training ;;
  ret (Linear_forward l3 h).

(** [self.attention]: Linear, Softmax. *)
Definition attention_forward (l0 : Linear) (h : matrix) : matrix :=
  softmax_last (Linear_forward l0 h).

(** [weights[:, k:k+1] * h]: column [k] of [weights] scales each row. *)
Definition scale_rows (weights : matrix) (k : nat) (h : matrix) : matrix :=
  zip_with (fun w row => map (fun a => (default NaN (w !! k) * a)%fl) row)
    weights h.

Definition HybridGCN_forward (m : HybridGCN) (training : bool)
  (x adj : matrix) : M rng vector :=
  (* GCN branch *)
  h <- lift (GraphConvLayer_forward (gcn1 m) x adj) ;;
  let h_gcn := F_relu h in
  h_gcn <- F_dropout h_gcn (dropout m) training ;;
  h_gcn <- lift (GraphConvLayer_forward (gcn2 m) h_gcn adj) ;;
  (* MLP branch *)
  h_mlp <- mlp_forward (mlp_0 m) (mlp_3 m) (dropout m) training x ;;
  (* attention-weighted fusion *)
  let combined := cat_last h_gcn h_mlp in
  let weights := attention_forward (attention_0 m) combined in
  let h_fused := madd (scale_rows weights 0 h_gcn) (scale_rows weights 1 h_mlp) in
  (* output *)
  out <- mlp_forward (fusion_0 m) (fusion_3 m) (dropout m) training
           (cat_last h_gcn h_mlp) ;;
  ret (squeeze_last out).

(** What C9 says [HybridGCN.forward] computes: both branches, then the
    fusion MLP on their concatenation; no attention module. *)
Definition fusion_of_branches (m : HybridGCN) (training : bool)
  (x adj : matrix) : M rng vector :=
  h <- lift (GraphConvLayer_forward (gcn1 m) x adj) ;;
  h_gcn <- F_dropout (F_relu h) (dropout m) training ;;
  h_gcn <- lift (GraphConvLayer_forward (gcn2 m) h_gcn adj) ;;
  h_mlp <- mlp_forward (mlp_0 m) (mlp_3 m) (dropout m) training x ;;
  out <- mlp_forward (fusion_0 m) (fusion_3 m) (dropout m) training
           (cat_last h_gcn h_mlp) ;;
  ret (squeeze_last out).

(** The same model with another attention layer. *)
Definition with_attention (m : HybridGCN) (a : Linear) : HybridGCN :=
  {| dropout := dropout m; gcn1 := gcn1 m; gcn2 := gcn2 m;
     mlp_0 := mlp_0 m; mlp_3 := mlp_3 m;
     fusion_0 := fusion_0 m; fusion_3 := fusion_3 m;
     attention_0 := a |}.

(** *** [TemporalGCN.forward]

    Its first statement is [N, T, F = x_seq.shape].  The handlers pass the
    rank-2 feature tensor, whose shape has two entries, so the unpacking
    raises; the rest of the method (LSTM, graph convolutions on the last
    time slice) needs a rank-3 input and is not reached. *)
Definition TemporalGCN_forward (m : TemporalGCN) (x_seq adj : matrix)
  : result vector :=
  match unpack3 (shape (Arr2 x_seq)) with
  | inl e => inl e
  | inr _ => inl (RuntimeError "input must have 3 dimensions")
  end.

End models.

(** ** Keyword arguments and [create_model] (model.py) *)

Inductive pyval : Type :=
| PNone
| PBool (b : bool)
| PInt (z : Z)
| PFloat (q : Q)
| PIntList (l : list Z).

(** Binding [**kwargs] to the keyword parameters of [cls.__init__]: a
    keyword that names no parameter raises TypeError, whatever its value
    (None included). *)
Definition bind_kwargs (cls : string) (params : list string)
  (kwargs : list (string * pyval)) : result unit :=
  match list_find (fun kv : string * pyval => kv.1 ∉ params) kwargs with
  | Some (_, (k, _)) =>
      inl (TypeError
             (cls +:+ ".__init__() got an unexpected keyword argument '"
                +:+ k +:+ "'"))
  | None => inr tt
  end.

(** The value of a keyword parameter, or its default. *)
Definition kwarg (k : string) (dflt : pyval) (kwargs : list (string * pyval))
  : pyval :=
  default dflt (dict_get k kwargs).

Definition as_int (v : pyval) : result Z :=
  match v with
  | PInt z => inr z
  | PBool b => inr (if b then 1 else 0)%Z
  | _ => inl (TypeError "an integer is required")
  end.

Definition as_float (v : pyval) : result Q :=
  match v with
  | PFloat q => inr q
  | PInt z => inr (inject_Z z)
  | PBool b => inr (if b then 1 else 0)
  | _ => inl (TypeError "must be real number")
  end.

Definition as_int_list (v : pyval) : result (list Z) :=
  match v with
  | PIntList l => inr l
  | _ => inl (TypeError "object is not iterable")
  end.

(** Truth value, as in [if use_bn]. *)
Definition truthy (v : pyval) : bool :=
  match v with
  | PNone => false
  | PBool b => b
  | PInt z => negb (z =? 0)%Z
  | PFloat q => negb (Fl.Qeqb q 0)
  | PIntList l => negb (bool_decide (l = []))
  end.

Section factory.
Context {N : Numerics} {T : Torch}.

(** An instance of one of the five model classes. *)
Inductive network : Type :=
| NSimple (m : SimpleGCN)
| NDeep (m : DeepGCN)
| NGAT (m : GATModel)
| NHybrid (m : HybridGCN)
| NTemporal (m : TemporalGCN).

(** [SimpleGCN(in_feats, hidden=32, out_feats=1)] *)
Definition SimpleGCN_new (in_feats : nat) (kwargs : list (string * pyval))
  : M rng network :=
  _ <- lift (bind_kwargs "SimpleGCN" ["hidden"; "out_feats"] kwargs) ;;
  hidden <- lift (as_int (kwarg "hidden" (PInt 32) kwargs)) ;;
  out_feats <- lift (as_int (kwarg "out_feats" (PInt 1) kwargs)) ;;
  fc1 <- Linear_new in_feats (Z.to_nat hidden) ;;
  fc2 <- Linear_new (Z.to_nat hidden) (Z.to_nat out_feats) ;;
  ret (NSimple {| fc1 := fc1; fc2 := fc2 |}).

(** [DeepGCN(in_feats, hidden_dims=[64, 32, 16], out_feats=1, dropout=0.2,
    use_bn=True)] *)
Definition DeepGCN_new (in_feats : nat) (kwargs : list (string * pyval))
  : M rng network :=
  _ <- lift (bind_kwargs "DeepGCN"
               ["hidden_dims"; "out_feats"; "dropout"; "use_bn"] kwargs) ;;
  hidden_dims <- lift (as_int_list
                   (kwarg "hidden_dims" (PIntList [64; 32; 16]%Z) kwargs)) ;;
  out_feats <- lift (as_int (kwarg "out_feats" (PInt 1) kwargs)) ;;
  p <- lift (as_float (kwarg "dropout" (PFloat 0.2) kwargs)) ;;
  let use_bn := truthy (kwarg "use_bn" (PBool true) kwargs) in
  m <- DeepGCN_init in_feats hidden_dims out_feats p use_bn ;;
  ret (NDeep m).

(** [GATModel(in_feats, hidden=64, out_feats=1, heads=4, dropout=0.2)] *)
Definition GATModel_new (in_feats : nat) (kwargs : list (string * pyval))
  : M rng network :=
  _ <- lift (bind_kwargs "GATModel"
               ["hidden"; "out_feats"; "heads"; "dropout"] kwargs) ;;
  hidden <- lift (as_int (kwarg "hidden" (PInt 64) kwargs)) ;;
  out_feats <- lift (as_int (kwarg "out_feats" (PInt 1) kwargs)) ;;
  heads <- lift (as_int (kwarg "heads" (PInt 4) kwargs)) ;;
  p <- lift (as_float (kwarg "dropout" (PFloat 0.2) kwargs)) ;;
  m <- GATModel_init in_feats hidden out_feats heads p ;;
  ret (NGAT m).

(** [HybridGCN(in_feats, gcn_hidden=32, lstm_hidden=32, out_feats=1,
    dropout=0.2)] *)
Definition HybridGCN_new (in_feats : nat) (kwargs : list (string * pyval))
  : M rng network :=
  _ <- lift (bind_kwargs "HybridGCN"
               ["gcn_hidden"; "lstm_hidden"; "out_feats"; "dropout"] kwargs) ;;
  gcn_hidden <- lift (as_int (kwarg "gcn_hidden" (PInt 32) kwargs)) ;;
  out_feats <- lift (as_int (kwarg "out_feats" (PInt 1) kwargs)) ;;
  p <- lift (as_float (kwarg "dropout" (PFloat 0.2) kwargs)) ;;
  let h := Z.to_nat gcn_hidden in
  g1 <- GraphConvLayer_new in_feats h ;;
  g2 <- GraphConvLayer_new h h ;;
  m0 <- Linear_new in_feats h ;;
  m3 <- Linear_new h h ;;
  f0 <- Linear_new (h * 2) h ;;
  f3 <- Linear_new h (Z.to_nat out_feats) ;;
  a0 <- Linear_new (h * 2) 2 ;;
  ret (NHybrid {| dropout := p; gcn1 := g1; gcn2 := g2;
                  mlp_0 := m0; mlp_3 := m3;
                  fusion_0 := f0; fusion_3 := f3; attention_0 := a0 |}).

(** [TemporalGCN(in_feats, seq_len=20, hidden=32, out_feats=1,
    num_layers=2, dropout=0.2)] *)
Definition TemporalGCN_new (in_feats : nat) (kwargs : list (string * pyval))
  : M rng network :=
  _ <- lift (bind_kwargs "TemporalGCN"
               ["seq_len"; "hidden"; "out_feats"; "num_layers"; "dropout"]
               kwargs) ;;
  seq_len <- lift (as_int (kwarg "seq_len" (PInt 20) kwargs)) ;;
  hidden <- lift (as_int (kwarg "hidden" (PInt 32) kwargs)) ;;
  out_feats <- lift (as_int (kwarg "out_feats" (PInt 1) kwargs)) ;;
  num_layers <- lift (as_int (kwarg "num_layers" (PInt 2) kwargs)) ;;
  p <- lift (as_float (kwarg "dropout" (PFloat 0.2) kwargs)) ;;
  m <- TemporalGCN_init in_feats seq_len hidden out_feats num_layers p ;;
  ret (NTemporal m).

(** The [models] dict of [create_model]. *)
Definition models
  : list (string * (nat -> list (string * pyval) -> M rng network)) :=
  [("simple", SimpleGCN_new);
   ("deep", DeepGCN_new);
   ("gat", GATModel_new);
   ("hybrid", HybridGCN_new);
   ("temporal", TemporalGCN_new)].

(** [create_model(model_type, in_feats, **kwargs)] *)
Definition create_model (model_type : string) (in_feats : nat)
  (kwargs : list (string * pyval)) : M rng network :=
  match dict_get model_type models with
  | None => raise (ValueError ("Unknown model type: " +:+ model_type))
  | Some cls => cls in_feats kwargs
  end.

(** The dtype of the adjacency tensor.  The features are read with
    [dtype=np.float32] and every parameter is a [FloatTensor]; the
    adjacency is float32 when it comes from [build_adj_matrix] or from
    [np.ones((n, n), dtype=np.float32)], and float64 after
    [A + np.eye(n)]: [np.eye] is float64 and the sum takes the wider type.
    [normalize_adj] and [torch.from_numpy] keep the dtype. *)
Inductive dtype : Type := float32 | float64.

(** [torch.matmul] and [torch.mm] raise RuntimeError on operands of
    different dtypes. *)
Definition dtype_mismatch : exn :=
  RuntimeError
    "expected m1 and m2 to have the same dtype, but got: double != float".

(** [model(x, adj)] for an adjacency of dtype [dt]; [training] is the mode
    set by [model.train()] or [model.eval()].  With a float64 adjacency the
    first product by [adj] raises: [torch.matmul(adj_norm, x)] is the first
    statement of [SimpleGCN.forward]; in [DeepGCN] and [HybridGCN] it is
    [torch.mm(adj, support)] of the first [GraphConvLayer], after
    [torch.mm(x, self.weight)].  [GATModel] only compares [adj] with 0, and
    [TemporalGCN] unpacks the shape of [x] first. *)
Definition forward (dt : dtype) (model : network) (training : bool)
  (x adj : matrix) : M rng vector :=
  match dt with
  | float32 =>
      match model with
      | NSimple m => lift (SimpleGCN_forward m x adj)
      | NDeep m => DeepGCN_forward m training x adj
      | NGAT m => GATModel_forward m training x adj
      | NHybrid m => HybridGCN_forward m training x adj
      | NTemporal m => lift (TemporalGCN_forward m x adj)
      end
  | float64 =>
      match model with
      | NSimple _ | NDeep _ => raise dtype_mismatch
      | NGAT m => GATModel_forward m training x adj
      | NHybrid m =>
          _ <- lift (torch_mm x (gc_weight (gcn1 m))) ;;
          raise dtype_mismatch
      | NTemporal m => lift (TemporalGCN_forward m x adj)
      end
  end.

(** ** [train_model] (app.py), with its default [loss_type="smooth"] *)

Definition vmean (v : vector) : fl :=
  (vsum v / Fin (inject_Z (Z.of_nat (length v))))%fl.

(** [out.var()]: the unbiased variance, NaN for a single value. *)
Definition var (v : vector) : fl :=
  let m := vmean v in
  (vsum (map (fun a => (a - m) * (a - m)) v)
   / Fin (inject_Z (Z.of_nat (length v) - 1)))%fl.

(** [torch.where(row > 0)[0]] *)
Definition neighbours (row : vector) : list nat :=
  omap (fun ia : nat * fl => if Fl.gtb ia.2 (Fin 0) then Some ia.1 else None)
    (imap pair row).

Definition smooth_loss (out : vector) (adj : matrix) : fl :=
  let n := length adj in
  let at_ (i : nat) := default NaN (out !! i) in
  let loss_smooth :=
    foldl (fun (acc : fl) (i : nat) =>
             let neigh := neighbours (default [] (adj !! i)) in
             if (0 <? length neigh)%nat then
               (acc + vmean (map (fun j => (at_ i - at_ j) * (at_ i - at_ j))
                               neigh))%fl
             else acc)
      (Fin 0.0) (seq 0 n) in
  let loss_smooth :=
    (loss_smooth / Fin (inject_Z (Z.of_nat (Nat.max 1 n))))%fl in
  let loss_var := Fl.neg (var out) in
  (loss_smooth + Fin 0.1 * loss_var)%fl.

(** [loss.backward(); optimizer.step()] *)
Definition backward_step (opt : optimizer) (model : network) (x adj : matrix)
  : network * optimizer :=
  match model with
  | NSimple m => let (m', o) := step_SimpleGCN opt m x adj in (NSimple m', o)
  | NDeep m => let (m', o) := step_DeepGCN opt m x adj in (NDeep m', o)
  | NGAT m => let (m', o) := step_GATModel opt m x adj in (NGAT m', o)
  | NHybrid m => let (m', o) := step_HybridGCN opt m x adj in (NHybrid m', o)
  | NTemporal m =>
      let (m', o) := step_TemporalGCN opt m x adj in (NTemporal m', o)
  end.

(** The loop state: model, optimizer, [training_history], last [loss]. *)
Record train_state : Type := {
  ts_model : network;
  ts_optimizer : optimizer;
  ts_history : list json;
  ts_loss : option fl
}.

(** One turn of [for epoch in range(epochs)]. *)
Definition train_epoch (dt : dtype) (x adj : matrix) (st : train_state)
  (epoch : nat) : M rng train_state :=
  out <- forward dt (ts_model st) true x adj ;;
  let loss := smooth_loss out adj in
  let (model, opt) := backward_step (ts_optimizer st) (ts_model st) x adj in
  let history :=
    if (epoch mod 10 =? 0)%nat then
      ts_history st ++
        [JDict [("epoch", JInt (Z.of_nat epoch)); ("loss", JFloat loss)]]
    else ts_history st in
  ret {| ts_model := model; ts_optimizer := opt;
         ts_history := history; ts_loss := Some loss |}.

(** [optim.Adam(model.parameters(), lr=lr)]: its constructor raises
    ValueError for a negative learning rate (the message goes on with the
    value of [lr]). *)
Definition optim_Adam (lr : Q) : result optimizer :=
  if Fl.Qltb lr 0 then inl (ValueError "Invalid learning rate")
  else inr (Adam lr).

(** Returns the trained model and the dict [{"final_loss", "history"}];
    with no epoch run, [loss] is unbound at the [return].  [dt] is the
    dtype of [adj]. *)
Definition train_model (dt : dtype) (model : network) (x adj : matrix)
  (epochs : Z) (lr : Q) : M rng (network * json) :=
  optimizer <- lift (optim_Adam lr) ;;
  st <- for_each (seq 0 (Z.to_nat epochs)) (train_epoch dt x adj)
          {| ts_model := model; ts_optimizer := optimizer;
             ts_history := []; ts_loss := None |} ;;
  match ts_loss st with
  | Some loss =>
      ret (ts_model st,
           JDict [("final_loss", JFloat loss);
                  ("history", JList (ts_history st))])
  | None =>
      raise (UnboundLocalError
        "cannot access local variable 'loss' where it is not associated with a value")
  end.

End factory.

(** ** Graph builders (model.py) *)

Section graphs.
Context {N : Numerics} {T : Torch}.

Definition fl_abs (x : fl) : fl :=
  match x with
  | Fin q => Fin (Qabs q)
  | PInf | NInf => PInf
  | NaN => NaN
  end.

(** [np.fill_diagonal(adj, 0)] *)
Definition fill_diagonal (adj : matrix) (v : fl) : matrix :=
  imap (fun i row => <[i := v]> row) adj.

(** [adj.T] *)
Definition transpose (adj : matrix) : matrix :=
  map (column adj) (seq 0 (ncols adj)).

(** [A + B] on rank-2 arrays.  Both operands are square at the call sites,
    so beyond equal shapes only a 1-by-1 operand broadcasts. *)
Definition np_add (A B : matrix) : result matrix :=
  if bool_decide (map length A = map length B) then inr (madd A B)
  else
    match A, B with
    | [[a]], _ => inr (map (map (Fl.add a)) B)
    | _, [[b]] => inr (map (map (fun x => (x + b)%fl)) A)
    | _, _ =>
        inl (ValueError "operands could not be broadcast together")
    end.

Definition build_correlation_graph (returns : matrix) (threshold : Q)
  : result matrix :=
  match corrcoef returns with
  | inl e => inl e
  | inr corr_matrix =>
      let adj :=
        map (map (fun c => if Fl.gtb (fl_abs c) (Fin threshold)
                           then Fin 1 else Fin 0)) corr_matrix in
      inr (fill_diagonal adj (Fin 0))
  end.

Definition build_knn_graph (features : matrix) (k : Z) : result matrix :=
  match kneighbors_graph features k with
  | inl e => inl e
  | inr adj => inr (zip_with (zip_with Fl.max) adj (transpose adj))
  end.

End graphs.

(** ** Request models (app.py) *)

(** The constraints of a pydantic [Field]; a field declared without
    [Field(...)] has none. *)
Record Field : Type := {
  ge : option Q;
  le : option Q
}.

Definition unconstrained : Field := {| ge := None; le := None |}.

Definition Field_ok (c : Field) (v : Q) : bool :=
  match ge c with Some lo => Qle_bool lo v | None => true end
  && match le c with Some hi => Qle_bool v hi | None => true end.

(** Validation of the scalar numeric fields of a request, each given with
    its name, its constraints and its value. *)
Definition fields_ok (fields : list (string * Field * Q)) : bool :=
  forallb (fun nf : string * Field * Q => Field_ok nf.1.2 nf.2) fields.

Module GCNRequest.
Record t : Type := {
  nodes : list string;
  features : list (list fl);
  adjacency : list (list Z);
  train_epochs : Z          (* int = 0 *)
}.
Definition numeric_fields (r : t) : list (string * Field * Q) :=
  [("train_epochs", unconstrained, inject_Z (train_epochs r))].
Definition validate (r : t) : bool := fields_ok (numeric_fields r).
End GCNRequest.

Module AdvancedGCNRequest.
Record t : Type := {
  nodes : list string;
  features : list (list fl);
  adjacency : option (list (list Z));
  returns : option (list (list fl));
  model_type : string;
  train_epochs : Z;             (* Field(default=50, ge=0, le=500) *)
  hidden_dim : Z;               (* Field(default=32, ge=8, le=256) *)
  dropout : Q;                  (* Field(default=0.2, ge=0, le=0.5) *)
  learning_rate : Q;            (* Field(default=0.01, ge=0.0001, le=0.1) *)
  correlation_threshold : Q;    (* Field(default=0.3, ge=0, le=1) *)
  use_knn_graph : bool;
  knn_k : Z                     (* Field(default=5, ge=1, le=20) *)
}.
Definition numeric_fields (r : t) : list (string * Field * Q) :=
  [("train_epochs", {| ge := Some 0; le := Some 500 |},
      inject_Z (train_epochs r));
   ("hidden_dim", {| ge := Some 8; le := Some 256 |},
      inject_Z (hidden_dim r));
   ("dropout", {| ge := Some 0; le := Some 0.5 |}, dropout r);
   ("learning_rate", {| ge := Some 0.0001; le := Some 0.1 |},
      learning_rate r);
   ("correlation_threshold", {| ge := Some 0; le := Some 1 |},
      correlation_threshold r);
   ("knn_k", {| ge := Some 1; le := Some 20 |}, inject_Z (knn_k r))].
Definition validate (r : t) : bool := fields_ok (numeric_fields r).
End AdvancedGCNRequest.

Module MultiModelRequest.
Record t : Type := {
  nodes : list string;
  features : list (list fl);
  adjacency : option (list (list Z));
  model_types : list string;
  train_epochs : Z;         (* int = 50 *)
  returns : option (list (list fl))
}.
Definition numeric_fields (r : t) : list (string * Field * Q) :=
  [("train_epochs", unconstrained, inject_Z (train_epochs r))].
Definition validate (r : t) : bool := fields_ok (numeric_fields r).
End MultiModelRequest.

Module StockClusterRequest.
Record t : Type := {
  nodes : list string;
  features : list (list fl);
  n_clusters : Z            (* Field(default=5, ge=2, le=20) *)
}.
Definition numeric_fields (r : t) : list (string * Field * Q) :=
  [("n_clusters", {| ge := Some 2; le := Some 20 |},
      inject_Z (n_clusters r))].
Definition validate (r : t) : bool := fields_ok (numeric_fields r).
End StockClusterRequest.

Module FeatureImportanceRequest.
Record t : Type := {
  nodes : list string;
  features : list (list fl);
  feature_names : list string;
  adjacency : list (list Z)
}.
Definition numeric_fields (r : t) : list (string * Field * Q) := [].
Definition validate (r : t) : bool := fields_ok (numeric_fields r).
End FeatureImportanceRequest.

(** ** HTTP responses *)

Inductive response : Type :=
| Ok200 (body : json)
| ErrorResponse (status : Z) (detail : string).

(** What FastAPI sends for the outcome of a handler: the returned body, the
    status and detail of a raised [HTTPException], a plain 500 for any
    other exception. *)
Definition respond (r : result json) : response :=
  match r with
  | inr body => Ok200 body
  | inl (HTTPException status_code detail) => ErrorResponse status_code detail
  | inl _ => ErrorResponse 500 "Internal Server Error"
  end.

(** A POST route: the body is validated against the request model (422 on
    failure) before the handler runs. *)
Definition route {S Req} (validate : Req -> bool) (handler : Req -> M S json)
  (req : Req) (s : S) : response * S :=
  if validate req then
    let (r, s') := handler req s in (respond r, s')
  else (ErrorResponse 422 "Unprocessable Entity", s).

Definition is_client_error (r : response) : bool :=
  match r with
  | ErrorResponse status _ => (400 <=? status)%Z && (status <? 500)%Z
  | Ok200 _ => false
  end.

(** ** The handlers (app.py) *)

Section handlers.
Context {N : Numerics} {T : Torch}.

(** The [except Exception as e] clause that closes every handler: the
    error is logged and re-raised as a 500 carrying [str(e)]. *)
Definition reraise_500 (e : exn) : M rng json :=
  raise (HTTPException 500 (str_exn e)).

(** [{nodes[i]: float(norm_scores[i]) for i in range(n)}] *)
Definition scores_dict (nodes : list string) (norm_scores : list fl) (n : nat)
  : M rng (list (string * fl)) :=
  for_each (seq 0 n)
    (fun d i =>
       k <- list_getitem nodes i ;;
       v <- list_getitem norm_scores i ;;
       ret (dict_set k v d))
    [].

(** [[(nodes[i], norm_scores[i]) for i in range(n)]] *)
Definition score_pairs (nodes : list string) (norm_scores : list fl) (n : nat)
  : M rng (list (string * fl)) :=
  for_each (seq 0 n)
    (fun l i =>
       k <- list_getitem nodes i ;;
       v <- list_getitem norm_scores i ;;
       ret (l ++ [(k, v)]))
    [].

Definition scores_json (scores : list (string * fl)) : json :=
  JDict (map (fun kv : string * fl => (kv.1, JFloat kv.2)) scores).

Definition JNat (n : nat) : json := JInt (Z.of_nat n).

(** *** [POST /gcn/predict] *)
Definition gcn_predict (req : GCNRequest.t) : M rng json :=
  try_except
    (let nodes := GCNRequest.nodes req in
     X <- lift (np_array (GCNRequest.features req)) ;;
     let edges := GCNRequest.adjacency req in
     nf <- lift (unpack2 (shape X)) ;;
     let '(n, f) := nf in
     if (n =? 0)%nat then
       ret (JDict [("scores", JDict []);
                   ("info", JDict [("error", JStr "no nodes")])])
     else
       let A := build_adj_matrix n edges in
       let A_norm := normalize_adj A in
       let x := as_matrix X in
       model <- SimpleGCN_new f
                  [("hidden", PInt (Z.max 16 (Z.of_nat f * 2)));
                   ("out_feats", PInt 1)] ;;
       trained <-
         (if (0 <? GCNRequest.train_epochs req)%Z then
            train_model float32 model x A_norm
              (GCNRequest.train_epochs req) 0.01
          else ret (model, JDict [])) ;;
       let '(model, train_info) := trained in
       scores_tensor <- forward float32 model false x A_norm ;;
       norm_scores <- lift (normalize_scores scores_tensor) ;;
       scores <- scores_dict nodes norm_scores n ;;
       let info :=
         JDict [("n_nodes", JNat n);
                ("n_features", JNat f);
                ("train_epochs", JInt (GCNRequest.train_epochs req));
                ("training", train_info)] in
       ret (JDict [("scores", scores_json scores); ("info", info)]))
    reraise_500.

(** *** [POST /gcn/advanced] *)

(** Truth value of an [Optional[List]] field: [None] and the empty list
    are both false. *)
Definition nonempty {A} (o : option (list A)) : bool :=
  match o with
  | Some (_ :: _) => true
  | _ => false
  end.

(** The correlation branch: [np.array(req.returns)], the thresholded
    correlation graph, then [A + np.eye(n)]. *)
Definition correlation_source (returns : list (list fl)) (threshold : Q)
  (n : nat) : result matrix :=
  match np_array returns with
  | inl e => inl e
  | inr returns =>
      match build_correlation_graph (as_matrix returns) threshold with
      | inl e => inl e
      | inr A => np_add A (eye n)
      end
  end.

(** The k-NN branch: [build_knn_graph(X, k)], then [A + np.eye(n)]. *)
Definition knn_source (X : matrix) (k : Z) (n : nat) : result matrix :=
  match build_knn_graph X k with
  | inl e => inl e
  | inr A => np_add A (eye n)
  end.

(** The graph of the request: the chain [if req.adjacency: ... elif
    req.returns: ... elif req.use_knn_graph: ... else: ...]. *)
Definition advanced_graph (req : AdvancedGCNRequest.t) (n : nat) (X : matrix)
  : result matrix :=
  match AdvancedGCNRequest.adjacency req with
  | Some (e :: es) => inr (build_adj_matrix n (e :: es))
  | _ =>
      match AdvancedGCNRequest.returns req with
      | Some (r :: rs) =>
          correlation_source (r :: rs)
            (AdvancedGCNRequest.correlation_threshold req) n
      | _ =>
          if AdvancedGCNRequest.use_knn_graph req then
            knn_source X (AdvancedGCNRequest.knn_k req) n
          else inr (ones n n)
      end
  end.

(** The dtype of that graph: float32 from [build_adj_matrix] and [np.ones],
    float64 after [A + np.eye(n)]. *)
Definition advanced_dtype (req : AdvancedGCNRequest.t) : dtype :=
  if nonempty (AdvancedGCNRequest.adjacency req) then float32
  else if nonempty (AdvancedGCNRequest.returns req) then float64
  else if AdvancedGCNRequest.use_knn_graph req then float64
  else float32.

(** The keyword arguments of the [create_model] call: all three are always
    passed, with [None] where the model type does not match. *)
Definition advanced_kwargs (req : AdvancedGCNRequest.t)
  : list (string * pyval) :=
  let model_type := AdvancedGCNRequest.model_type req in
  let hidden_dim := AdvancedGCNRequest.hidden_dim req in
  [("hidden",
      if decide (model_type = "simple") then PInt hidden_dim else PNone);
   ("hidden_dims",
      if decide (model_type = "deep")
      then PIntList [hidden_dim; hidden_dim / 2]%Z else PNone);
   ("dropout", PFloat (AdvancedGCNRequest.dropout req))].

Definition msum (A : matrix) : fl := vsum (map vsum A).

Definition ranking_json (ranked : list (string * fl)) : json :=
  JList (imap (fun i kv =>
                 JDict [("rank", JNat (i + 1)); ("node", JStr kv.1);
                        ("score", JFloat kv.2)]) ranked).

Definition gcn_advanced (req : AdvancedGCNRequest.t) : M rng json :=
  try_except
    (let nodes := AdvancedGCNRequest.nodes req in
     X <- lift (np_array (AdvancedGCNRequest.features req)) ;;
     nf <- lift (unpack2 (shape X)) ;;
     let '(n, f) := nf in
     if (n =? 0)%nat then
       raise (HTTPException 400 "No nodes provided")
     else
       let x := as_matrix X in
       A <- lift (advanced_graph req n x) ;;
       let A_norm := normalize_adj A in
       model <- create_model (AdvancedGCNRequest.model_type req) f
                  (advanced_kwargs req) ;;
       trained <-
         (if (0 <? AdvancedGCNRequest.train_epochs req)%Z then
            train_model (advanced_dtype req) model x A_norm
              (AdvancedGCNRequest.train_epochs req)
              (AdvancedGCNRequest.learning_rate req)
          else ret (model, JDict [])) ;;
       let '(model, train_info) := trained in
       scores_tensor <- forward (advanced_dtype req) model false x A_norm ;;
       norm_scores <- lift (normalize_scores scores_tensor) ;;
       scores <- scores_dict nodes norm_scores n ;;
       let ranked := sorted_desc snd scores in
       n_edges <- lift (fl_to_int
                          (msum A - Fin (inject_Z (Z.of_nat n)))%fl) ;;
       ret (JDict
              [("scores", scores_json scores);
               ("ranking", ranking_json ranked);
               ("model_type", JStr (AdvancedGCNRequest.model_type req));
               ("info",
                JDict [("n_nodes", JNat n);
                       ("n_features", JNat f);
                       ("n_edges", JInt n_edges);
                       ("train_epochs",
                        JInt (AdvancedGCNRequest.train_epochs req));
                       ("training", train_info)])]))
    reraise_500.

(** *** [POST /gcn/compare] *)

(** An entry of the [results] dict. *)
Inductive compare_entry : Type :=
| Scored (scores : list (string * fl)) (top5 : list (string * fl))
| Failed (error : string)
| Agreement (correlations : list json).

Definition has_scores (r : compare_entry) : bool :=
  match r with Scored _ _ => true | _ => false end.

Definition compare_graph (req : MultiModelRequest.t) (n : nat)
  : result matrix :=
  match MultiModelRequest.adjacency req with
  | Some (e :: es) => inr (build_adj_matrix n (e :: es))
  | _ =>
      match MultiModelRequest.returns req with
      | Some (r :: rs) => correlation_source (r :: rs) 0.3 n
      | _ => inr (ones n n)
      end
  end.

(** The dtype of that graph. *)
Definition compare_dtype (req : MultiModelRequest.t) : dtype :=
  if nonempty (MultiModelRequest.adjacency req) then float32
  else if nonempty (MultiModelRequest.returns req) then float64
  else float32.

(** One turn of [for model_type in req.model_types], with its own
    [try ... except Exception]; [dt] is the dtype of [adj]. *)
Definition compare_one (nodes : list string) (n f : nat) (x : matrix)
  (dt : dtype) (adj : matrix)
  (train_epochs : Z) (results : list (string * compare_entry))
  (model_type : string) : M rng (list (string * compare_entry)) :=
  try_except
    (model <- create_model model_type f [] ;;
     model <-
       (if (0 <? train_epochs)%Z then
          trained <- train_model dt model x adj train_epochs 0.01 ;;
          ret trained.1
        else ret model) ;;
     scores <- forward dt model false x adj ;;
     norm_scores <- lift (normalize_scores scores) ;;
     sc <- scores_dict nodes norm_scores n ;;
     pairs <- score_pairs nodes norm_scores n ;;
     ret (dict_set model_type
            (Scored sc (take 5 (sorted_desc snd pairs))) results))
    (fun e => ret (dict_set model_type (Failed (str_exn e)) results)).

(** [[r["scores"][n] for n in nodes]] *)
Definition score_list (nodes : list string) (scores : list (string * fl))
  : M rng (list fl) :=
  for_each nodes
    (fun l name =>
       match dict_get name scores with
       | Some v => ret (l ++ [v])
       | None => raise (KeyError name)
       end)
    [].

Definition score_lists (nodes : list string)
  (results : list (string * compare_entry)) : M rng (list (list fl)) :=
  for_each results
    (fun ls kr =>
       match kr.2 with
       | Scored scores _ => l <- score_list nodes scores ;; ret (ls ++ [l])
       | _ => ret ls
       end)
    [].

(** The index pairs of [for i in range(k): for j in range(i + 1, k)]. *)
Definition index_pairs (k : nat) : list (nat * nat) :=
  flat_map (fun i => map (pair i) (seq (S i) (k - S i))) (seq 0 k).

Definition model_agreement (lists : list (list fl)) (model_names : list string)
  : M rng (list json) :=
  for_each (index_pairs (length lists))
    (fun correlations ij =>
       corr <- lift (spearmanr (default [] (lists !! ij.1))
                               (default [] (lists !! ij.2))) ;;
       m1 <- list_getitem model_names ij.1 ;;
       m2 <- list_getitem model_names ij.2 ;;
       ret (correlations ++
              [JDict [("model1", JStr m1); ("model2", JStr m2);
                      ("spearman", JFloat corr)]]))
    [].

Definition pair_json (kv : string * fl) : json :=
  JList [JStr kv.1; JFloat kv.2].

Definition entry_json (r : compare_entry) : json :=
  match r with
  | Scored scores top5 =>
      JDict [("scores", scores_json scores);
             ("top5", JList (map pair_json top5))]
  | Failed error => JDict [("error", JStr error)]
  | Agreement correlations => JList correlations
  end.

Definition results_json (results : list (string * compare_entry)) : json :=
  JDict (map (fun kr : string * compare_entry => (kr.1, entry_json kr.2))
           results).

Definition gcn_compare (req : MultiModelRequest.t) : M rng json :=
  try_except
    (let nodes := MultiModelRequest.nodes req in
     X <- lift (np_array (MultiModelRequest.features req)) ;;
     nf <- lift (unpack2 (shape X)) ;;
     let '(n, f) := nf in
     if (n =? 0)%nat then
       raise (HTTPException 400 "No nodes provided")
     else
       let x := as_matrix X in
       A <- lift (compare_graph req n) ;;
       let adj := normalize_adj A in
       results <- for_each (MultiModelRequest.model_types req)
                    (compare_one nodes n f x (compare_dtype req) adj
                       (MultiModelRequest.train_epochs req))
                    [] ;;
       results <-
         (if (2 <=? length results)%nat then
            lists <- score_lists nodes results ;;
            if (2 <=? length lists)%nat then
              let model_names :=
                dict_keys (filter (fun kr => has_scores kr.2 = true)
                             results) in
              correlations <- model_agreement lists model_names ;;
              ret (dict_set "model_agreement" (Agreement correlations)
                     results)
            else ret results
          else ret results) ;;
       ret (JDict [("results", results_json results);
                   ("n_nodes", JNat n);
                   ("n_features", JNat f)]))
    reraise_500.

End handlers.

Section handlers_sklearn.
Context {N : Numerics} {T : Torch}.

(** [coords[i, j]] with NumPy's IndexError out of range. *)
Definition matrix_getitem (A : matrix) (i j : nat) : M rng fl :=
  match mget A i j with
  | Some v => ret v
  | None => raise (IndexError "index is out of bounds")
  end.

(** *** [POST /gcn/cluster] *)

(** [clusters[label_str].append(point)], creating the list on first use. *)
Definition cluster_append (label_str : string) (point : json)
  (clusters : list (string * list json)) : list (string * list json) :=
  dict_set label_str (default [] (dict_get label_str clusters) ++ [point])
    clusters.

Definition cluster_detail (n : nat) (n_clusters : Z) : string :=
  "節點數 " +:+ pretty n +:+ " 小於聚類數 " +:+ pretty n_clusters.

Definition gcn_cluster (req : StockClusterRequest.t) : M rng json :=
  try_except
    (let nodes := StockClusterRequest.nodes req in
     let n_clusters := StockClusterRequest.n_clusters req in
     X <- lift (np_array (StockClusterRequest.features req)) ;;
     nf <- lift (unpack2 (shape X)) ;;
     let '(n, f) := nf in
     if (Z.of_nat n <? n_clusters)%Z then
       raise (HTTPException 400 (cluster_detail n n_clusters))
     else
       let x := as_matrix X in
       (* K-Means *)
       km <- lift (KMeans_fit_predict n_clusters x) ;;
       let '(labels, cluster_centers_) := km in
       (* PCA for the 2-D view *)
       pca <- (if (2 <? f)%nat then lift (PCA_fit_transform x)
               else ret (x, [Fin 1.0; Fin 0.0])) ;;
       let '(coords, explained_var) := pca in
       clusters <-
         for_each (imap pair labels)
           (fun clusters il =>
              let label_str := pretty (il.2 : Z) in
              node <- list_getitem nodes il.1 ;;
              cx <- matrix_getitem coords il.1 0 ;;
              cy <- matrix_getitem coords il.1 1 ;;
              ret (cluster_append label_str
                     (JDict [("node", JStr node); ("x", JFloat cx);
                             ("y", JFloat cy)])
                     clusters))
           [] ;;
       cluster_centers <-
         for_each (seq 0 (Z.to_nat n_clusters))
           (fun centers i =>
              center <- list_getitem cluster_centers_ i ;;
              ret (centers ++
                     [JDict [("cluster", JNat i);
                             ("center", JList (map JFloat center));
                             ("size",
                              JNat (length
                                      (default []
                                         (dict_get (pretty (Z.of_nat i))
                                            clusters))))]]))
           [] ;;
       node_labels <-
         for_each (seq 0 n)
           (fun d i =>
              node <- list_getitem nodes i ;;
              label <- list_getitem labels i ;;
              ret (dict_set node (JInt label) d))
           [] ;;
       ret (JDict
              [("clusters",
                JDict (map (fun kv : string * list json => (kv.1, JList kv.2))
                         clusters));
               ("cluster_centers", JList cluster_centers);
               ("node_labels", JDict node_labels);
               ("pca_explained_variance", JList (map JFloat explained_var));
               ("n_clusters", JInt n_clusters)]))
    reraise_500.

(** *** [POST /gcn/importance] *)

Definition importance_detail (names f : nat) : string :=
  "特徵名稱數量 " +:+ pretty names +:+ " 與特徵數 " +:+ pretty f +:+ " 不符".

(** [x.grad.abs().mean(dim=0)] *)
Definition mean_abs_columns (grad : matrix) (f : nat) : vector :=
  map (fun j => vmean (map fl_abs (column grad j))) (seq 0 f).

Definition feature_importance (req : FeatureImportanceRequest.t)
  : M rng json :=
  try_except
    (let nodes := FeatureImportanceRequest.nodes req in
     let feature_names := FeatureImportanceRequest.feature_names req in
     X <- lift (np_array (FeatureImportanceRequest.features req)) ;;
     nf <- lift (unpack2 (shape X)) ;;
     let '(n, f) := nf in
     if negb (length feature_names =? f)%nat then
       raise (HTTPException 400 (importance_detail (length feature_names) f))
     else
       let x := as_matrix X in
       let A := build_adj_matrix n (FeatureImportanceRequest.adjacency req) in
       let adj := normalize_adj A in
       model <- SimpleGCN_new f [("hidden", PInt 32); ("out_feats", PInt 1)] ;;
       (* training *)
       trained <- train_model float32 model x adj 100 0.01 ;;
       let model := trained.1 in
       (* gradient of the summed output with respect to the input *)
       out <- forward float32 model false x adj ;;
       let grad :=
         match model with
         | NSimple m => input_gradient m x adj
         | _ => []
         end in
       let gradients := mean_abs_columns grad f in
       let total := vsum gradients in
       let importance := map (fun g => (g / total)%fl) gradients in
       items <-
         for_each (seq 0 f)
           (fun l i =>
              name <- list_getitem feature_names i ;;
              v <- list_getitem importance i ;;
              ret (l ++ [(name, v)]))
           [] ;;
       let ranked := sorted_desc snd items in
       let item_json (kv : string * fl) :=
         JDict [("feature", JStr kv.1); ("importance", JFloat kv.2)] in
       ret (JDict
              [("feature_importance", JList (map item_json ranked));
               ("top_features", JList (map item_json (take 5 ranked)));
               ("method", JStr "gradient_based")]))
    reraise_500.

(** ** The five POST routes *)

Definition post_gcn_predict :=
  route GCNRequest.validate gcn_predict.
Definition post_gcn_advanced :=
  route AdvancedGCNRequest.validate gcn_advanced.
Definition post_gcn_compare :=
  route MultiModelRequest.validate gcn_compare.
Definition post_gcn_cluster :=
  route StockClusterRequest.validate gcn_cluster.
Definition post_gcn_importance :=
  route FeatureImportanceRequest.validate feature_importance.

End handlers_sklearn.

(** ** A deterministic stand-in for the library

    Used to run the handlers on concrete requests: the generator state is a
    draw counter, weights start at zero, dropout keeps every entry, the
    optimizer leaves the parameters unchanged, and the scikit-learn and
    SciPy routines are absent. *)

Definition unavailable {A} (name : string) : result A :=
  inl (RuntimeError (name +:+ " is not available")).

Definition stub_torch : Torch := {|
  rng := nat;
  init_matrix := fun r c s => (replicate r (replicate c (Fin 0)), S s);
  init_vector := fun n s => (replicate n (Fin 0), S s);
  dropout_mask := fun _ r c s => (replicate r (replicate c (Fin 1)), S s);
  DeepGCN := unit;
  GATModel := unit;
  TemporalGCN := unit;
  DeepGCN_init := fun _ _ _ _ _ => ret tt;
  GATModel_init := fun _ _ _ _ _ => ret tt;
  TemporalGCN_init := fun _ _ _ _ _ _ => ret tt;
  DeepGCN_forward := fun _ _ x _ => ret (map (fun _ => Fin 0) x);
  GATModel_forward := fun _ _ x _ => ret (map (fun _ => Fin 0) x);
  optimizer := unit;
  Adam := fun _ => tt;
  step_SimpleGCN := fun o m _ _ => (m, o);
  step_DeepGCN := fun o m _ _ => (m, o);
  step_GATModel := fun o m _ _ => (m, o);
  step_HybridGCN := fun o m _ _ => (m, o);
  step_TemporalGCN := fun o m _ _ => (m, o);
  input_gradient := fun _ x _ => x;
  corrcoef := fun _ => unavailable "np.corrcoef";
  kneighbors_graph := fun _ _ => unavailable "kneighbors_graph";
  KMeans_fit_predict := fun _ _ => unavailable "KMeans";
  PCA_fit_transform := fun _ => unavailable "PCA";
  spearmanr := fun _ _ => unavailable "spearmanr"
|}.

(** ** Example requests *)

(** The compare scenario of the specification: a supported and an unknown
    model type. *)
Definition compare_simple_bogus : MultiModelRequest.t :=
  {| MultiModelRequest.nodes := ["A"; "B"; "C"];
     MultiModelRequest.features :=
       [[Fin 1; Fin 0]; [Fin 0; Fin 1]; [Fin 1; Fin 1]];
     MultiModelRequest.adjacency := Some [[0; 1]; [1; 2]]%Z;
     MultiModelRequest.model_types := ["simple"; "bogus"];
     MultiModelRequest.train_epochs := 50;
     MultiModelRequest.returns := None |}.

(** A two-node [/gcn/advanced] request with every optional field at its
    default. *)
Definition advanced_request (model_type : string) : AdvancedGCNRequest.t :=
  {| AdvancedGCNRequest.nodes := ["A"; "B"];
     AdvancedGCNRequest.features := [[Fin 1; Fin 0]; [Fin 0; Fin 1]];
     AdvancedGCNRequest.adjacency := None;
     AdvancedGCNRequest.returns := None;
     AdvancedGCNRequest.model_type := model_type;
     AdvancedGCNRequest.train_epochs := 50;
     AdvancedGCNRequest.hidden_dim := 32;
     AdvancedGCNRequest.dropout := 0.2;
     AdvancedGCNRequest.learning_rate := 0.01;
     AdvancedGCNRequest.correlation_threshold := 0.3;
     AdvancedGCNRequest.use_knn_graph := false;
     AdvancedGCNRequest.knn_k := 5 |}.

(** The same scenario with the graph taken from [returns]. *)
Definition compare_returns_bogus : MultiModelRequest.t :=
  {| MultiModelRequest.nodes := ["A"; "B"; "C"];
     MultiModelRequest.features :=
       [[Fin 1; Fin 0]; [Fin 0; Fin 1]; [Fin 1; Fin 1]];
     MultiModelRequest.adjacency := None;
     MultiModelRequest.model_types := ["simple"; "bogus"];
     MultiModelRequest.train_epochs := 0;
     MultiModelRequest.returns :=
       Some [[Fin 0.01; Fin 0.02; Fin (-0.01)];
             [Fin 0.02; Fin 0.01; Fin 0.0];
             [Fin (-0.01); Fin 0.0; Fin 0.03]] |}.

(** The same with ["temporal"], a key of [models], as the supported type. *)
Definition compare_temporal_bogus : MultiModelRequest.t :=
  {| MultiModelRequest.nodes := ["A"; "B"];
     MultiModelRequest.features := [[Fin 1; Fin 0]; [Fin 0; Fin 1]];
     MultiModelRequest.adjacency := None;
     MultiModelRequest.model_types := ["temporal"; "bogus"];
     MultiModelRequest.train_epochs := 0;
     MultiModelRequest.returns := None |}.

(** ** [build_sector_graph] (model.py) *)

(** The body of the inner loop: [if sectors[i] == sectors[j]: adj[i, j] = 1;
    adj[j, i] = 1]. *)
Definition sector_link (sectors : list string) (adj : matrix) (i j : nat)
  : matrix :=
  if decide (sectors !! i = sectors !! j) then
    let adj := mset adj i j (Fin 1) in
    mset adj j i (Fin 1)
  else adj.

(** The state of the two loops when the outer index is [i] and the inner
    loop is about to visit [m]: the pairs [(p, q)], [p < q], visited so far
    are those with [p < i], or [p = i] and [q < m]; the entry of a pair is
    1.0 when it was visited and its two stocks share a sector, 0.0
    otherwise. *)
Definition sector_inv (sectors : list string) (i m : nat) (A : matrix)
  : Prop :=
  let n := length sectors in
  has_shape n n A
  /\ forall a b, (a < n)%nat -> (b < n)%nat ->
       mget A a b
       = Some (if decide (a <> b /\ sectors !! a = sectors !! b
                          /\ (a `min` b < i
                              \/ (a `min` b = i /\ a `max` b < m)))%nat
               then Fin 1 else Fin 0).

(** [for i in range(n): for j in range(i + 1, n): ...] *)
Definition build_sector_graph (sectors : list string) : matrix :=
  let n := length sectors in
  let adj := zeros n n in
  foldl (fun adj i =>
           foldl (fun adj j => sector_link sectors adj i j) adj
             (seq (S i) (n - S i)))
    adj (seq 0 n).

(** A [SimpleGCN] as its constructor builds it for [in_feats = f]:
    [fc1.weight] has rows of length [f], [fc2.weight] has rows of length
    [hidden] (the number of rows of [fc1.weight]), and each bias has one
    entry for each row of its weight. *)
Definition SimpleGCN_fits (f : nat) (m : SimpleGCN) : Prop :=
  Forall (fun row => length row = f) (weight (fc1 m))
  /\ length (bias (fc1 m)) = length (weight (fc1 m))
  /\ Forall (fun row => length row = length (weight (fc1 m)))
       (weight (fc2 m))
  /\ length (bias (fc2 m)) = length (weight (fc2 m)).

(** ** The snapshots of [train_model] *)

(** The ["epoch"] of an entry of the training history. *)
Definition snapshot_epoch (entry : json) : option Z :=
  match entry with
  | JDict d =>
      match dict_get "epoch" d with
      | Some (JInt e) => Some e
      | _ => None
      end
  | _ => None
  end.

(** Every tenth epoch below [epochs], from 0 on. *)
Definition every_tenth (epochs : nat) : list nat :=
  map (fun i => 10 * i)%nat (seq 0 ((epochs + 9) / 10)).

(** A [/gcn/predict] request with one name more than it has feature rows,
    and a negative [train_epochs]. *)
Definition predict_extra_name : GCNRequest.t :=
  {| GCNRequest.nodes := ["A"; "B"; "C"];
     GCNRequest.features := [[Fin 1; Fin 0]; [Fin 0; Fin 1]];
     GCNRequest.adjacency := [[0; 1]]%Z;
     GCNRequest.train_epochs := (-3) |}.

(** A [/gcn/predict] request with three feature rows and two names. *)
Definition predict_missing_name : GCNRequest.t :=
  {| GCNRequest.nodes := ["A"; "B"];
     GCNRequest.features := [[Fin 1]; [Fin 2]; [Fin 3]];
     GCNRequest.adjacency := [];
     GCNRequest.train_epochs := 20 |}.

(** A [/gcn/compare] request with one name more than it has feature rows. *)
Definition compare_extra_name : MultiModelRequest.t :=
  {| MultiModelRequest.nodes := ["A"; "B"; "C"];
     MultiModelRequest.features := [[Fin 1; Fin 0]; [Fin 0; Fin 1]];
     MultiModelRequest.adjacency := None;
     MultiModelRequest.model_types := ["simple"; "bogus"];
     MultiModelRequest.train_epochs := 0;
     MultiModelRequest.returns := None |}.

(** ** A stand-in with scikit-learn present

    As [stub_torch], with simple total versions of the scikit-learn, NumPy
    and SciPy routines: every series is perfectly correlated with every
    other, the nearest neighbour of row [i] is row [i + 1] (cyclically),
    K-Means puts every row in cluster 0 and PCA keeps the first two
    columns. *)

Definition ring_graph (n : nat) : list (list fl) :=
  map (fun i => <[(S i) mod n := Fin 1]> (replicate n (Fin 0))) (seq 0 n).

Definition toy_sklearn : Torch := {|
  rng := nat;
  init_matrix := fun r c s => (replicate r (replicate c (Fin 0)), S s);
  init_vector := fun n s => (replicate n (Fin 0), S s);
  dropout_mask := fun _ r c s => (replicate r (replicate c (Fin 1)), S s);
  DeepGCN := unit;
  GATModel := unit;
  TemporalGCN := unit;
  DeepGCN_init := fun _ _ _ _ _ => ret tt;
  GATModel_init := fun _ _ _ _ _ => ret tt;
  TemporalGCN_init := fun _ _ _ _ _ _ => ret tt;
  DeepGCN_forward := fun _ _ x _ => ret (map (fun _ => Fin 0) x);
  GATModel_forward := fun _ _ x _ => ret (map (fun _ => Fin 0) x);
  optimizer := unit;
  Adam := fun _ => tt;
  step_SimpleGCN := fun o m _ _ => (m, o);
  step_DeepGCN := fun o m _ _ => (m, o);
  step_GATModel := fun o m _ _ => (m, o);
  step_HybridGCN := fun o m _ _ => (m, o);
  step_TemporalGCN := fun o m _ _ => (m, o);
  input_gradient := fun _ x _ => x;
  corrcoef := fun X => inr (ones (length X) (length X));
  kneighbors_graph := fun X _ => inr (ring_graph (length X));
  KMeans_fit_predict := fun k X =>
    inr (replicate (length X) 0%Z,
         replicate (Z.to_nat k) (default [] (head X)));
  PCA_fit_transform := fun X => inr (map (take 2) X, [Fin 1; Fin 0]);
  spearmanr := fun _ _ => inr (Fin 1)
|}.

(** A [/gcn/cluster] request with a single feature per stock. *)
Definition cluster_one_feature : StockClusterRequest.t :=
  {| StockClusterRequest.nodes := ["A"; "B"; "C"];
     StockClusterRequest.features := [[Fin 1]; [Fin 2]; [Fin 10]];
     StockClusterRequest.n_clusters := 2 |}.

(** An entry of [feature_importance] in the response of [/gcn/importance]. *)
Definition importance_item (kv : string * fl) : json :=
  JDict [("feature", JStr kv.1); ("importance", JFloat kv.2)].

(** A [/gcn/importance] request on two stocks and two features. *)
Definition importance_two_features : FeatureImportanceRequest.t :=
  {| FeatureImportanceRequest.nodes := ["A"; "B"];
     FeatureImportanceRequest.features := [[Fin 1; Fin 0]; [Fin 0; Fin 1]];
     FeatureImportanceRequest.feature_names := ["momentum"; "value"];
     FeatureImportanceRequest.adjacency := [[0; 1]]%Z |}.

(** ** [RankingLoss] and [CombinedLoss] (model.py) *)

(** The sign of a rational, as a rational. *)
Definition Qsign (q : Q) : Q :=
  match Qcompare q 0 with
  | Gt => 1
  | Eq => 0
  | Lt => -1
  end.

Section losses.

(** [torch.sign] of NaN: the scalar and the vectorized kernels do not agree
    on it, so the value is left open; no property below depends on it. *)
Variable sign_of_nan : fl.

Definition torch_sign (x : fl) : fl :=
  match x with
  | Fin q => Fin (Qsign q)
  | PInf => Fin 1
  | NInf => Fin (-1)
  | NaN => sign_of_nan
  end.

(** [v.unsqueeze(1) - v.unsqueeze(0)]: entry [(i, j)] is [v[i] - v[j]]. *)
Definition pairwise_diff (v : vector) : matrix :=
  map (fun a => map (fun b => (a - b)%fl) v) v.

(** [a * b] on two square tensors: the sizes agree, or one operand is
    1 by 1 and is broadcast; RuntimeError otherwise. *)
Definition torch_mul (A B : matrix) : result matrix :=
  if decide (length A = length B) then inr (zip_with (zip_with Fl.mul) A B)
  else
    match A, B with
    | [[a]], _ => inr (map (map (Fl.mul a)) B)
    | _, [[b]] => inr (map (map (fun x => (x * b)%fl)) A)
    | _, _ =>
        inl (RuntimeError
               "The size of tensor a must match the size of tensor b")
    end.

(** [loss[mask]] for [mask = torch.triu(torch.ones(n, n), diagonal=1)]: the
    entries [(i, j)] with [i < j], row by row; IndexError when [loss] is
    not [n] by [n]. *)
Definition upper_triangle (n : nat) (loss : matrix) : result vector :=
  if decide (length loss = n)
  then inr (concat (imap (fun i row => drop (S i) row) loss))
  else
    inl (IndexError
           "The shape of the mask does not match the shape of the indexed tensor").

(** [tensor.mean()]: NaN on an empty tensor. *)
Definition tensor_mean (v : vector) : fl :=
  (vsum v / Fin (inject_Z (Z.of_nat (length v))))%fl.

(** [RankingLoss(margin).forward(predictions, targets)] *)
Definition RankingLoss_forward (margin : Q) (predictions targets : vector)
  : result fl :=
  let n := length predictions in
  let pred_diff := pairwise_diff predictions in
  let target_diff := pairwise_diff targets in
  let sign := map (map torch_sign) target_diff in
  match torch_mul sign pred_diff with
  | inl e => inl e
  | inr prod =>
      let loss := map (map (fun x => Fl.relu (Fin margin - x)%fl)) prod in
      match upper_triangle n loss with
      | inl e => inl e
      | inr selected => inr (tensor_mean selected)
      end
  end.

(** The loss tensor of [RankingLoss.forward] on operands of one length,
    before masking. *)
Definition pair_losses (margin : Q) (predictions targets : vector) : matrix :=
  map (map (fun x => Fl.relu (Fin margin - x)%fl))
    (zip_with (zip_with Fl.mul)
       (map (map torch_sign) (pairwise_diff targets))
       (pairwise_diff predictions)).

(** [nn.MSELoss()(predictions, targets)]: the mean squared difference, with
    a one-element operand broadcast. *)
Definition MSELoss (predictions targets : vector) : result fl :=
  let sq (p t : fl) := ((p - t) * (p - t))%fl in
  if decide (length predictions = length targets)
  then inr (tensor_mean (zip_with sq predictions targets))
  else
    match predictions, targets with
    | [p], _ => inr (tensor_mean (map (sq p) targets))
    | _, [t] => inr (tensor_mean (map (fun p => sq p t) predictions))
    | _, _ =>
        inl (RuntimeError
               "The size of tensor a must match the size of tensor b")
    end.

(** [CombinedLoss(alpha, margin).forward(predictions, targets)] *)
Definition CombinedLoss_forward (alpha margin : Q)
  (predictions targets : vector) : result fl :=
  match MSELoss predictions targets with
  | inl e => inl e
  | inr mse_loss =>
      match RankingLoss_forward margin predictions targets with
      | inl e => inl e
      | inr rank_loss =>
          inr (Fin alpha * mse_loss + Fin (1 - alpha) * rank_loss)%fl
      end
  end.

End losses.

(** ** [evaluate_predictions] (model.py) *)

(** What the function can raise: the ZeroDivisionError of its own
    division, or whatever the SciPy and NumPy routines raise. *)
Inductive eval_exn : Type :=
| ZeroDivisionError (msg : string)
| Raised (e : exn).

(** The dict it returns. *)
Record metrics : Type := {
  spearman_corr : fl;
  pearson_corr : fl;
  top20_precision : fl;
  ic : fl;
  rmse : fl
}.

(** [l[-k:]]: the last [k] entries; the whole list when [k] is 0 (the
    slice [l[-0:]] is [l[0:]]) or larger than the list. *)
Definition last_k {A} (k : nat) (l : list A) : list A :=
  if (k =? 0)%nat then l else drop (length l - k) l.

(** [len(set(a) & set(b))] *)
Definition common_count (a b : list nat) : nat :=
  length (remove_dups (filter (fun i => i ∈ b) a)).

(** [a - b] on rank-1 arrays, a one-element operand being broadcast. *)
Definition np_sub (a b : vector) : result vector :=
  if decide (length a = length b) then inr (zip_with Fl.sub a b)
  else
    match a, b with
    | [x], _ => inr (map (Fl.sub x) b)
    | _, [y] => inr (map (fun x => (x - y)%fl) a)
    | _, _ => inl (ValueError "operands could not be broadcast together")
    end.

Section evaluation.
Context {N : Numerics} {T : Torch}.

(** [scipy.stats.pearsonr], first component, and [np.argsort] (its order
    among equal values is not specified). *)
Variable pearsonr : list fl -> list fl -> result fl.
Variable argsort : list fl -> list nat.

Definition evaluate_predictions (predictions targets : vector)
  : eval_exn + metrics :=
  match spearmanr predictions targets with
  | inl e => inl (Raised e)
  | inr spearman_corr =>
  match pearsonr predictions targets with
  | inl e => inl (Raised e)
  | inr pearson_corr =>
      let n := length predictions in
      let top_k := (n / 5)%nat in
      let pred_top := last_k top_k (argsort predictions) in
      let actual_top := last_k top_k (argsort targets) in
      if (top_k =? 0)%nat then inl (ZeroDivisionError "division by zero")
      else
        let precision :=
          Fin (inject_Z (Z.of_nat (common_count pred_top actual_top))
               / inject_Z (Z.of_nat top_k)) in
        match corrcoef [predictions; targets] with
        | inl e => inl (Raised e)
        | inr c =>
        match mget c 0 1 with
        | None => inl (Raised (IndexError "index 1 is out of bounds"))
        | Some ic =>
        match np_sub predictions targets with
        | inl e => inl (Raised e)
        | inr diff =>
            let rmse :=
              fl_sqrt (tensor_mean (map (fun d => (d * d)%fl) diff)) in
            inr {| spearman_corr := spearman_corr;
                   pearson_corr := pearson_corr;
                   top20_precision := precision;
                   ic := if Fl.is_nan ic then Fin 0 else ic;
                   rmse := rmse |}
        end
        end
        end
  end
  end.

End evaluation.


(** A request body that [np.array] cannot turn into a rank-2 array: no row
    at all, or rows of different lengths. *)
Definition malformed (features : list (list fl)) : Prop :=
  match features with
  | [] => True
  | r :: rest => Exists (fun r' => length r' <> length r) rest
  end.

(** ** The response of [/gcn/cluster] *)

(** The ["cluster"] and ["size"] of an entry of [cluster_centers]. *)
Definition center_field (key : string) (entry : json) : option Z :=
  match entry with
  | JDict d =>
      match dict_get key d with
      | Some (JInt z) => Some z
      | _ => None
      end
  | _ => None
  end.

(** The number of rows with label [l]. *)
Definition count_label (labels : list Z) (l : Z) : nat :=
  length (filter (fun l' => l' = l) labels).

(** A [/gcn/cluster] request on four stocks and two features, and a
    feature matrix too ragged for [np.array]. *)
Definition cluster_two_features : StockClusterRequest.t :=
  {| StockClusterRequest.nodes := ["A"; "B"; "C"; "D"];
     StockClusterRequest.features :=
       [[Fin 1; Fin 0]; [Fin 0; Fin 1]; [Fin 1; Fin 1]; [Fin 5; Fin 5]];
     StockClusterRequest.n_clusters := 2 |}.

Definition predict_ragged : GCNRequest.t :=
  {| GCNRequest.nodes := ["A"; "B"];
     GCNRequest.features := [[Fin 1; Fin 2]; [Fin 3]];
     GCNRequest.adjacency := [];
     GCNRequest.train_epochs := 0 |}.

(* ================================================================== *)
(** * Properties *)
(* ================================================================== *)

(** ** Matrices: reads after writes, shapes *)

Lemma has_shape_zeros n m : has_shape n m (zeros n m).
Proof.
  split.
  - apply length_replicate.
  - apply Forall_replicate, length_replicate.
Qed.

Lemma has_shape_mset n m A i j v :
  has_shape n m A -> has_shape n m (mset A i j v).
Proof.
  intros [Hlen Hrows]. unfold mset.
  destruct (A !! i) as [row|] eqn:Hi; [|by split].
  split.
  - by rewrite length_insert.
  - apply Forall_insert; [done|]. simpl.
    rewrite length_insert.
    eapply (Forall_lookup_1 _ A i row) in Hrows; done.
Qed.

Lemma mget_mset n m A i j v i' j' :
  has_shape n m A -> (i < n)%nat -> (j < m)%nat ->
  mget (mset A i j v) i' j' =
    if decide (i = i' /\ j = j') then Some v else mget A i' j'.
Proof.
  intros [Hlen Hrows] Hi Hj. unfold mset, mget.
  destruct (A !! i) as [row|] eqn:Hrow.
  2:{ apply lookup_ge_None in Hrow. lia. }
  assert (length row = m) as Hm
    by (eapply (Forall_lookup_1 _ A i row) in Hrows; done).
  destruct (decide (i = i')) as [<-|Hne].
  - rewrite list_lookup_insert_eq by lia.
    destruct (decide (j = j')) as [<-|Hnej].
    + rewrite list_lookup_insert_eq by lia.
      by rewrite decide_True.
    + rewrite list_lookup_insert_ne by done.
      rewrite Hrow. rewrite decide_False; [done | intros [_ ?]; done].
  - rewrite list_lookup_insert_ne by done.
    rewrite decide_False; [done | intros [? _]; done].
Qed.

Lemma mget_zeros n m i j x :
  mget (zeros n m) i j = Some x -> x = Fl.zero.
Proof.
  unfold mget, zeros. intros H.
  destruct (replicate n (replicate m Fl.zero) !! i) as [row|] eqn:Hrow; [|done].
  apply lookup_replicate in Hrow as [-> _].
  by apply lookup_replicate in H as [-> _].
Qed.

Lemma mget_in_shape n m A i j :
  has_shape n m A -> (i < n)%nat -> (j < m)%nat -> is_Some (mget A i j).
Proof.
  intros [Hlen Hrows] Hi Hj. unfold mget.
  destruct (A !! i) as [row|] eqn:Hrow.
  - apply lookup_lt_is_Some.
    eapply (Forall_lookup_1 _ A i row) in Hrows; [|done]. simpl in Hrows. lia.
  - apply lookup_ge_None in Hrow. lia.
Qed.

Lemma mget_out_of_shape n m A i j :
  has_shape n m A -> (n <= i)%nat \/ (m <= j)%nat -> mget A i j = None.
Proof.
  intros [Hlen Hrows] Hij. unfold mget.
  destruct (A !! i) as [row|] eqn:Hrow; [|done].
  apply lookup_ge_None.
  pose proof (lookup_lt_Some _ _ _ Hrow).
  eapply (Forall_lookup_1 _ A i row) in Hrows; [|done]. simpl in Hrows. lia.
Qed.

(** ** [build_adj_matrix] *)

Lemma adj_inv_zeros n : adj_inv n (zeros n n).
Proof.
  split.
  - apply has_shape_zeros.
  - intros i j.
    destruct (decide (i < n /\ j < n)%nat) as [[Hi Hj]|Hout].
    + destruct (mget_in_shape n n (zeros n n) i j) as [x Hx];
        [apply has_shape_zeros | done | done |].
      destruct (mget_in_shape n n (zeros n n) j i) as [y Hy];
        [apply has_shape_zeros | done | done |].
      rewrite Hx, Hy.
      apply mget_zeros in Hx, Hy. congruence.
    + rewrite !(mget_out_of_shape n n) by (apply has_shape_zeros || lia). done.
  - intros i j x Hx. left. by eapply mget_zeros.
Qed.

Lemma index_ok_spec n i :
  index_ok n i = true -> (Z.to_nat i < n)%nat.
Proof. unfold index_ok. intros H. lia. Qed.

(** Writing 1.0 at [(i, j)] and at [(j, i)] keeps the invariant. *)
Lemma adj_inv_mset_pair n A i j :
  (i < n)%nat -> (j < n)%nat -> adj_inv n A ->
  adj_inv n (mset (mset A i j Fl.one) j i Fl.one).
Proof.
  intros Hi Hj [Hs Hsym Hbin].
  assert (has_shape n n (mset A i j Fl.one)) as Hs1 by by apply has_shape_mset.
  split.
  - by apply has_shape_mset.
  - intros a b.
    rewrite !(mget_mset n n) by done.
    repeat case_decide; try done; exfalso; intuition lia.
  - intros a b x.
    rewrite !(mget_mset n n) by done.
    repeat case_decide; try (intros [= <-]; by right).
    apply Hbin.
Qed.

Lemma adj_inv_add_edge n A e : adj_inv n A -> adj_inv n (add_edge n A e).
Proof.
  intros HA. destruct e as [|i [|j rest]]; simpl; try done.
  destruct (index_ok n i) eqn:Hi; simpl; [|done].
  destruct (index_ok n j) eqn:Hj; [|done].
  apply adj_inv_mset_pair; auto using index_ok_spec.
Qed.

Lemma adj_inv_add_self_loop n A i :
  (i < n)%nat -> adj_inv n A -> adj_inv n (add_self_loop A i).
Proof.
  intros Hi [Hs Hsym Hbin]. unfold add_self_loop. split.
  - by apply has_shape_mset.
  - intros a b. rewrite !(mget_mset n n) by done.
    repeat case_decide; try done; exfalso; intuition lia.
  - intros a b x. rewrite (mget_mset n n) by done.
    case_decide; [intros [= <-]; by right | apply Hbin].
Qed.

Lemma adj_inv_edges n edges A :
  adj_inv n A -> adj_inv n (foldl (add_edge n) A edges).
Proof.
  revert A. induction edges as [|e edges IH]; intros A HA; simpl; [done|].
  apply IH. by apply adj_inv_add_edge.
Qed.

Lemma adj_inv_self_loops n A l :
  Forall (fun i => (i < n)%nat) l -> adj_inv n A ->
  adj_inv n (foldl add_self_loop A l).
Proof.
  revert A. induction l as [|i l IH]; intros A Hl HA; simpl; [done|].
  apply Forall_cons in Hl as [Hi Hl].
  apply IH; [done|]. by apply adj_inv_add_self_loop.
Qed.

(** Once the diagonal entry [(k, k)] is 1.0, later self-loop writes keep it. *)
Lemma self_loops_keep_diag n A l k :
  has_shape n n A -> Forall (fun i => (i < n)%nat) l ->
  mget A k k = Some Fl.one ->
  mget (foldl add_self_loop A l) k k = Some Fl.one.
Proof.
  revert A. induction l as [|i l IH]; intros A Hs Hl Hk; simpl; [done|].
  apply Forall_cons in Hl as [Hi Hl].
  apply IH; [by apply has_shape_mset | done |].
  unfold add_self_loop. rewrite (mget_mset n n) by done.
  by case_decide.
Qed.

Lemma self_loops_set_diag n A l k :
  has_shape n n A -> Forall (fun i => (i < n)%nat) l -> k ∈ l ->
  mget (foldl add_self_loop A l) k k = Some Fl.one.
Proof.
  revert A. induction l as [|i l IH]; intros A Hs Hl Hk; simpl.
  - by apply elem_of_nil in Hk.
  - apply Forall_cons in Hl as [Hi Hl].
    apply elem_of_cons in Hk as [->|Hk].
    + apply (self_loops_keep_diag n); [by apply has_shape_mset | done |].
      unfold add_self_loop. rewrite (mget_mset n n) by done.
      by rewrite decide_True.
    + apply IH; [by apply has_shape_mset | done | done].
Qed.

Lemma seq_below n : Forall (fun i => (i < n)%nat) (seq 0 n).
Proof. apply Forall_forall. intros i Hi. apply elem_of_seq in Hi. lia. Qed.

Lemma add_edge_out_of_range n A e :
  edge_in_range n e = false -> add_edge n A e = A.
Proof.
  destruct e as [|i [|j rest]]; simpl; try done.
  by intros ->.
Qed.

Lemma foldl_add_edge_filter n edges A :
  foldl (add_edge n) A edges =
  foldl (add_edge n) A (filter (fun e => edge_in_range n e = true) edges).
Proof.
  revert A. induction edges as [|e edges IH]; intros A; simpl; [done|].
  rewrite filter_cons. case_decide as He.
  - simpl. apply IH.
  - rewrite add_edge_out_of_range; [apply IH|].
    by destruct (edge_in_range n e).
Qed.

(** Both loops of [build_adj_matrix] keep the invariant. *)
Lemma build_adj_matrix_inv (n : nat) (edges : list (list Z)) :
  adj_inv n (build_adj_matrix n edges).
Proof.
  unfold build_adj_matrix.
  apply adj_inv_self_loops; [apply seq_below|].
  apply adj_inv_edges, adj_inv_zeros.
Qed.

(** C5.  For every node count [n] and every edge list (empty, with entries
    of fewer than two elements, with indices out of range),
    [build_adj_matrix n edges] is an [n] by [n] matrix, symmetric, with 1.0
    on the whole diagonal and every entry 0.0 or 1.0; the edges that fail a
    guard are ignored: the result is the one built from the in-range edges
    alone, and the function raises on no input. *)
Theorem build_adj_matrix_spec (n : nat) (edges : list (list Z)) :
  let A := build_adj_matrix n edges in
  has_shape n n A
  /\ (forall i j, mget A i j = mget A j i)
  /\ (forall i, (i < n)%nat -> mget A i i = Some (Fin 1))
  /\ (forall i j, (i < n)%nat -> (j < n)%nat ->
        mget A i j = Some (Fin 0) \/ mget A i j = Some (Fin 1))
  /\ A = build_adj_matrix n
           (filter (fun e => edge_in_range n e = true) edges).
Proof.
  simpl. unfold build_adj_matrix.
  assert (adj_inv n (foldl (add_edge n) (zeros n n) edges)) as Hedges
    by apply adj_inv_edges, adj_inv_zeros.
  assert (adj_inv n
            (foldl add_self_loop (foldl (add_edge n) (zeros n n) edges)
               (seq 0 n))) as [Hs Hsym Hbin]
    by (apply adj_inv_self_loops; [apply seq_below | done]).
  repeat split; try done.
  - by destruct Hs.
  - by destruct Hs.
  - intros i Hi. apply (self_loops_set_diag n).
    + apply Hedges.
    + apply seq_below.
    + apply elem_of_seq. lia.
  - intros i j Hi Hj.
    destruct (mget_in_shape n n _ i j Hs Hi Hj) as [x Hx].
    rewrite Hx. destruct (Hbin i j x Hx) as [->| ->]; [by left | by right].
  - by rewrite <- foldl_add_edge_filter.
Qed.

(** The scenario of the specification, and an edge list that only holds
    entries the guards drop. *)
Example build_adj_matrix_scenario :
  build_adj_matrix 3 [[0; 1]; [1; 2]]%Z
  = [[Fin 1; Fin 1; Fin 0]; [Fin 1; Fin 1; Fin 1]; [Fin 0; Fin 1; Fin 1]].
Proof. reflexivity. Qed.

Example build_adj_matrix_drops :
  build_adj_matrix 2 [[0; 5]; [-1; 0]; [1]; []]%Z
  = [[Fin 1; Fin 0]; [Fin 0; Fin 1]].
Proof. reflexivity. Qed.

(** ** Floating-point values: comparisons and finiteness *)

Lemma Qltb_lt a b : Fl.Qltb a b = true <-> a < b.
Proof.
  unfold Fl.Qltb. rewrite negb_true_iff.
  split.
  - intros H. apply Qnot_le_lt. intros Hle.
    apply Qle_bool_iff in Hle. congruence.
  - intros H. destruct (Qle_bool b a) eqn:E; [|done].
    apply Qle_bool_iff in E. exfalso. by apply (Qlt_not_le a b).
Qed.

Lemma Qltb_ge a b : Fl.Qltb a b = false <-> b <= a.
Proof.
  unfold Fl.Qltb. rewrite negb_false_iff. apply Qle_bool_iff.
Qed.

Lemma Qeqb_eq a b : Fl.Qeqb a b = true <-> a == b.
Proof. apply Qeq_bool_iff. Qed.

Lemma Qeqb_neq a b : Fl.Qeqb a b = false <-> ~ a == b.
Proof.
  unfold Fl.Qeqb. split.
  - intros H Heq. apply Qeq_bool_iff in Heq. congruence.
  - intros H. destruct (Qeq_bool a b) eqn:E; [|done].
    apply Qeq_bool_iff in E. done.
Qed.



Lemma tolerance_value :
  tolerance == inject_Z 4722366482869645 * Qpower 2 (-72)
  /\ 0 < tolerance /\ tolerance < 1 # 1000000.
Proof. split_and!; reflexivity. Qed.

(** ** IEEE-754 arithmetic: signs, and when rounding gives no zero *)

Section rounding_facts.
Variables prec emax : Z.








End rounding_facts.

Section rounding_digits.
Variables prec emax : Z.
Hypothesis prec_pos : (0 < prec)%Z.










End rounding_digits.

(** ** [normalize_scores] over IEEE-754 values *)
















(** A NaN anywhere makes the minimum and the maximum NaN. *)
Lemma ieee_fold_nan (op : spec_float -> spec_float -> spec_float)
  (x : spec_float) (rest : list spec_float) :
  (forall a, op S754_nan a = S754_nan) -> (forall a, op a S754_nan = S754_nan) ->
  S754_nan ∈ x :: rest -> foldl op x rest = S754_nan.
Proof.
  intros Hl Hr. revert x. induction rest as [|y rest IH]; intros x Hin; simpl.
  - apply elem_of_cons in Hin as [<-|Hin]; [done|]. by apply elem_of_nil in Hin.
  - apply IH. apply elem_of_cons in Hin as [<-|Hin].
    + rewrite Hl. apply list_elem_of_here.
    + apply elem_of_cons in Hin as [<-|Hin].
      * rewrite Hr. apply list_elem_of_here.
      * by apply list_elem_of_further.
Qed.

Lemma ieee_amin_nan (x : spec_float) (rest : list spec_float) :
  S754_nan ∈ x :: rest -> IEEE.amin x rest = S754_nan.
Proof.
  apply ieee_fold_nan; [done|]. intros a. unfold IEEE.min. by destruct a.
Qed.






(** ** Sums, dot products and matrix products of finite values *)



(** A sum of non-negative entries is finite, non-negative and at least as
    large as each entry. *)
Lemma foldl_add_nonneg (v : vector) (a : Q) :
  Forall Fl.nonneg v ->
  exists s, foldl Fl.add (Fin a) v = Fin s /\ a <= s
    /\ Forall (fun x => match x with Fin b => a + b <= s | _ => False end) v.
Proof.
  revert a. induction v as [|x v IH]; intros a Hv; simpl.
  - exists a. split_and!; [done | lra | done].
  - apply Forall_cons in Hv as [Hx Hv].
    destruct x as [b| | |]; try done. simpl in Hx. simpl.
    destruct (IH (a + b) Hv) as (s & Hs & Hle & Hall).
    exists s. split_and!; [done | lra |].
    apply Forall_cons. split; [done|].
    eapply Forall_impl; [exact Hall|].
    intros [c| | |]; try done. simpl. lra.
Qed.

Lemma foldl_add_zero (v : vector) (a : Q) :
  a == 0 -> Forall (Fl.equals 0) v -> Fl.equals 0 (foldl Fl.add (Fin a) v).
Proof.
  revert a. induction v as [|x v IH]; intros a Ha Hv; simpl; [done|].
  apply Forall_cons in Hv as [Hx Hv].
  destruct x as [b| | |]; try done. simpl in Hx. simpl.
  apply IH; [lra | done].
Qed.

Lemma equals_finite q x : Fl.equals q x -> Fl.is_finite x = true.
Proof. by destruct x. Qed.







Lemma has_shape_row n m (A : matrix) i row :
  has_shape n m A -> A !! i = Some row -> length row = m /\ (i < n)%nat.
Proof.
  intros [Hlen Hrows] Hi. split.
  - by eapply (Forall_lookup_1 _ A i row) in Hrows.
  - rewrite <- Hlen. by eapply lookup_lt_Some.
Qed.

Lemma ncols_shape n m (A : matrix) :
  has_shape n m A -> (0 < n)%nat -> ncols A = m.
Proof.
  intros [Hlen Hrows] Hn. destruct A as [|row A]; simpl in *; [lia|].
  by apply Forall_cons in Hrows as [? _].
Qed.


Lemma has_shape_matmul n (A B : matrix) :
  has_shape n n A -> has_shape n n B -> has_shape n n (matmul A B).
Proof.
  intros [HlenA HrowsA] HB. unfold matmul. split.
  - by rewrite length_map.
  - apply Forall_fmap, Forall_lookup. intros i row Hrow. cbn [compose].
    rewrite length_map, length_seq.
    apply (ncols_shape n n B HB).
    apply lookup_lt_Some in Hrow. lia.
Qed.



(** ** [np.diag] *)

Lemma length_diag (v : vector) : length (diag v) = length v.
Proof. unfold diag. apply length_imap. Qed.

Lemma lookup_diag (v : vector) i :
  diag v !! i =
    (fun x => <[i := x]> (replicate (length v) Fl.zero)) <$> v !! i.
Proof. unfold diag. apply list_lookup_imap. Qed.

Lemma has_shape_diag (v : vector) : has_shape (length v) (length v) (diag v).
Proof.
  split; [apply length_diag|].
  apply Forall_lookup. intros i row. rewrite lookup_diag.
  destruct (v !! i) as [x|]; [|done]. intros [= <-].
  by rewrite length_insert, length_replicate.
Qed.




(** ** [normalize_adj] *)

Section normalize_adj_facts.
Context {N : Numerics}.
Hypothesis Qsqrt_pos : forall q, 0 < q -> 0 < Qsqrt q.


Lemma length_degree_inv_sqrt (A : matrix) :
  length (degree_inv_sqrt A) = length A.
Proof.
  unfold degree_inv_sqrt, np_where, sum_axis1.
  rewrite length_zip_with, !length_map. lia.
Qed.







Lemma has_shape_normalize_adj (n : nat) (A : matrix) :
  has_shape n n A -> has_shape n n (normalize_adj A).
Proof.
  intros HA. unfold normalize_adj.
  pose proof (has_shape_diag (degree_inv_sqrt A)) as HD.
  rewrite length_degree_inv_sqrt in HD.
  destruct HA as [Hlen Hrows]. rewrite Hlen in HD.
  apply has_shape_matmul; [|done].
  apply has_shape_matmul; [done | by split].
Qed.



(** *** The torch variant *)





End normalize_adj_facts.




(** ** Handlers: exceptions always leave as a 500 *)

Section handler_facts.
Context {N : Numerics} {T : Torch}.

(** A handler body wrapped in [try ... except Exception] either returns or
    raises [HTTPException(500, ...)]. *)
Lemma try_except_reraise (body : M rng json) (s : rng) :
  (exists j s', try_except body reraise_500 s = (inr j, s'))
  \/ (exists d s',
        try_except body reraise_500 s = (inl (HTTPException 500 d), s')).
Proof.
  unfold try_except, reraise_500, raise.
  destruct (body s) as [[e|j] s']; [right | left]; eauto.
Qed.

Lemma try_except_raises (body : M rng json) (s s' : rng) (e : exn) :
  body s = (inl e, s') ->
  try_except body reraise_500 s = (inl (HTTPException 500 (str_exn e)), s').
Proof. intros H. unfold try_except, reraise_500, raise. by rewrite H. Qed.

Lemma bind_raises {A B} (c : M rng A) (k : A -> M rng B) s s' e :
  c s = (inl e, s') -> bind c k s = (inl e, s').
Proof. intros H. unfold bind. by rewrite H. Qed.

Lemma bind_returns {A B} (c : M rng A) (k : A -> M rng B) s s' a :
  c s = (inr a, s') -> bind c k s = k a s'.
Proof. intros H. unfold bind. by rewrite H. Qed.

Lemma bind_lift_inr {A B} (r : result A) (k : A -> M rng B) s a :
  r = inr a -> bind (lift r) k s = k a s.
Proof. intros ->. done. Qed.

Lemma bind_lift_inl {A B} (r : result A) (k : A -> M rng B) s e :
  r = inl e -> bind (lift r) k s = (inl e, s).
Proof. intros ->. done. Qed.

(** The shape of an array built from a list of lists never starts with 0
    when it has two entries: [n == 0] cannot hold after [n, f = X.shape]. *)
Lemma unpack2_np_array rows X n f :
  np_array rows = inr X -> unpack2 (shape X) = inr (n, f) ->
  X = Arr2 rows /\ n = length rows /\ n <> 0%nat.
Proof.
  destruct rows as [|r rest]; simpl.
  - intros [= <-]. simpl. discriminate.
  - destruct (forallb _ rest); [|discriminate].
    intros [= <-]. simpl. intros [= <- <-]. done.
Qed.

(** *** [create_model] under the keyword arguments of [gcn_advanced] *)

Lemma create_model_advanced_raises (req : AdvancedGCNRequest.t) (f : nat) s :
  exists e,
    create_model (AdvancedGCNRequest.model_type req) f (advanced_kwargs req) s
    = (inl e, s).
Proof.
  unfold create_model, models. cbn [dict_get].
  repeat case_decide; eauto.
Qed.

(** C1.  Every request to [gcn_advanced] ends in [HTTPException(500)]: the
    handler passes [hidden], [hidden_dims] and [dropout] to [create_model]
    for every model type, no model class accepts all three, and the
    TypeError of the constructor (or an earlier exception) is re-raised as
    a 500.  No request gets the success response of the claim. *)
Theorem gcn_advanced_always_500 (req : AdvancedGCNRequest.t) (s : rng) :
  exists detail s',
    gcn_advanced req s = (inl (HTTPException 500 detail), s').
Proof.
  unfold gcn_advanced.
  match goal with
  | |- context [try_except ?b reraise_500 s] =>
      assert (exists e s', b s = (inl e, s')) as (e & s' & Hb)
  end.
  2:{ eexists _, _. by apply try_except_raises. }
  cbn zeta.
  destruct (np_array (AdvancedGCNRequest.features req)) as [e|X] eqn:HX.
  { eexists _, _. by apply bind_lift_inl. }
  rewrite (bind_lift_inr _ _ _ X) by done.
  destruct (unpack2 (shape X)) as [e|[n f]] eqn:Hnf.
  { eexists _, _. by apply bind_lift_inl. }
  rewrite (bind_lift_inr _ _ _ (n, f)) by done.
  destruct (n =? 0)%nat; [by eexists _, _|].
  destruct (advanced_graph req n (as_matrix X)) as [e|A] eqn:HA.
  { eexists _, _. by apply bind_lift_inl. }
  rewrite (bind_lift_inr _ _ _ A) by done.
  destruct (create_model_advanced_raises req f s) as [e He].
  eexists _, _. by apply bind_raises.
Qed.

(** The message of the 500 for two of the model types. *)
Example gcn_advanced_simple (s : rng) :
  gcn_advanced (advanced_request "simple") s
  = (inl (HTTPException 500
       "SimpleGCN.__init__() got an unexpected keyword argument 'hidden_dims'"),
     s).
Proof. reflexivity. Qed.

Example gcn_advanced_deep (s : rng) :
  gcn_advanced (advanced_request "deep") s
  = (inl (HTTPException 500
       "DeepGCN.__init__() got an unexpected keyword argument 'hidden'"),
     s).
Proof. reflexivity. Qed.

(** C10.  A [/gcn/predict] request with an empty features list gets an HTTP
    500: [np.array([])] has shape (0,), the unpacking [n, f = X.shape]
    raises ValueError before the [n == 0] test, and the handler re-raises it
    as a 500.  More generally the test [n == 0] is false whenever the
    unpacking succeeds, so the "no nodes" branch is never taken. *)
Theorem gcn_predict_empty_is_500 (nodes : list string)
  (adjacency : list (list Z)) (train_epochs : Z) (s : rng) :
  let req := {| GCNRequest.nodes := nodes; GCNRequest.features := [];
                GCNRequest.adjacency := adjacency;
                GCNRequest.train_epochs := train_epochs |} in
  gcn_predict req s
  = (inl (HTTPException 500
            "not enough values to unpack (expected 2, got 1)"), s)
  /\ post_gcn_predict req s
     = (ErrorResponse 500
          "not enough values to unpack (expected 2, got 1)", s)
  /\ (forall rows X n f,
        np_array rows = inr X -> unpack2 (shape X) = inr (n, f) ->
        (n =? 0)%nat = false).
Proof.
  cbn zeta.
  assert (gcn_predict
            {| GCNRequest.nodes := nodes; GCNRequest.features := [];
               GCNRequest.adjacency := adjacency;
               GCNRequest.train_epochs := train_epochs |} s
          = (inl (HTTPException 500
                    "not enough values to unpack (expected 2, got 1)"), s))
    as Hpredict by reflexivity.
  split_and!.
  - exact Hpredict.
  - unfold post_gcn_predict, route.
    change (GCNRequest.validate _) with true. cbn match.
    by rewrite Hpredict.
  - intros rows X n f HX Hnf.
    destruct (unpack2_np_array rows X n f HX Hnf) as (_ & _ & Hn).
    by apply Nat.eqb_neq.
Qed.

(** C2: what the code does.  [gcn_cluster] and [feature_importance] raise
    [HTTPException(400)] inside their own [try], so the [except Exception]
    clause turns it into a 500: neither handler ever answers with a 4xx
    status; a cluster count above the node count, or a number of feature
    names other than the feature count, gets a 500 whose detail quotes the
    400 and its message, before any clustering or training. *)
Theorem validation_guards_answer_500 :
  (forall req s, is_client_error (respond (gcn_cluster req s).1) = false)
  /\ (forall req s,
        is_client_error (respond (feature_importance req s).1) = false)
  /\ (forall req s X n f,
        np_array (StockClusterRequest.features req) = inr X ->
        unpack2 (shape X) = inr (n, f) ->
        (Z.of_nat n < StockClusterRequest.n_clusters req)%Z ->
        gcn_cluster req s
        = (inl (HTTPException 500
                  ("400: " +:+ cluster_detail n
                                 (StockClusterRequest.n_clusters req))), s))
  /\ (forall req s X n f,
        np_array (FeatureImportanceRequest.features req) = inr X ->
        unpack2 (shape X) = inr (n, f) ->
        length (FeatureImportanceRequest.feature_names req) <> f ->
        feature_importance req s
        = (inl (HTTPException 500
                  ("400: " +:+ importance_detail
                                 (length
                                    (FeatureImportanceRequest.feature_names
                                       req)) f)), s))
  /\ (forall s,
        gcn_cluster
          {| StockClusterRequest.nodes := ["A"; "B"; "C"];
             StockClusterRequest.features :=
               [[Fin 1; Fin 0]; [Fin 0; Fin 1]; [Fin 1; Fin 1]];
             StockClusterRequest.n_clusters := 5 |} s
        = (inl (HTTPException 500 ("400: " +:+ cluster_detail 3 5)), s))
  /\ (forall s,
        feature_importance
          {| FeatureImportanceRequest.nodes := ["A"; "B"];
             FeatureImportanceRequest.features :=
               [[Fin 1; Fin 0]; [Fin 0; Fin 1]];
             FeatureImportanceRequest.feature_names := ["momentum"];
             FeatureImportanceRequest.adjacency := [[0; 1]]%Z |} s
        = (inl (HTTPException 500 ("400: " +:+ importance_detail 1 2)), s)).
Proof.
  split_and!.
  - intros req s. unfold gcn_cluster.
    match goal with
    | |- context [try_except ?b reraise_500 s] =>
        destruct (try_except_reraise b s) as [(j & s' & ->)|(d & s' & ->)]
    end; done.
  - intros req s. unfold feature_importance.
    match goal with
    | |- context [try_except ?b reraise_500 s] =>
        destruct (try_except_reraise b s) as [(j & s' & ->)|(d & s' & ->)]
    end; done.
  - intros req s X n f HX Hnf Hlt. unfold gcn_cluster.
    rewrite (try_except_raises _ s s
               (HTTPException 400
                  (cluster_detail n (StockClusterRequest.n_clusters req))));
      [done|].
    cbn zeta.
    rewrite (bind_lift_inr _ _ s X HX).
    rewrite (bind_lift_inr _ _ s (n, f) Hnf).
    apply Z.ltb_lt in Hlt. by rewrite Hlt.
  - intros req s X n f HX Hnf Hne. unfold feature_importance.
    rewrite (try_except_raises _ s s
               (HTTPException 400
                  (importance_detail
                     (length (FeatureImportanceRequest.feature_names req))
                     f)));
      [done|].
    cbn zeta.
    rewrite (bind_lift_inr _ _ s X HX).
    rewrite (bind_lift_inr _ _ s (n, f) Hnf).
    apply Nat.eqb_neq in Hne. by rewrite Hne.
  - intros s. reflexivity.
  - intros s. reflexivity.
Qed.

(** C3: what the code does.  [GCNRequest.train_epochs] and
    [MultiModelRequest.train_epochs] are declared without [Field(...)]:
    validation accepts every value, so [/gcn/predict] always reaches its
    handler; only [AdvancedGCNRequest] bounds [train_epochs] to 0..500. *)
Theorem train_epochs_unbounded_on_predict_and_compare :
  (forall req, GCNRequest.validate req = true)
  /\ (forall req, MultiModelRequest.validate req = true)
  /\ (forall req s,
        post_gcn_predict req s
        = let (r, s') := gcn_predict req s in (respond r, s'))
  /\ (forall req s,
        post_gcn_compare req s
        = let (r, s') := gcn_compare req s in (respond r, s'))
  /\ (forall req, AdvancedGCNRequest.validate req = true ->
        (0 <= AdvancedGCNRequest.train_epochs req <= 500)%Z).
Proof.
  split_and!; try done.
  intros req Hvalid.
  unfold AdvancedGCNRequest.validate, fields_ok,
    AdvancedGCNRequest.numeric_fields in Hvalid.
  cbn [forallb] in Hvalid.
  apply andb_prop in Hvalid as [Hepochs _].
  unfold Field_ok in Hepochs. cbn in Hepochs.
  apply andb_prop in Hepochs as [Hlo Hhi].
  apply Qle_bool_iff in Hlo, Hhi.
  rewrite <- (Zle_Qle 0) in Hlo. rewrite <- (Zle_Qle _ 500) in Hhi. lia.
Qed.

(** C7 (as amended).  [gcn_advanced] builds its graph from exactly one
    source, in this order: the adjacency list when it is non-empty;
    otherwise the correlation graph of [returns] when that list is
    non-empty; otherwise the k-NN graph when [use_knn_graph] is set;
    otherwise the fully-connected graph.  A list that is absent or empty
    counts as not supplied. *)
Theorem advanced_graph_priority (req : AdvancedGCNRequest.t) (n : nat)
  (X : matrix) :
  (forall edges,
     AdvancedGCNRequest.adjacency req = Some edges -> edges <> [] ->
     advanced_graph req n X = inr (build_adj_matrix n edges))
  /\ (nonempty (AdvancedGCNRequest.adjacency req) = false ->
      forall returns,
        AdvancedGCNRequest.returns req = Some returns -> returns <> [] ->
        advanced_graph req n X
        = correlation_source returns
            (AdvancedGCNRequest.correlation_threshold req) n)
  /\ (nonempty (AdvancedGCNRequest.adjacency req) = false ->
      nonempty (AdvancedGCNRequest.returns req) = false ->
      AdvancedGCNRequest.use_knn_graph req = true ->
      advanced_graph req n X
      = knn_source X (AdvancedGCNRequest.knn_k req) n)
  /\ (nonempty (AdvancedGCNRequest.adjacency req) = false ->
      nonempty (AdvancedGCNRequest.returns req) = false ->
      AdvancedGCNRequest.use_knn_graph req = false ->
      advanced_graph req n X = inr (ones n n)).
Proof.
  unfold advanced_graph, nonempty.
  destruct (AdvancedGCNRequest.adjacency req) as [[|e es]|];
    destruct (AdvancedGCNRequest.returns req) as [[|r rs]|];
    destruct (AdvancedGCNRequest.use_knn_graph req);
    split_and!; try done; intros; simplify_eq; done.
Qed.

(** C9.  [HybridGCN.forward] is the fusion MLP applied to the
    concatenation of the two branch outputs; the attention weights and the
    weighted sum [h_fused] do not enter the result, so replacing the
    attention layer by any other leaves the output (and the generator
    state) unchanged. *)
Theorem HybridGCN_forward_ignores_attention (m : HybridGCN) (training : bool)
  (x adj : matrix) (s : rng) :
  HybridGCN_forward m training x adj s = fusion_of_branches m training x adj s
  /\ forall a : Linear,
       HybridGCN_forward (with_attention m a) training x adj s
       = HybridGCN_forward m training x adj s.
Proof. split; [reflexivity | intros a; reflexivity]. Qed.

End handler_facts.

(** C7, as stated, fails for an adjacency list that is supplied but empty:
    with [adjacency = []], no [returns] and [use_knn_graph] unset, the
    handler uses the fully-connected graph, not the graph of the (empty)
    edge list. *)
Lemma explicit_empty_adjacency_counterexample :
  ~ (forall (T : Torch) (req : AdvancedGCNRequest.t) (n : nat) (X : matrix)
       (edges : list (list Z)),
       AdvancedGCNRequest.adjacency req = Some edges ->
       advanced_graph req n X = inr (build_adj_matrix n edges)).
Proof.
  intros Hclaim.
  specialize (Hclaim stub_torch
    {| AdvancedGCNRequest.nodes := ["A"; "B"];
       AdvancedGCNRequest.features := [[Fin 1; Fin 0]; [Fin 0; Fin 1]];
       AdvancedGCNRequest.adjacency := Some [];
       AdvancedGCNRequest.returns := None;
       AdvancedGCNRequest.model_type := "simple";
       AdvancedGCNRequest.train_epochs := 50;
       AdvancedGCNRequest.hidden_dim := 32;
       AdvancedGCNRequest.dropout := 0.2;
       AdvancedGCNRequest.learning_rate := 0.01;
       AdvancedGCNRequest.correlation_threshold := 0.3;
       AdvancedGCNRequest.use_knn_graph := false;
       AdvancedGCNRequest.knn_k := 5 |}
    2%nat [[Fin 1; Fin 0]; [Fin 0; Fin 1]] [] eq_refl).
  vm_compute in Hclaim. discriminate Hclaim.
Qed.

(** ** Dicts and sorting *)

Lemma dict_get_set {V} (k k' : string) (v : V) (d : list (string * V)) :
  dict_get k' (dict_set k v d)
  = if decide (k = k') then Some v else dict_get k' d.
Proof.
  induction d as [|[k0 v0] d IH]; simpl.
  - repeat case_decide; congruence.
  - destruct (decide (k0 = k)) as [->|Hne]; simpl.
    + repeat case_decide; congruence.
    + rewrite IH. repeat case_decide; congruence.
Qed.

Lemma length_insert_desc {A} (key : A -> fl) (a : A) (l : list A) :
  length (insert_desc key a l) = S (length l).
Proof.
  induction l as [|b l IH]; simpl; [done|].
  destruct (Fl.ltb (key b) (key a)); simpl; [done | by rewrite IH].
Qed.

Lemma length_sorted_desc {A} (key : A -> fl) (l : list A) :
  length (sorted_desc key l) = length l.
Proof.
  unfold sorted_desc.
  assert (forall acc, length (foldl (fun acc a => insert_desc key a acc) acc l)
                      = (length acc + length l)%nat) as H.
  { induction l as [|a l IH]; intros acc; simpl; [lia|].
    rewrite IH, length_insert_desc. lia. }
  by rewrite H.
Qed.

(** ** [gcn_compare] *)

Section compare_facts.
Context {N : Numerics} {T : Torch}.

Lemma list_getitem_Some {A} (l : list A) i a (s : rng) :
  l !! i = Some a -> list_getitem l i s = (inr a, s).
Proof. unfold list_getitem. by intros ->. Qed.

(** The loop of the [scores] dict comprehension: it returns, leaves the
    generator alone, and the result has a key for exactly the nodes it
    visited. *)
Lemma scores_dict_loop (nodes : list string) (norm : list fl) (len a : nat)
  (acc : list (string * fl)) (s : rng) :
  (a + len <= length nodes)%nat -> (a + len <= length norm)%nat ->
  exists d,
    for_each (seq a len)
      (fun d i =>
         k <- list_getitem nodes i ;;
         v <- list_getitem norm i ;;
         ret (dict_set k v d)) acc s = (inr d, s)
    /\ forall k, is_Some (dict_get k d)
         <-> is_Some (dict_get k acc)
             \/ exists i, (a <= i < a + len)%nat /\ nodes !! i = Some k.
Proof.
  revert a acc. induction len as [|len IH]; intros a acc Hnodes Hnorm; simpl.
  - exists acc. split; [done|]. intros k. split; [by left|].
    intros [H|(i & Hi & _)]; [done | lia].
  - destruct (lookup_lt_is_Some_2 nodes a) as [k0 Hk0]; [lia|].
    destruct (lookup_lt_is_Some_2 norm a) as [v0 Hv0]; [lia|].
    rewrite (bind_returns _ _ s s (dict_set k0 v0 acc)).
    2:{ rewrite (bind_returns _ _ s s k0) by by apply list_getitem_Some.
        rewrite (bind_returns _ _ s s v0) by by apply list_getitem_Some.
        done. }
    destruct (IH (S a) (dict_set k0 v0 acc)) as (d & Hd & Hkeys); [lia | lia |].
    exists d. split; [done|]. intros k. rewrite Hkeys, dict_get_set.
    split.
    + intros [H|(i & Hi & Hki)].
      * case_decide as Hk; [subst; right; exists a; split; [lia | done]|].
        by left.
      * right. exists i. split; [lia | done].
    + intros [H|(i & Hi & Hki)].
      * left. by case_decide.
      * destruct (decide (i = a)) as [->|Hne].
        -- left. rewrite Hk0 in Hki. injection Hki as ->.
           by rewrite decide_True.
        -- right. exists i. split; [lia | done].
Qed.

Lemma scores_dict_returns (nodes : list string) (norm : list fl) (n : nat)
  (s : rng) :
  length nodes = n -> length norm = n ->
  exists d,
    scores_dict nodes norm n s = (inr d, s)
    /\ forall k, is_Some (dict_get k d) <-> k ∈ nodes.
Proof.
  intros Hnodes Hnorm.
  destruct (scores_dict_loop nodes norm n 0 [] s) as (d & Hd & Hkeys);
    [lia | lia |].
  exists d. split; [exact Hd|]. intros k. rewrite Hkeys. split.
  - intros [[v Hv]|(i & _ & Hi)]; [done|].
    apply list_elem_of_lookup. eauto.
  - intros Hk. apply list_elem_of_lookup in Hk as [i Hi]. right.
    exists i. split; [|done]. apply lookup_lt_Some in Hi. lia.
Qed.

Lemma score_pairs_loop (nodes : list string) (norm : list fl) (len a : nat)
  (acc : list (string * fl)) (s : rng) :
  (a + len <= length nodes)%nat -> (a + len <= length norm)%nat ->
  exists l,
    for_each (seq a len)
      (fun l i =>
         k <- list_getitem nodes i ;;
         v <- list_getitem norm i ;;
         ret (l ++ [(k, v)])) acc s = (inr l, s)
    /\ length l = (length acc + len)%nat.
Proof.
  revert a acc. induction len as [|len IH]; intros a acc Hnodes Hnorm; simpl.
  - exists acc. split; [done | lia].
  - destruct (lookup_lt_is_Some_2 nodes a) as [k0 Hk0]; [lia|].
    destruct (lookup_lt_is_Some_2 norm a) as [v0 Hv0]; [lia|].
    rewrite (bind_returns _ _ s s (acc ++ [(k0, v0)])).
    2:{ rewrite (bind_returns _ _ s s k0) by by apply list_getitem_Some.
        rewrite (bind_returns _ _ s s v0) by by apply list_getitem_Some.
        done. }
    destruct (IH (S a) (acc ++ [(k0, v0)])) as (l & Hl & Hlen); [lia | lia |].
    exists l. split; [done|]. rewrite Hlen, length_app. simpl. lia.
Qed.

(** [normalize_scores] raises on the empty array only. *)
Lemma normalize_scores_returns (scores : vector) :
  scores <> [] ->
  exists norm, normalize_scores scores = inr norm
    /\ length norm = length scores.
Proof.
  intros Hne. destruct scores as [|x rest]; [done|].
  unfold normalize_scores. cbn [vmin vmax].
  destruct (Fl.ltb _ _); eexists; (split; [reflexivity|]);
    by rewrite length_map.
Qed.

(** [SimpleGCN.forward] on an [n] by [n] adjacency and [n] feature rows
    returns one score per row. *)
Lemma SimpleGCN_forward_returns (m : SimpleGCN) (n : nat) (x adj : matrix) :
  has_shape n n adj -> length x = n ->
  exists v, SimpleGCN_forward m x adj = inr v /\ length v = n.
Proof.
  intros [Hlen Hrows] Hx. unfold SimpleGCN_forward, torch_mm.
  rewrite decide_True by by rewrite Hx.
  rewrite decide_True.
  2:{ unfold F_relu, Linear_forward, matmul.
      rewrite !length_map. by rewrite Hlen. }
  eexists. split; [reflexivity|].
  unfold squeeze_last, Linear_forward, matmul.
  by rewrite !length_map.
Qed.

Lemma forward_simple (m : SimpleGCN) (training : bool) (n : nat)
  (x adj : matrix) (s : rng) :
  has_shape n n adj -> length x = n ->
  exists v, forward float32 (NSimple m) training x adj s = (inr v, s)
    /\ length v = n.
Proof.
  intros Hadj Hx.
  destruct (SimpleGCN_forward_returns m n x adj Hadj Hx) as (v & Hv & Hlen).
  exists v. split; [|done]. unfold forward, lift. by rewrite Hv.
Qed.

(** One epoch on a [SimpleGCN] with well-shaped inputs does not raise,
    leaves the generator alone and yields a [SimpleGCN] and a loss. *)
Lemma train_epoch_simple (n : nat) (x adj : matrix) (epoch : nat)
  (st : train_state) (s : rng) :
  has_shape n n adj -> length x = n ->
  (exists m, ts_model st = NSimple m) ->
  exists st',
    train_epoch float32 x adj st epoch s = (inr st', s)
    /\ (exists m', ts_model st' = NSimple m')
    /\ is_Some (ts_loss st').
Proof.
  intros Hadj Hx [m Hm].
  destruct (forward_simple m true n x adj s Hadj Hx) as (out & Hout & _).
  unfold train_epoch. rewrite Hm.
  rewrite (bind_returns _ _ s s out Hout).
  cbn [backward_step].
  destruct (step_SimpleGCN (ts_optimizer st) m x adj) as [m' o'].
  eexists. split_and!; [reflexivity | by eexists | by eexists].
Qed.

Lemma train_loop_simple (n : nat) (x adj : matrix) (epochs : list nat)
  (st : train_state) (s : rng) :
  has_shape n n adj -> length x = n ->
  (exists m, ts_model st = NSimple m) ->
  exists st',
    for_each epochs (train_epoch float32 x adj) st s = (inr st', s)
    /\ (exists m', ts_model st' = NSimple m')
    /\ (epochs <> [] \/ is_Some (ts_loss st) -> is_Some (ts_loss st')).
Proof.
  intros Hadj Hx. revert st.
  induction epochs as [|epoch epochs IH]; intros st Hm; cbn [for_each].
  - exists st. split_and!; [done | done |]. by intros [?|?].
  - destruct (train_epoch_simple n x adj epoch st s Hadj Hx Hm)
      as (st1 & Hst1 & Hm1 & Hloss1).
    rewrite (bind_returns _ _ s s st1 Hst1).
    destruct (IH st1 Hm1) as (st' & Hst' & Hm' & Hloss').
    exists st'. split_and!; [done | done |]. intros _. apply Hloss'. by right.
Qed.

(** [optim.Adam] accepts a learning rate that is not negative, 0.01 among
    them. *)
Lemma optim_Adam_accepts (lr : Q) : 0 <= lr -> optim_Adam lr = inr (Adam lr).
Proof.
  intros Hlr. unfold optim_Adam.
  by rewrite (proj2 (Qltb_ge lr 0) Hlr).
Qed.

Lemma optim_Adam_rejects (lr : Q) :
  lr < 0 -> exists msg, optim_Adam lr = inl (ValueError msg).
Proof.
  intros Hlr. unfold optim_Adam.
  rewrite (proj2 (Qltb_lt lr 0) Hlr). by eexists.
Qed.

Lemma default_lr : 0 <= 0.01.
Proof. apply Qle_bool_imp_le. reflexivity. Qed.

(** [train_model] on a [SimpleGCN], for a positive number of epochs. *)
Lemma train_model_simple (n : nat) (x adj : matrix) (m : SimpleGCN)
  (epochs : Z) (lr : Q) (s : rng) :
  has_shape n n adj -> length x = n -> (0 < epochs)%Z -> 0 <= lr ->
  exists m' info,
    train_model float32 (NSimple m) x adj epochs lr s
    = (inr (NSimple m', info), s).
Proof.
  intros Hadj Hx Hepochs Hlr. unfold train_model.
  rewrite (bind_lift_inr _ _ s _ (optim_Adam_accepts lr Hlr)).
  match goal with
  | |- context [for_each ?l _ ?st0] =>
      destruct (train_loop_simple n x adj l st0 s Hadj Hx)
        as (st' & Hst' & [m' Hm'] & Hloss); [by eexists|]
  end.
  rewrite (bind_returns _ _ s s st' Hst').
  destruct Hloss as [loss Hloss].
  { left. destruct (Z.to_nat epochs) eqn:E; [lia | done]. }
  rewrite Hloss, Hm'. by eexists _, _.
Qed.

(** [SimpleGCN(in_feats)] with no keyword argument returns a model. *)
Lemma create_model_simple (f : nat) (s : rng) :
  exists m s', create_model "simple" f [] s = (inr (NSimple m), s').
Proof.
  unfold create_model, models. cbn [dict_get].
  rewrite decide_True by done.
  unfold SimpleGCN_new, Linear_new, bind, lift, draw, ret. cbn.
  repeat match goal with
         | |- context [init_matrix ?a ?b ?s0] =>
             destruct (init_matrix a b s0)
         | |- context [init_vector ?a ?s0] =>
             destruct (init_vector a s0)
         end.
  by eexists _, _.
Qed.

Lemma create_model_unknown (unknown : string) (f : nat) (s : rng) :
  unknown ∉ ["simple"; "deep"; "gat"; "hybrid"; "temporal"] ->
  create_model unknown f [] s
  = (inl (ValueError ("Unknown model type: " +:+ unknown)), s).
Proof.
  intros Hu. unfold create_model, models. cbn [dict_get].
  repeat match goal with
         | |- context [decide (?a = unknown)] =>
             destruct (decide (a = unknown)) as [<-|_];
             [exfalso; apply Hu;
              repeat first [apply list_elem_of_here
                           | apply list_elem_of_further]|]
         end.
  done.
Qed.

Lemma has_shape_ones (n m : nat) : has_shape n m (ones n m).
Proof.
  split.
  - apply length_replicate.
  - apply Forall_replicate, length_replicate.
Qed.

(** One turn of the loop for ["simple"]: the entry carries a score for
    each node and the top of the ranking. *)
Lemma compare_one_simple (nodes : list string) (n f : nat) (x adj : matrix)
  (epochs : Z) (results : list (string * compare_entry)) (s : rng) :
  has_shape n n adj -> length x = n -> length nodes = n -> n <> 0%nat ->
  exists scores top5 s',
    compare_one nodes n f x float32 adj epochs results "simple" s
    = (inr (dict_set "simple" (Scored scores top5) results), s')
    /\ (forall k, is_Some (dict_get k scores) <-> k ∈ nodes)
    /\ length top5 = Nat.min 5 n.
Proof.
  intros Hadj Hx Hnodes Hn. unfold compare_one, try_except.
  destruct (create_model_simple f s) as (m & s1 & Hcreate).
  rewrite (bind_returns _ _ s s1 _ Hcreate).
  assert (exists m2,
            (if (0 <? epochs)%Z
             then trained <- train_model float32 (NSimple m) x adj epochs 0.01 ;;
                  ret trained.1
             else ret (NSimple m)) s1 = (inr (NSimple m2), s1))
    as [m2 Htrain].
  { destruct (0 <? epochs)%Z eqn:Hep; [|by eexists].
    destruct (train_model_simple n x adj m epochs 0.01 s1 Hadj Hx)
      as (m' & info & Ht); [lia | apply default_lr |].
    exists m'. by rewrite (bind_returns _ _ s1 s1 _ Ht). }
  rewrite (bind_returns _ _ s1 s1 _ Htrain).
  destruct (forward_simple m2 false n x adj s1 Hadj Hx) as (v & Hv & Hlen).
  rewrite (bind_returns _ _ s1 s1 _ Hv).
  destruct (normalize_scores_returns v) as (norm & Hnorm & Hlen_norm).
  { intros ->. simpl in Hlen. lia. }
  rewrite (bind_lift_inr _ _ s1 norm Hnorm).
  destruct (scores_dict_returns nodes norm n s1) as (sc & Hsc & Hkeys);
    [done | lia |].
  rewrite (bind_returns _ _ s1 s1 _ Hsc).
  destruct (score_pairs_loop nodes norm n 0 [] s1) as (pairs & Hpairs & Hlp);
    [lia | lia |].
  unfold score_pairs. rewrite (bind_returns _ _ s1 s1 _ Hpairs).
  eexists sc, _, s1. split_and!; [reflexivity | done |].
  rewrite length_take, length_sorted_desc, Hlp. simpl. lia.
Qed.

(** One turn of the loop for a type that is no key of [models]: the
    ValueError of [create_model] becomes the entry's [error]. *)
Lemma compare_one_unknown (nodes : list string) (n f : nat) (x : matrix)
  (dt : dtype) (adj : matrix)
  (epochs : Z) (results : list (string * compare_entry)) (unknown : string)
  (s : rng) :
  unknown ∉ ["simple"; "deep"; "gat"; "hybrid"; "temporal"] ->
  compare_one nodes n f x dt adj epochs results unknown s
  = (inr (dict_set unknown (Failed ("Unknown model type: " +:+ unknown))
            results), s).
Proof.
  intros Hu. unfold compare_one, try_except.
  rewrite (bind_raises _ _ s s _ (create_model_unknown unknown f s Hu)).
  done.
Qed.

Lemma score_list_loop (nodes : list string) (scores : list (string * fl))
  (acc : list fl) (s : rng) :
  (forall k, k ∈ nodes -> is_Some (dict_get k scores)) ->
  exists l,
    for_each nodes
      (fun l name =>
         match dict_get name scores with
         | Some v => ret (l ++ [v])
         | None => raise (KeyError name)
         end) acc s = (inr l, s).
Proof.
  revert acc. induction nodes as [|name nodes IH]; intros acc Hkeys;
    cbn [for_each].
  - by eexists.
  - destruct (Hkeys name) as [v Hv]; [apply list_elem_of_here|].
    rewrite Hv.
    rewrite (bind_returns _ _ s s (acc ++ [v])) by done.
    apply IH. intros k Hk. apply Hkeys. by apply list_elem_of_further.
Qed.

(** The graph of a compare request that carries a non-empty adjacency list
    or no returns is [n] by [n]. *)
Lemma compare_graph_shape (req : MultiModelRequest.t) (n : nat) :
  nonempty (MultiModelRequest.adjacency req) = true
  \/ nonempty (MultiModelRequest.returns req) = false ->
  exists A, compare_graph req n = inr A /\ has_shape n n A.
Proof.
  unfold compare_graph, nonempty.
  destruct (MultiModelRequest.adjacency req) as [[|e es]|];
    destruct (MultiModelRequest.returns req) as [[|r rs]|];
    intros [?|?]; try done;
    first [ exists (ones n n); split; [done | apply has_shape_ones]
          | exists (build_adj_matrix n (e :: es)); split;
            [done | apply build_adj_matrix_inv] ].
Qed.

(** Such a graph is float32; a graph built from [returns] is float64. *)
Lemma compare_dtype_float32 (req : MultiModelRequest.t) :
  nonempty (MultiModelRequest.adjacency req) = true
  \/ nonempty (MultiModelRequest.returns req) = false ->
  compare_dtype req = float32.
Proof.
  unfold compare_dtype.
  destruct (nonempty (MultiModelRequest.adjacency req)); [done|].
  intros [? | ->]; done.
Qed.

Lemma compare_dtype_float64 (req : MultiModelRequest.t) :
  nonempty (MultiModelRequest.adjacency req) = false ->
  nonempty (MultiModelRequest.returns req) = true ->
  compare_dtype req = float64.
Proof. unfold compare_dtype. by intros -> ->. Qed.

Lemma np_array_rectangular (rows : list (list fl)) (f : nat) :
  rows <> [] -> Forall (fun row => length row = f) rows ->
  np_array rows = inr (Arr2 rows)
  /\ unpack2 (shape (Arr2 rows)) = inr (length rows, ncols rows).
Proof.
  intros Hne Hrect. destruct rows as [|r rest]; [done|].
  apply Forall_cons in Hrect as [Hr Hrest]. split; [|done].
  unfold np_array.
  assert (forallb (fun r' => length r' =? length r)%nat rest = true) as ->;
    [|done].
  apply forallb_forall. intros r' Hr'. apply Nat.eqb_eq.
  rewrite Forall_forall in Hrest. rewrite Hr.
  apply Hrest. by apply list_elem_of_In.
Qed.

(** With a float64 adjacency the first epoch of [train_model] on a
    [SimpleGCN] raises, and so does the forward pass. *)
Lemma train_model_simple_float64 (m : SimpleGCN) (x adj : matrix)
  (epochs : Z) (lr : Q) (s : rng) :
  (0 < epochs)%Z -> 0 <= lr ->
  train_model float64 (NSimple m) x adj epochs lr s
  = (inl dtype_mismatch, s).
Proof.
  intros Hepochs Hlr. unfold train_model.
  rewrite (bind_lift_inr _ _ s _ (optim_Adam_accepts lr Hlr)).
  destruct (Z.to_nat epochs) as [|k] eqn:E; [lia|].
  cbn [seq for_each]. apply bind_raises, bind_raises.
  unfold train_epoch. cbn [ts_model]. by apply bind_raises.
Qed.

(** One turn of the loop for ["simple"] on a float64 adjacency: the
    RuntimeError of the first [torch.matmul] becomes the entry's [error],
    whatever the inputs and the number of epochs. *)
Lemma compare_one_simple_float64 (nodes : list string) (n f : nat)
  (x adj : matrix) (epochs : Z) (results : list (string * compare_entry))
  (s : rng) :
  exists s',
    compare_one nodes n f x float64 adj epochs results "simple" s
    = (inr (dict_set "simple" (Failed (str_exn dtype_mismatch)) results), s').
Proof.
  unfold compare_one, try_except.
  destruct (create_model_simple f s) as (m & s1 & Hcreate).
  rewrite (bind_returns _ _ s s1 _ Hcreate).
  exists s1. destruct (0 <? epochs)%Z eqn:Hep.
  - apply Z.ltb_lt in Hep.
    rewrite (bind_raises _ _ s1 s1 dtype_mismatch); [done|].
    apply bind_raises, train_model_simple_float64; [done | apply default_lr].
  - rewrite (bind_returns _ _ s1 s1 (NSimple m)) by done.
    by rewrite (bind_raises _ _ s1 s1 dtype_mismatch).
Qed.

(** C8: what the code does for a graph built from [returns].  A
    [/gcn/compare] request with no (or an empty) adjacency list and a
    non-empty [returns] whose model types are ["simple"] and a type that is
    no key of [models]: whenever the correlation graph can be built, the
    response is a success in which the entry of ["simple"] carries an
    inline error too, and no scores.  [A + np.eye(n)] is a float64 array,
    the features are float32, and the first [torch.matmul(adj_norm, x)] of
    [SimpleGCN.forward] raises; this holds for every request of that kind
    and every behaviour of the library. *)
Theorem gcn_compare_returns_dtype (req : MultiModelRequest.t)
  (unknown : string) (f : nat) (s : rng) :
  MultiModelRequest.model_types req = ["simple"; unknown] ->
  unknown ∉ ["simple"; "deep"; "gat"; "hybrid"; "temporal"] ->
  MultiModelRequest.features req <> [] ->
  Forall (fun row => length row = f) (MultiModelRequest.features req) ->
  nonempty (MultiModelRequest.adjacency req) = false ->
  nonempty (MultiModelRequest.returns req) = true ->
  (exists A,
     compare_graph req (length (MultiModelRequest.features req)) = inr A) ->
  exists msg s',
    post_gcn_compare req s
    = (Ok200
         (JDict
            [("results",
              JDict
                [("simple", JDict [("error", JStr msg)]);
                 (unknown,
                  JDict [("error",
                          JStr ("Unknown model type: " +:+ unknown))])]);
             ("n_nodes", JNat (length (MultiModelRequest.features req)));
             ("n_features", JNat (ncols (MultiModelRequest.features req)))]),
       s').
Proof.
  intros Htypes Hunknown Hne Hrect Hadjacency Hreturns (A & HA).
  set (features := MultiModelRequest.features req) in *.
  set (n := length features) in *.
  destruct (np_array_rectangular features f Hne Hrect) as [Harr Hshape].
  assert (n <> 0%nat) as Hn by (subst n; by destruct features).
  destruct (compare_one_simple_float64 (MultiModelRequest.nodes req) n
              (ncols features) features (normalize_adj A)
              (MultiModelRequest.train_epochs req) [] s)
    as (s1 & Hone).
  exists (str_exn dtype_mismatch), s1.
  unfold post_gcn_compare, route.
  change (MultiModelRequest.validate req) with true. cbn match.
  assert (gcn_compare req s
          = (inr (JDict
                    [("results",
                      results_json
                        [("simple", Failed (str_exn dtype_mismatch));
                         (unknown,
                          Failed ("Unknown model type: " +:+ unknown))]);
                     ("n_nodes", JNat n);
                     ("n_features", JNat (ncols features))]), s1)) as ->;
    [|done].
  assert ("simple" <> unknown) as Hsimple.
  { intros <-. apply Hunknown, list_elem_of_here. }
  assert (for_each ["simple"; unknown]
            (compare_one (MultiModelRequest.nodes req) n (ncols features)
               features float64 (normalize_adj A)
               (MultiModelRequest.train_epochs req)) [] s
          = (inr [("simple", Failed (str_exn dtype_mismatch));
                  (unknown, Failed ("Unknown model type: " +:+ unknown))],
             s1)) as Hloop.
  { cbn [for_each].
    rewrite (bind_returns _ _ s s1 _ Hone).
    rewrite (bind_returns _ _ s1 s1 _
               (compare_one_unknown _ _ _ _ _ _ _ _ unknown s1 Hunknown)).
    cbn [dict_set]. by rewrite decide_False. }
  unfold gcn_compare, try_except. cbn zeta.
  fold features.
  rewrite (bind_lift_inr _ _ s _ Harr).
  rewrite (bind_lift_inr _ _ s _ Hshape).
  fold n. rewrite (proj2 (Nat.eqb_neq n 0) Hn).
  rewrite (bind_lift_inr _ _ s _ HA).
  rewrite Htypes, (compare_dtype_float64 req Hadjacency Hreturns).
  cbn [as_matrix].
  rewrite (bind_returns _ _ s s1 _ Hloop).
  reflexivity.
Qed.

End compare_facts.

Lemma gcn_compare_returns_dtype_witness :
  exists msg s',
    @post_gcn_compare rational_numerics toy_sklearn compare_returns_bogus
      0%nat
    = (Ok200
         (JDict
            [("results",
              JDict
                [("simple", JDict [("error", JStr msg)]);
                 ("bogus",
                  JDict [("error", JStr ("Unknown model type: " +:+ "bogus"))])]);
             ("n_nodes",
              JNat (length (MultiModelRequest.features compare_returns_bogus)));
             ("n_features",
              JNat (ncols (MultiModelRequest.features compare_returns_bogus)))]),
       s').
Proof.
  apply (@gcn_compare_returns_dtype rational_numerics toy_sklearn
           compare_returns_bogus "bogus" 2%nat 0%nat).
  - reflexivity.
  - intros H. repeat (apply elem_of_cons in H as [H|H]; [discriminate H|]).
    by apply elem_of_nil in H.
  - discriminate.
  - repeat constructor.
  - reflexivity.
  - reflexivity.
  - eexists. vm_compute. reflexivity.
Defined.

Section temporal_facts.
Context {N : Numerics} {T : Torch}.

Lemma forward_temporal (dt : dtype) (m : TemporalGCN) (training : bool)
  (x adj : matrix) (s : rng) :
  forward dt (NTemporal m) training x adj s
  = (inl (ValueError "not enough values to unpack (expected 3, got 2)"), s).
Proof. by destruct dt. Qed.

Lemma train_model_temporal (dt : dtype) (m : TemporalGCN) (x adj : matrix)
  (epochs : Z) (lr : Q) (s : rng) :
  (0 < epochs)%Z -> 0 <= lr ->
  train_model dt (NTemporal m) x adj epochs lr s
  = (inl (ValueError "not enough values to unpack (expected 3, got 2)"), s).
Proof.
  intros Hepochs Hlr. unfold train_model.
  rewrite (bind_lift_inr _ _ s _ (optim_Adam_accepts lr Hlr)).
  destruct (Z.to_nat epochs) as [|k] eqn:E; [lia|].
  cbn [seq for_each]. apply bind_raises, bind_raises.
  unfold train_epoch. cbn [ts_model]. apply bind_raises, forward_temporal.
Qed.

(** One turn of the compare loop for ["temporal"]: whatever the library
    does, the entry is an inline error. *)
Lemma compare_one_temporal (nodes : list string) (n f : nat) (x : matrix)
  (dt : dtype) (adj : matrix)
  (epochs : Z) (results : list (string * compare_entry)) (s : rng) :
  exists msg s',
    compare_one nodes n f x dt adj epochs results "temporal" s
    = (inr (dict_set "temporal" (Failed msg) results), s').
Proof.
  unfold compare_one, try_except.
  match goal with
  | |- context [bind (create_model "temporal" f []) ?k s] =>
      assert (exists e s', bind (create_model "temporal" f []) k s
                           = (inl e, s')) as (e & s' & ->)
  end; [|by eexists _, _].
  unfold create_model, models. cbn [dict_get].
  rewrite decide_False by done. rewrite decide_False by done.
  rewrite decide_False by done. rewrite decide_False by done.
  rewrite decide_True by done.
  destruct (TemporalGCN_new f [] s) as [[e|model] s1] eqn:Hnew.
  { eexists _, _. by apply bind_raises. }
  rewrite (bind_returns _ _ s s1 _ Hnew).
  assert (exists m, model = NTemporal m) as [m ->].
  { unfold TemporalGCN_new, bind, lift, ret in Hnew. cbn in Hnew.
    destruct (TemporalGCN_init f 20 32 1 2 0.2 s) as [[e|m] s2];
      [discriminate|].
    injection Hnew as <- _. by eexists. }
  destruct (0 <? epochs)%Z eqn:Hep.
  - eexists _, _. apply bind_raises, bind_raises, train_model_temporal;
      [lia | apply default_lr].
  - rewrite (bind_returns _ _ s1 s1 (NTemporal m)) by done.
    eexists _, _. apply bind_raises, forward_temporal.
Qed.

(** ["temporal"] is a key of [models] too, and its entry is always an
    inline error: [TemporalGCN.forward] starts with
    [N, T, F = x_seq.shape] and the handler passes the rank-2 feature
    tensor.  The request with model types ["temporal"; "bogus"] gets a
    success response with two inline errors, for every behaviour of the
    library. *)
Lemma compare_temporal_inline_error (s : rng) :
  exists msg s',
    gcn_compare compare_temporal_bogus s
    = (inr (JDict
              [("results",
                JDict
                  [("temporal", JDict [("error", JStr msg)]);
                   ("bogus",
                    JDict [("error", JStr "Unknown model type: bogus")])]);
               ("n_nodes", JNat 2);
               ("n_features", JNat 2)]), s').
Proof.
  assert ("bogus" ∉ ["simple"; "deep"; "gat"; "hybrid"; "temporal"])
    as Hbogus.
  { intros H.
    repeat (apply elem_of_cons in H as [H|H]; [discriminate H|]).
    by apply elem_of_nil in H. }
  unfold gcn_compare, try_except. cbn zeta.
  rewrite (bind_lift_inr
             (np_array (MultiModelRequest.features compare_temporal_bogus))
             _ s (Arr2 _) eq_refl).
  match goal with
  | |- context [unpack2 (shape ?X)] =>
      rewrite (bind_lift_inr (unpack2 (shape X)) _ s (2%nat, 2%nat) eq_refl)
  end.
  change (2 =? 0)%nat with false. cbn match.
  rewrite (bind_lift_inr (compare_graph compare_temporal_bogus 2) _ s
             (ones 2 2) eq_refl).
  change (MultiModelRequest.model_types compare_temporal_bogus)
    with ["temporal"; "bogus"].
  match goal with
  | |- context [for_each _ (compare_one ?nodes ?n ?f ?x ?dt ?adj ?ep) []] =>
      destruct (compare_one_temporal nodes n f x dt adj ep [] s)
        as (msg & s1 & Hone);
      assert (for_each ["temporal"; "bogus"]
                (compare_one nodes n f x dt adj ep) [] s
              = (inr [("temporal", Failed msg);
                      ("bogus", Failed "Unknown model type: bogus")], s1))
        as Hloop
  end.
  { cbn [for_each].
    rewrite (bind_returns _ _ s s1 _ Hone).
    rewrite (bind_returns _ _ s1 s1 _
               (compare_one_unknown _ _ _ _ _ _ _ _ "bogus" s1 Hbogus)).
    reflexivity. }
  exists msg, s1.
  rewrite (bind_returns _ _ s s1 _ Hloop).
  reflexivity.
Qed.

End temporal_facts.

(* ================================================================== *)
(** * Further properties of the code *)
(* ================================================================== *)

(** ** [build_sector_graph] *)

(** One turn of the inner loop. *)
Lemma sector_link_step (sectors : list string) (A : matrix) (i m : nat) :
  (i < m < length sectors)%nat ->
  sector_inv sectors i m A ->
  sector_inv sectors i (S m) (sector_link sectors A i m).
Proof.
  unfold sector_inv. cbn zeta. intros Him [Hs Hentries]. unfold sector_link.
  destruct (decide (sectors !! i = sectors !! m)) as [Hsame|Hdiff].
  - assert (has_shape (length sectors) (length sectors)
              (mset A i m (Fin 1))) as Hs1 by by apply has_shape_mset.
    split; [by apply has_shape_mset|].
    intros a b Ha Hb.
    rewrite !(mget_mset (length sectors) (length sectors)) by (done || lia).
    destruct (decide (m = a /\ i = b)) as [[<- <-]|Hmi].
    { rewrite decide_True; [done|]. split_and!; [lia | done | lia]. }
    destruct (decide (i = a /\ m = b)) as [[<- <-]|Him'].
    { rewrite decide_True; [done|]. split_and!; [lia | done | lia]. }
    rewrite Hentries by done. f_equal.
    apply decide_ext. intuition lia.
  - split; [done|]. intros a b Ha Hb. rewrite Hentries by done. f_equal.
    apply decide_ext.
    assert (a `min` b = i /\ a `max` b = m ->
            sectors !! a = sectors !! b -> False) as Hno.
    { intros [Hmin Hmax] Hab. apply Hdiff.
      destruct (Nat.le_ge_cases a b) as [Hle|Hge].
      - rewrite Nat.min_l, Nat.max_r in * by lia. by subst.
      - rewrite Nat.min_r, Nat.max_l in * by lia. by subst. }
    split.
    + intros (Hne & Hab & [Hdone|[Hmin Hmax]]); split_and!; try done;
        [by left | right; split; [done | lia]].
    + intros (Hne & Hab & [Hdone|[Hmin Hmax]]); split_and!; try done;
        [by left|].
      destruct (decide (a `max` b = m)) as [Hm|Hm];
        [exfalso; by apply Hno | right; split; [done | lia]].
Qed.

Lemma sector_inner_loop (sectors : list string) (i len m : nat) (A : matrix) :
  (i < m)%nat -> (m + len <= length sectors)%nat ->
  sector_inv sectors i m A ->
  sector_inv sectors i (m + len)
    (foldl (fun adj j => sector_link sectors adj i j) A (seq m len)).
Proof.
  revert m A. induction len as [|len IH]; intros m A Him Hlen Hinv;
    cbn [seq foldl].
  - by rewrite Nat.add_0_r.
  - replace (m + S len)%nat with (S m + len)%nat by lia.
    apply IH; [lia | lia |]. apply sector_link_step; [lia | done].
Qed.

(** Between two turns of the outer loop: all pairs with first index [i]
    are visited, which is the state at the start of turn [i + 1]. *)
Lemma sector_inv_next (sectors : list string) (i : nat) (A : matrix) :
  sector_inv sectors i (length sectors) A ->
  sector_inv sectors (S i) (S (S i)) A.
Proof.
  unfold sector_inv. cbn zeta. intros [Hs Hentries]. split; [done|].
  intros a b Ha Hb. rewrite Hentries by done. f_equal.
  apply decide_ext. intuition lia.
Qed.

Lemma sector_outer_loop (sectors : list string) (len i : nat) (A : matrix) :
  (i + len <= length sectors)%nat ->
  sector_inv sectors i (S i) A ->
  sector_inv sectors (i + len) (S (i + len))
    (foldl (fun adj i =>
              foldl (fun adj j => sector_link sectors adj i j) adj
                (seq (S i) (length sectors - S i)))
       A (seq i len)).
Proof.
  revert i A. induction len as [|len IH]; intros i A Hlen Hinv;
    cbn [seq foldl].
  - by rewrite Nat.add_0_r.
  - replace (i + S len)%nat with (S i + len)%nat by lia.
    apply IH; [lia|]. apply sector_inv_next.
    pose proof (sector_inner_loop sectors i (length sectors - S i) (S i) A)
      as Hinner.
    replace (S i + (length sectors - S i))%nat with (length sectors)
      in Hinner by lia.
    apply Hinner; [lia | lia | done].
Qed.

(** X1.  [build_sector_graph] returns an [n] by [n] matrix whose entry
    [(i, j)] is 1.0 exactly when [i] and [j] are two different stocks of
    one sector and 0.0 otherwise: the graph is symmetric and has no
    self-loop. *)
Theorem build_sector_graph_spec (sectors : list string) :
  let n := length sectors in
  let adj := build_sector_graph sectors in
  has_shape n n adj
  /\ (forall i j, (i < n)%nat -> (j < n)%nat ->
        mget adj i j
        = Some (if decide (i <> j /\ sectors !! i = sectors !! j)
                then Fin 1 else Fin 0))
  /\ (forall i j, (i < n)%nat -> (j < n)%nat -> mget adj i j = mget adj j i)
  /\ (forall i, (i < n)%nat -> mget adj i i = Some (Fin 0)).
Proof.
  cbn zeta. unfold build_sector_graph. cbn zeta.
  pose proof (sector_outer_loop sectors (length sectors) 0
                (zeros (length sectors) (length sectors))) as Hloop.
  cbn [Nat.add] in Hloop.
  destruct Hloop as [Hs Hentries]; [lia | |].
  { split; [apply has_shape_zeros|]. intros a b Ha Hb.
    destruct (mget_in_shape _ _ (zeros (length sectors) (length sectors))
                a b (has_shape_zeros _ _) Ha Hb) as [x Hx].
    rewrite Hx. apply mget_zeros in Hx as ->.
    rewrite decide_False; [done|]. intuition lia. }
  assert (forall i j, (i < length sectors)%nat -> (j < length sectors)%nat ->
            mget (foldl
                    (fun adj i =>
                       foldl (fun adj j => sector_link sectors adj i j) adj
                         (seq (S i) (length sectors - S i)))
                    (zeros (length sectors) (length sectors))
                    (seq 0 (length sectors))) i j
            = Some (if decide (i <> j /\ sectors !! i = sectors !! j)
                    then Fin 1 else Fin 0)) as Hspec.
  { intros i j Hi Hj. rewrite Hentries by done. f_equal.
    apply decide_ext. intuition lia. }
  split_and!; [done | done | |].
  - intros i j Hi Hj. rewrite !Hspec by done. f_equal.
    apply decide_ext. intuition congruence.
  - intros i Hi. rewrite Hspec by done.
    rewrite decide_False; [done|]. intuition congruence.
Qed.

Example build_sector_graph_three :
  build_sector_graph ["tech"; "bank"; "tech"]
  = [[Fin 0; Fin 0; Fin 1]; [Fin 0; Fin 0; Fin 0]; [Fin 1; Fin 0; Fin 0]].
Proof. reflexivity. Qed.

(** ** Columns and entries *)

Lemma column_lookup (B : matrix) (i j : nat) (x : fl) :
  mget B i j = Some x -> column B j !! i = Some x.
Proof.
  unfold mget, column. rewrite list_lookup_fmap.
  destruct (B !! i) as [row|]; [|done]. cbn. by intros ->.
Qed.

Lemma length_column (B : matrix) (j : nat) : length (column B j) = length B.
Proof. unfold column. apply length_map. Qed.

Lemma mget_lt n m (A : matrix) i j x :
  has_shape n m A -> mget A i j = Some x -> (i < n)%nat /\ (j < m)%nat.
Proof.
  intros HA Hx. unfold mget in Hx.
  destruct (A !! i) as [row|] eqn:Hrow; [|done].
  destruct (has_shape_row n m A i row HA Hrow) as [Hlen Hi].
  split; [done|]. rewrite <- Hlen. by eapply lookup_lt_Some.
Qed.


(** ** [normalize_scores]: empty arrays and NaN *)

(** X4.  [normalize_scores] raises ValueError on an empty array and on no
    other input, and an array that holds a NaN gives as many NaN as it has
    entries, under either version of NumPy. *)
Theorem normalize_scores_nan_spec (v : IEEE.numpy) (scores : list spec_float) :
  (scores = [] <-> exists msg, IEEE.normalize_scores v scores
                               = inl (ValueError msg))
  /\ (S754_nan ∈ scores ->
      IEEE.normalize_scores v scores
      = inr (replicate (length scores) S754_nan)).
Proof.
  split.
  - destruct scores as [|x rest]; [split; [by eexists | done]|].
    split; [done|]. intros [msg Hmsg]. unfold IEEE.normalize_scores in Hmsg.
    by destruct (SFltb _ _) in Hmsg.
  - destruct scores as [|x rest]; [intros H; by apply elem_of_nil in H|].
    intros Hnan. unfold IEEE.normalize_scores.
    rewrite (ieee_amin_nan x rest Hnan).
    assert (forall a, IEEE.sub IEEE.binary64 a S754_nan = S754_nan) as Hsub
      by (by intros []).
    rewrite Hsub. cbn [SFltb SFcompare]. f_equal.
    generalize (x :: rest). intros l. induction l as [|y l IH]; [done|].
    cbn [map length replicate]. f_equal; [|done].
    unfold IEEE.rescale. destruct v, y; done.
Qed.

(** ** [train_model]: the training history *)

Lemma every_tenth_step (k : nat) :
  (k mod 10 = 0 ->
   (S k + 9) / 10 = S ((k + 9) / 10) /\ k = 10 * ((k + 9) / 10))%nat
  /\ (k mod 10 <> 0 -> (S k + 9) / 10 = (k + 9) / 10)%nat.
Proof.
  pose proof (Nat.div_mod_eq k 10).
  pose proof (Nat.div_mod_eq (k + 9) 10).
  pose proof (Nat.div_mod_eq (S k + 9) 10).
  pose proof (Nat.mod_upper_bound k 10).
  pose proof (Nat.mod_upper_bound (k + 9) 10).
  pose proof (Nat.mod_upper_bound (S k + 9) 10).
  lia.
Qed.

Lemma every_tenth_filter (epochs : nat) :
  filter (fun e => e mod 10 = 0)%nat (seq 0 epochs) = every_tenth epochs.
Proof.
  unfold every_tenth. induction epochs as [|k IH]; [done|].
  rewrite seq_S, filter_app, IH. rewrite Nat.add_0_l.
  rewrite filter_cons, filter_nil.
  destruct (every_tenth_step k) as [Hzero Hnonzero].
  case_decide as Hk.
  - destruct (Hzero Hk) as [-> Hk10].
    rewrite seq_S, map_app, Nat.add_0_l. cbn [map]. by rewrite <- Hk10.
  - rewrite (Hnonzero Hk). by rewrite app_nil_r.
Qed.

Section training_facts.
Context {N : Numerics} {T : Torch}.

(** One epoch on a [SimpleGCN]: the history grows by one snapshot exactly
    at the epochs that are multiples of 10. *)
Lemma train_epoch_history (n : nat) (x adj : matrix) (epoch : nat)
  (st : train_state) (s : rng) :
  has_shape n n adj -> length x = n ->
  (exists m, ts_model st = NSimple m) ->
  exists st' new,
    train_epoch float32 x adj st epoch s = (inr st', s)
    /\ (exists m', ts_model st' = NSimple m')
    /\ is_Some (ts_loss st')
    /\ ts_history st' = ts_history st ++ new
    /\ map snapshot_epoch new
       = map (fun e => Some (Z.of_nat e))
           (filter (fun e => e mod 10 = 0)%nat [epoch]).
Proof.
  intros Hadj Hx [m Hm].
  destruct (forward_simple m true n x adj s Hadj Hx) as (out & Hout & _).
  unfold train_epoch. rewrite Hm.
  rewrite (bind_returns _ _ s s out Hout).
  cbn [backward_step].
  destruct (step_SimpleGCN (ts_optimizer st) m x adj) as [m' o'].
  rewrite filter_cons, filter_nil.
  destruct (epoch mod 10 =? 0)%nat eqn:E.
  - apply Nat.eqb_eq in E. rewrite decide_True by done.
    eexists _, _. split_and!; [reflexivity | by eexists | by eexists
                               | reflexivity | done].
  - apply Nat.eqb_neq in E. rewrite decide_False by done.
    eexists _, []. split_and!; [reflexivity | by eexists | by eexists
                               | cbn; by rewrite app_nil_r | done].
Qed.

Lemma train_loop_history (n : nat) (x adj : matrix) (len a : nat)
  (st : train_state) (s : rng) :
  has_shape n n adj -> length x = n ->
  (exists m, ts_model st = NSimple m) ->
  exists st' new,
    for_each (seq a len) (train_epoch float32 x adj) st s = (inr st', s)
    /\ (exists m', ts_model st' = NSimple m')
    /\ (len <> 0%nat -> is_Some (ts_loss st'))
    /\ ts_history st' = ts_history st ++ new
    /\ map snapshot_epoch new
       = map (fun e => Some (Z.of_nat e))
           (filter (fun e => e mod 10 = 0)%nat (seq a len)).
Proof.
  intros Hadj Hx. revert a st.
  induction len as [|len IH]; intros a st Hm; cbn [seq for_each].
  - exists st, []. split_and!; [done | done | done | by rewrite app_nil_r | done].
  - destruct (train_epoch_history n x adj a st s Hadj Hx Hm)
      as (st1 & new1 & Hst1 & Hm1 & Hloss1 & Hh1 & Hnew1).
    rewrite (bind_returns _ _ s s st1 Hst1).
    destruct (IH (S a) st1 Hm1) as (st' & new & Hst' & Hm' & Hloss' & Hh & Hnew).
    exists st', (new1 ++ new). split_and!; [done | done | | |].
    + intros _. destruct len as [|len'].
      * cbn in Hst'. by injection Hst' as <-.
      * by apply Hloss'.
    + by rewrite Hh, Hh1, app_assoc.
    + change (a :: seq (S a) len) with ([a] ++ seq (S a) len).
      by rewrite filter_app, !map_app, Hnew1, Hnew.
Qed.

(** X5.  [train_model] raises the ValueError of [optim.Adam] for a negative
    learning rate.  Otherwise, with no epoch to run (epochs <= 0) it raises
    UnboundLocalError at its [return], for every model, without touching
    the generator.  On a [SimpleGCN] built for [f] input features, with [n]
    feature rows of width [f] and an [n] by [n] float32 adjacency, a
    positive number of epochs returns the model and a dict with
    [final_loss] and [history], the generator state is unchanged, and the
    history holds one snapshot for each of the epochs 0, 10, 20, ... below
    [epochs], in that order: ceil(epochs / 10) of them. *)
Theorem train_model_history (dt : dtype) (n f : nat) (x adj : matrix)
  (lr : Q) (s : rng) :
  (lr < 0 ->
   forall model epochs,
     exists msg,
       train_model dt model x adj epochs lr s = (inl (ValueError msg), s))
  /\ (0 <= lr ->
      forall model epochs, (epochs <= 0)%Z ->
        exists msg,
          train_model dt model x adj epochs lr s
          = (inl (UnboundLocalError msg), s))
  /\ (0 <= lr ->
      forall m epochs,
        has_shape n n adj -> has_shape n f x -> SimpleGCN_fits f m ->
        (0 < epochs)%Z ->
        exists m' loss history,
          train_model float32 (NSimple m) x adj epochs lr s
          = (inr (NSimple m',
                  JDict [("final_loss", JFloat loss);
                         ("history", JList history)]), s)
          /\ map snapshot_epoch history
             = map (fun e => Some (Z.of_nat e))
                 (every_tenth (Z.to_nat epochs))
          /\ length history = ((Z.to_nat epochs + 9) / 10)%nat).
Proof.
  split_and!.
  - intros Hlr model epochs.
    destruct (optim_Adam_rejects lr Hlr) as [msg Hmsg].
    exists msg. unfold train_model.
    by rewrite (bind_lift_inl _ _ s _ Hmsg).
  - intros Hlr model epochs Hep. unfold train_model.
    rewrite (bind_lift_inr _ _ s _ (optim_Adam_accepts lr Hlr)).
    replace (Z.to_nat epochs) with 0%nat by lia.
    by eexists.
  - intros Hlr m epochs Hadj [Hx _] _ Hep. unfold train_model.
    rewrite (bind_lift_inr _ _ s _ (optim_Adam_accepts lr Hlr)).
    match goal with
    | |- context [for_each (seq 0 ?len) _ ?st0] =>
        destruct (train_loop_history n x adj len 0 st0 s Hadj Hx)
          as (st' & new & Hst' & [m' Hm'] & Hloss & Hh & Hnew); [by eexists|]
    end.
    rewrite (bind_returns _ _ s s st' Hst').
    destruct Hloss as [loss Hloss]; [lia|].
    rewrite Hloss, Hm'. cbn [ts_history app] in Hh. rewrite Hh.
    rewrite every_tenth_filter in Hnew.
    eexists _, _, _. split_and!; [reflexivity | done |].
    apply (f_equal length) in Hnew. rewrite !length_map in Hnew.
    rewrite Hnew. unfold every_tenth. by rewrite length_map, length_seq.
Qed.

End training_facts.

(** Twenty-five epochs on a two-node graph: snapshots at epochs 0, 10, 20. *)
Lemma train_model_history_witness :
  exists m' loss history,
    @train_model rational_numerics stub_torch float32
      (NSimple {| fc1 := {| weight := [[Fin 1; Fin 0]]; bias := [Fin 0] |};
                  fc2 := {| weight := [[Fin 1]]; bias := [Fin 0] |} |})
      [[Fin 1; Fin 0]; [Fin 0; Fin 1]] (ones 2 2) 25 0.01 0%nat
    = (inr (NSimple m',
            JDict [("final_loss", JFloat loss); ("history", JList history)]),
       0%nat)
    /\ map snapshot_epoch history = [Some 0; Some 10; Some 20]%Z
    /\ length history = 3%nat.
Proof.
  destruct (@train_model_history rational_numerics stub_torch float32 2 2
              [[Fin 1; Fin 0]; [Fin 0; Fin 1]] (ones 2 2) 0.01 0%nat)
    as (_ & _ & H).
  apply (H default_lr _ 25%Z);
    [split; [reflexivity | repeat constructor]
    | split; [reflexivity | repeat constructor]
    | repeat split; repeat constructor
    | lia].
Defined.

(** ** [POST /gcn/predict] on well-formed requests *)

Section predict_facts.
Context {N : Numerics} {T : Torch}.

(** The values of the [scores] dict are entries of [norm_scores]. *)
Lemma scores_dict_values (nodes : list string) (norm : list fl) (len a : nat)
  (acc d : list (string * fl)) (s s' : rng) :
  for_each (seq a len)
    (fun d i =>
       k <- list_getitem nodes i ;;
       v <- list_getitem norm i ;;
       ret (dict_set k v d)) acc s = (inr d, s') ->
  forall k v, dict_get k d = Some v -> dict_get k acc = Some v \/ v ∈ norm.
Proof.
  revert a acc s. induction len as [|len IH]; intros a acc s; cbn [seq for_each].
  - intros [= <- <-]. auto.
  - unfold bind at 1. unfold bind at 1. unfold list_getitem at 1.
    destruct (nodes !! a) as [k0|] eqn:Hk0; [|discriminate].
    cbn [ret]. unfold bind at 1. unfold list_getitem at 1.
    destruct (norm !! a) as [v0|] eqn:Hv0; [|discriminate].
    cbn [ret]. intros Hloop k v Hkv.
    destruct (IH _ _ _ Hloop k v Hkv) as [Hacc|Hin]; [|by right].
    rewrite dict_get_set in Hacc. case_decide; [|by left].
    injection Hacc as <-. right. by eapply list_elem_of_lookup_2.
Qed.

(** With fewer names than rows the comprehension stops at the first row
    that has no name. *)
Lemma scores_dict_short_loop (nodes : list string) (norm : list fl)
  (len a : nat) (acc : list (string * fl)) (s : rng) :
  (a <= length nodes < a + len)%nat -> (a + len <= length norm)%nat ->
  for_each (seq a len)
    (fun d i =>
       k <- list_getitem nodes i ;;
       v <- list_getitem norm i ;;
       ret (dict_set k v d)) acc s
  = (inl (IndexError "list index out of range"), s).
Proof.
  revert a acc. induction len as [|len IH]; intros a acc Hnodes Hnorm;
    [lia|]. cbn [seq for_each].
  destruct (decide (a = length nodes)) as [->|Hlt].
  - apply bind_raises, bind_raises. unfold list_getitem.
    by rewrite lookup_ge_None_2.
  - destruct (lookup_lt_is_Some_2 nodes a) as [k0 Hk0]; [lia|].
    destruct (lookup_lt_is_Some_2 norm a) as [v0 Hv0]; [lia|].
    rewrite (bind_returns _ _ s s (dict_set k0 v0 acc)).
    2:{ rewrite (bind_returns _ _ s s k0) by by apply list_getitem_Some.
        rewrite (bind_returns _ _ s s v0) by by apply list_getitem_Some.
        done. }
    apply IH; lia.
Qed.

(** [SimpleGCN(in_feats=f, hidden=h, out_feats=1)] returns a model. *)
Lemma SimpleGCN_new_returns (f : nat) (hidden : Z) (s : rng) :
  exists m s',
    SimpleGCN_new f [("hidden", PInt hidden); ("out_feats", PInt 1)] s
    = (inr (NSimple m), s').
Proof.
  unfold SimpleGCN_new.
  rewrite (bind_lift_inr _ _ s tt) by reflexivity.
  rewrite (bind_lift_inr _ _ s hidden) by reflexivity.
  rewrite (bind_lift_inr _ _ s 1%Z) by reflexivity.
  unfold Linear_new, bind, lift, draw, ret.
  repeat match goal with
         | |- context [init_matrix ?a ?b ?s0] =>
             destruct (init_matrix a b s0)
         | |- context [init_vector ?a ?s0] =>
             destruct (init_vector a s0)
         end.
  by eexists _, _.
Qed.

(** The training step of [gcn_predict]: skipped, with an empty info dict,
    unless [train_epochs] is positive. *)
Lemma predict_training (n : nat) (x adj : matrix) (m : SimpleGCN)
  (epochs : Z) (s : rng) :
  has_shape n n adj -> length x = n ->
  exists m2 info,
    (if (0 <? epochs)%Z then train_model float32 (NSimple m) x adj epochs 0.01
     else ret (NSimple m, JDict [])) s = (inr (NSimple m2, info), s)
    /\ ((epochs <= 0)%Z -> info = JDict []).
Proof.
  intros Hadj Hx.
  destruct (0 <? epochs)%Z eqn:Hep.
  - destruct (train_model_simple n x adj m epochs 0.01 s Hadj Hx)
      as (m' & info & Ht); [lia | apply default_lr |].
    exists m', info. split; [done | lia].
  - by eexists _, _.
Qed.

(** The evaluation pass and the normalization of its scores. *)
Lemma predict_eval (n : nat) (x adj : matrix) (m : SimpleGCN) (s : rng) :
  has_shape n n adj -> length x = n -> n <> 0%nat ->
  exists v norm,
    forward float32 (NSimple m) false x adj s = (inr v, s)
    /\ normalize_scores v = inr norm
    /\ length norm = n.
Proof.
  intros Hadj Hx Hn.
  destruct (forward_simple m false n x adj s Hadj Hx) as (v & Hv & Hlen).
  destruct (normalize_scores_returns v) as (norm & Hnorm & Hlen_norm).
  { intros ->. simpl in Hlen. lia. }
  exists v, norm. split_and!; [done | done | lia].
Qed.

(** The request body as the handler sees it: [n] rows of [f] features. *)
Lemma predict_inputs (features : list (list fl)) (edges : list (list Z))
  (f : nat) :
  features <> [] -> Forall (fun row => length row = f) features ->
  let n := length features in
  np_array features = inr (Arr2 features)
  /\ unpack2 (shape (Arr2 features)) = inr (n, f)
  /\ (n =? 0)%nat = false
  /\ has_shape n n (normalize_adj (build_adj_matrix n edges)).
Proof.
  intros Hne Hrect n.
  destruct (np_array_rectangular features f Hne Hrect) as [Harr Hshape].
  split_and!; [done | | |].
  - rewrite Hshape. destruct features as [|r rest]; [done|].
    apply Forall_cons in Hrect as [<- _]. done.
  - apply Nat.eqb_neq. subst n. by destruct features.
  - apply has_shape_normalize_adj, build_adj_matrix_inv.
Qed.

(** X6.  [gcn_predict] on a non-empty rectangular feature matrix ([n] rows
    of [f] features) with at least [n] node names, whatever the edge list
    and whatever integer [train_epochs] is (negative included): the handler
    raises nothing and returns its dict; [scores] has a key for exactly the
    first [n] node names (names beyond the rows are ignored), [info]
    echoes [n], [f] and [train_epochs], and [training] is the empty dict
    when [train_epochs] is not positive. *)
Theorem gcn_predict_success (req : GCNRequest.t) (f : nat) (s : rng) :
  GCNRequest.features req <> [] ->
  Forall (fun row => length row = f) (GCNRequest.features req) ->
  (length (GCNRequest.features req) <= length (GCNRequest.nodes req))%nat ->
  let n := length (GCNRequest.features req) in
  exists scores training s',
    gcn_predict req s
    = (inr
         (JDict [("scores", scores_json scores);
                 ("info",
                  JDict [("n_nodes", JNat n); ("n_features", JNat f);
                         ("train_epochs", JInt (GCNRequest.train_epochs req));
                         ("training", training)])]), s')
    /\ (forall name,
          is_Some (dict_get name scores)
          <-> name ∈ take n (GCNRequest.nodes req))
    /\ ((GCNRequest.train_epochs req <= 0)%Z -> training = JDict []).
Proof.
  intros Hne Hrect Hnodes n.
  destruct (predict_inputs _ (GCNRequest.adjacency req) f Hne Hrect)
    as (Harr & Hshape & Hn0 & Hadj).
  fold n in Hshape, Hn0, Hadj.
  set (adj := normalize_adj (build_adj_matrix n (GCNRequest.adjacency req)))
    in *.
  set (x := GCNRequest.features req) in *.
  destruct (SimpleGCN_new_returns f (Z.max 16 (Z.of_nat f * 2)) s)
    as (m & s1 & Hnew).
  destruct (predict_training n x adj m (GCNRequest.train_epochs req) s1 Hadj
              eq_refl) as (m2 & info & Htrain & Hinfo).
  destruct (predict_eval n x adj m2 s1 Hadj eq_refl)
    as (v & norm & Hv & Hnorm & Hlen).
  { by apply Nat.eqb_neq. }
  destruct (scores_dict_loop (GCNRequest.nodes req) norm n 0 [] s1)
    as (d & Hd & Hkeys); [lia | lia |].
  exists d, info, s1. split_and!.
  - unfold gcn_predict, try_except.
    rewrite (bind_lift_inr _ _ s (Arr2 x) Harr).
    rewrite (bind_lift_inr _ _ s (n, f) Hshape).
    rewrite Hn0. cbn [as_matrix]. fold adj.
    rewrite (bind_returns _ _ s s1 _ Hnew).
    rewrite (bind_returns _ _ s1 s1 _ Htrain).
    rewrite (bind_returns _ _ s1 s1 _ Hv).
    rewrite (bind_lift_inr _ _ s1 norm Hnorm).
    unfold scores_dict. rewrite (bind_returns _ _ s1 s1 _ Hd).
    done.
  - intros name. rewrite Hkeys. split.
    + intros [[? [=]]|(i & Hi & Hname)].
      apply list_elem_of_lookup. exists i.
      apply lookup_take_Some. split; [done | lia].
    + intros Hin. apply list_elem_of_lookup in Hin as [i Hi].
      apply lookup_take_Some in Hi as [Hi Hlt]. right. exists i.
      split; [lia | done].
  - exact Hinfo.
Qed.

(** X7.  [POST /gcn/predict] with fewer node names than feature rows: the
    request is not rejected up front; the model is built (and trained, if
    asked) and evaluated, and only the [scores] comprehension fails, at the
    first row without a name: the response is a 500 whose detail is the
    message of the IndexError. *)
Theorem gcn_predict_missing_names (req : GCNRequest.t) (f : nat) (s : rng) :
  GCNRequest.features req <> [] ->
  Forall (fun row => length row = f) (GCNRequest.features req) ->
  (length (GCNRequest.nodes req) < length (GCNRequest.features req))%nat ->
  exists s',
    post_gcn_predict req s
    = (ErrorResponse 500 "list index out of range", s').
Proof.
  intros Hne Hrect Hnodes.
  destruct (predict_inputs _ (GCNRequest.adjacency req) f Hne Hrect)
    as (Harr & Hshape & Hn0 & Hadj).
  set (n := length (GCNRequest.features req)) in *.
  set (adj := normalize_adj (build_adj_matrix n (GCNRequest.adjacency req)))
    in *.
  set (x := GCNRequest.features req) in *.
  destruct (SimpleGCN_new_returns f (Z.max 16 (Z.of_nat f * 2)) s)
    as (m & s1 & Hnew).
  destruct (predict_training n x adj m (GCNRequest.train_epochs req) s1 Hadj
              eq_refl) as (m2 & info & Htrain & Hinfo).
  destruct (predict_eval n x adj m2 s1 Hadj eq_refl)
    as (v & norm & Hv & Hnorm & Hlen).
  { by apply Nat.eqb_neq. }
  exists s1. unfold post_gcn_predict, route.
  assert (GCNRequest.validate req = true) as -> by by destruct req.
  assert (gcn_predict req s
          = (inl (HTTPException 500 "list index out of range"), s1)) as ->;
    [|done].
  unfold gcn_predict.
  apply (try_except_raises _ s s1 (IndexError "list index out of range")).
  rewrite (bind_lift_inr _ _ s (Arr2 x) Harr).
  rewrite (bind_lift_inr _ _ s (n, f) Hshape).
  rewrite Hn0. cbn [as_matrix]. fold adj.
  rewrite (bind_returns _ _ s s1 _ Hnew).
  rewrite (bind_returns _ _ s1 s1 _ Htrain).
  rewrite (bind_returns _ _ s1 s1 _ Hv).
  rewrite (bind_lift_inr _ _ s1 norm Hnorm).
  apply bind_raises. unfold scores_dict.
  apply scores_dict_short_loop; lia.
Qed.

End predict_facts.

Lemma gcn_predict_success_witness :
  exists scores training s',
    @gcn_predict rational_numerics stub_torch predict_extra_name 0%nat
    = (inr
         (JDict [("scores", scores_json scores);
                 ("info",
                  JDict [("n_nodes", JNat 2); ("n_features", JNat 2);
                         ("train_epochs", JInt (-3));
                         ("training", training)])]), s')
    /\ (forall name, is_Some (dict_get name scores) <-> name ∈ ["A"; "B"])
    /\ ((-3 <= 0)%Z -> training = JDict []).
Proof.
  apply (@gcn_predict_success rational_numerics stub_torch
           predict_extra_name 2%nat 0%nat).
  - discriminate.
  - repeat constructor.
  - simpl. lia.
Defined.

Lemma gcn_predict_missing_names_witness :
  exists s',
    @post_gcn_predict rational_numerics stub_torch predict_missing_name 0%nat
    = (ErrorResponse 500 "list index out of range", s').
Proof.
  apply (@gcn_predict_missing_names rational_numerics stub_torch
           predict_missing_name 1%nat 0%nat).
  - discriminate.
  - repeat constructor.
  - simpl. lia.
Defined.

(** ** [POST /gcn/compare] with more names than feature rows *)

Section compare_names.
Context {N : Numerics} {T : Torch}.

(** One turn of the loop for ["simple"] when there are at least as many
    names as rows: [scores] is keyed by the names of the rows. *)
Lemma compare_one_simple_prefix (nodes : list string) (n f : nat)
  (x adj : matrix) (epochs : Z) (results : list (string * compare_entry))
  (s : rng) :
  has_shape n n adj -> length x = n -> (n <= length nodes)%nat ->
  n <> 0%nat ->
  exists scores top5 s',
    compare_one nodes n f x float32 adj epochs results "simple" s
    = (inr (dict_set "simple" (Scored scores top5) results), s')
    /\ (forall k, is_Some (dict_get k scores) <-> k ∈ take n nodes).
Proof.
  intros Hadj Hx Hnodes Hn. unfold compare_one, try_except.
  destruct (create_model_simple f s) as (m & s1 & Hcreate).
  rewrite (bind_returns _ _ s s1 _ Hcreate).
  assert (exists m2,
            (if (0 <? epochs)%Z
             then trained <- train_model float32 (NSimple m) x adj epochs 0.01 ;;
                  ret trained.1
             else ret (NSimple m)) s1 = (inr (NSimple m2), s1))
    as [m2 Htrain].
  { destruct (0 <? epochs)%Z eqn:Hep; [|by eexists].
    destruct (train_model_simple n x adj m epochs 0.01 s1 Hadj Hx)
      as (m' & info & Ht); [lia | apply default_lr |].
    exists m'. by rewrite (bind_returns _ _ s1 s1 _ Ht). }
  rewrite (bind_returns _ _ s1 s1 _ Htrain).
  destruct (predict_eval n x adj m2 s1 Hadj Hx Hn)
    as (v & norm & Hv & Hnorm & Hlen).
  rewrite (bind_returns _ _ s1 s1 _ Hv).
  rewrite (bind_lift_inr _ _ s1 norm Hnorm).
  destruct (scores_dict_loop nodes norm n 0 [] s1) as (sc & Hsc & Hkeys);
    [lia | lia |].
  unfold scores_dict. rewrite (bind_returns _ _ s1 s1 _ Hsc).
  destruct (score_pairs_loop nodes norm n 0 [] s1) as (pairs & Hpairs & _);
    [lia | lia |].
  unfold score_pairs. rewrite (bind_returns _ _ s1 s1 _ Hpairs).
  eexists sc, _, s1. split; [reflexivity|].
  intros k. rewrite Hkeys. split.
  - intros [[? [=]]|(i & Hi & Hname)].
    apply list_elem_of_lookup. exists i.
    apply lookup_take_Some. split; [done | lia].
  - intros Hin. apply list_elem_of_lookup in Hin as [i Hi].
    apply lookup_take_Some in Hi as [Hi Hlt]. right. exists i.
    split; [lia | done].
Qed.

(** [[r["scores"][n] for n in nodes]] raises KeyError at the first name
    that is no key of [scores]. *)
Lemma score_list_raises (nodes : list string) (scores : list (string * fl))
  (acc : list fl) (s : rng) :
  (exists name, name ∈ nodes /\ dict_get name scores = None) ->
  exists name,
    name ∈ nodes /\ dict_get name scores = None
    /\ for_each nodes
         (fun l name =>
            match dict_get name scores with
            | Some v => ret (l ++ [v])
            | None => raise (KeyError name)
            end) acc s = (inl (KeyError name), s).
Proof.
  revert acc. induction nodes as [|k nodes IH]; intros acc (name & Hin & Hnone).
  - by apply elem_of_nil in Hin.
  - cbn [for_each]. destruct (dict_get k scores) as [v|] eqn:Hk.
    + rewrite (bind_returns _ _ s s (acc ++ [v])) by done.
      destruct (IH (acc ++ [v])) as (name' & Hin' & Hnone' & Hloop).
      { exists name. split; [|done].
        apply elem_of_cons in Hin as [->|Hin]; [congruence | done]. }
      exists name'. split_and!; [by apply list_elem_of_further | done | done].
    + exists k. split_and!; [apply list_elem_of_here | done | done].
Qed.

(** X8.  [POST /gcn/compare] with model types ["simple"] and an unknown
    type, a non-empty rectangular feature matrix, and a node name that is
    not among the names of the feature rows (so there are more names than
    rows): the models run, but the agreement step looks up every name of
    [nodes] in the scores of ["simple"], which has keys for the rows only;
    the KeyError leaves the handler as a 500 whose detail is the [repr] of
    that name (for names of ASCII characters: the name in quotes, with
    Python's escapes).  The surplus names that [/gcn/predict] ignores fail
    the whole comparison. *)
Theorem gcn_compare_surplus_name (req : MultiModelRequest.t)
  (unknown : string) (f : nat) (s : rng) :
  MultiModelRequest.model_types req = ["simple"; unknown] ->
  unknown ∉ ["simple"; "deep"; "gat"; "hybrid"; "temporal"] ->
  MultiModelRequest.features req <> [] ->
  Forall (fun row => length row = f) (MultiModelRequest.features req) ->
  (exists name,
     name ∈ MultiModelRequest.nodes req
     /\ name ∉ take (length (MultiModelRequest.features req))
                (MultiModelRequest.nodes req)) ->
  Forall (fun name => is_ascii name = true) (MultiModelRequest.nodes req) ->
  nonempty (MultiModelRequest.adjacency req) = true
  \/ nonempty (MultiModelRequest.returns req) = false ->
  exists name s',
    name ∈ MultiModelRequest.nodes req
    /\ (name ∉ take (length (MultiModelRequest.features req))
                 (MultiModelRequest.nodes req))
    /\ post_gcn_compare req s = (ErrorResponse 500 (py_repr name), s').
Proof.
  intros Htypes Hunknown Hne Hrect Hsurplus _ Hgraph.
  set (features := MultiModelRequest.features req) in *.
  set (n := length features) in *.
  set (nodes := MultiModelRequest.nodes req) in *.
  destruct (np_array_rectangular features f Hne Hrect) as [Harr Hshape].
  assert (n <> 0%nat) as Hn by (subst n; by destruct features).
  assert (n <= length nodes)%nat as Hnodes.
  { destruct Hsurplus as (name & Hin & Hout).
    destruct (decide (n <= length nodes)%nat) as [|Hgt]; [done|].
    rewrite take_ge in Hout by lia. done. }
  destruct (compare_graph_shape req n Hgraph) as (A & HA & HsA).
  pose proof (has_shape_normalize_adj n A HsA) as Hadj.
  destruct (compare_one_simple_prefix nodes n (ncols features) features
              (normalize_adj A) (MultiModelRequest.train_epochs req) [] s
              Hadj eq_refl Hnodes Hn)
    as (scores & top5 & s1 & Hone & Hkeys).
  destruct (score_list_raises nodes scores [] s1)
    as (name & Hin & Hnone & Hlist).
  { destruct Hsurplus as (name & Hin & Hout). exists name. split; [done|].
    destruct (dict_get name scores) eqn:Hget; [|done].
    exfalso. apply Hout, Hkeys. by rewrite Hget. }
  exists name, s1. split_and!; [done | |].
  { intros Htake. apply Hkeys in Htake as [? Hsome]. congruence. }
  unfold post_gcn_compare, route.
  assert (MultiModelRequest.validate req = true) as -> by by destruct req.
  assert (gcn_compare req s
          = (inl (HTTPException 500 (py_repr name)), s1)) as ->;
    [|done].
  assert ("simple" <> unknown) as Hsimple.
  { intros <-. apply Hunknown, list_elem_of_here. }
  assert (for_each ["simple"; unknown]
            (compare_one nodes n (ncols features) features float32
               (normalize_adj A)
               (MultiModelRequest.train_epochs req)) [] s
          = (inr [("simple", Scored scores top5);
                  (unknown, Failed ("Unknown model type: " +:+ unknown))],
             s1)) as Hloop.
  { cbn [for_each].
    rewrite (bind_returns _ _ s s1 _ Hone).
    rewrite (bind_returns _ _ s1 s1 _
               (compare_one_unknown _ _ _ _ _ _ _ _ unknown s1 Hunknown)).
    cbn [dict_set]. by rewrite decide_False. }
  assert (score_lists nodes
            [("simple", Scored scores top5);
             (unknown, Failed ("Unknown model type: " +:+ unknown))] s1
          = (inl (KeyError name), s1)) as Hlists.
  { unfold score_lists. cbn [for_each snd]. unfold score_list.
    apply bind_raises, bind_raises. exact Hlist. }
  unfold gcn_compare.
  apply (try_except_raises _ s s1 (KeyError name)).
  cbn zeta. fold features nodes.
  rewrite (bind_lift_inr _ _ s _ Harr).
  rewrite (bind_lift_inr _ _ s _ Hshape).
  fold n. rewrite (proj2 (Nat.eqb_neq n 0) Hn).
  rewrite (bind_lift_inr _ _ s _ HA).
  rewrite Htypes, (compare_dtype_float32 req Hgraph). cbn [as_matrix].
  rewrite (bind_returns _ _ s s1 _ Hloop).
  change (2 <=? length [("simple", Scored scores top5);
                        (unknown,
                         Failed ("Unknown model type: " +:+ unknown))])%nat
    with true.
  cbn match. apply bind_raises, bind_raises. exact Hlists.
Qed.

End compare_names.

Lemma gcn_compare_surplus_name_witness :
  exists name s',
    name ∈ ["A"; "B"; "C"]
    /\ (name ∉ ["A"; "B"])
    /\ @post_gcn_compare rational_numerics stub_torch compare_extra_name
         0%nat
       = (ErrorResponse 500 (py_repr name), s').
Proof.
  apply (@gcn_compare_surplus_name rational_numerics stub_torch
           compare_extra_name "bogus" 2%nat 0%nat).
  - reflexivity.
  - intros H. repeat (apply elem_of_cons in H as [H|H]; [discriminate H|]).
    by apply elem_of_nil in H.
  - discriminate.
  - repeat constructor.
  - exists "C". split.
    + repeat first [apply list_elem_of_here | apply list_elem_of_further].
    + intros H. repeat (apply elem_of_cons in H as [H|H]; [discriminate H|]).
      by apply elem_of_nil in H.
  - repeat constructor.
  - by right.
Defined.

(** ** [POST /gcn/cluster] needs two feature columns *)

Section cluster_facts.
Context {N : Numerics} {T : Torch}.

(** X9.  [POST /gcn/cluster] on a feature matrix with fewer than two
    columns never succeeds.  With at most two columns the handler skips
    PCA and plots the rows themselves, reading [coords[i, 0]] and
    [coords[i, 1]]; the second read raises IndexError for the first label
    already, and the handler turns it into a 500, like every other failure
    on the way (ragged or empty features, too few nodes, K-Means itself).
    K-Means is taken to label every row. *)
Theorem gcn_cluster_needs_two_columns (req : StockClusterRequest.t)
  (f : nat) (s : rng) :
  (forall k X labels centres,
     KMeans_fit_predict k X = inr (labels, centres) ->
     length labels = length X) ->
  Forall (fun row => length row = f) (StockClusterRequest.features req) ->
  (f < 2)%nat ->
  (exists detail s',
     gcn_cluster req s = (inl (HTTPException 500 detail), s'))
  /\ (forall j s', post_gcn_cluster req s <> (Ok200 j, s')).
Proof.
  intros Hkmeans Hrect Hf.
  assert (exists e s',
            gcn_cluster req s = (inl (HTTPException 500 (str_exn e)), s'))
    as (e & s' & Hraise).
  { 
unfold gcn_cluster.
    match goal with
    | |- context [try_except ?b _] =>
        assert (exists e s', b s = (inl e, s')) as (e & s' & Hb)
    end.
    2:{ exists e, s'. by apply try_except_raises. }
    destruct (StockClusterRequest.features req) as [|r rest] eqn:Hfeat.
    { by eexists _, _. }
    destruct (np_array_rectangular (r :: rest) f) as [Harr Hshape];
      [done | done |].
    rewrite (bind_lift_inr _ _ s _ Harr).
    rewrite (bind_lift_inr _ _ s _ Hshape).
    destruct (_ <? _)%Z; [by eexists _, _|].
    cbn [as_matrix].
    destruct (KMeans_fit_predict (StockClusterRequest.n_clusters req)
                (r :: rest)) as [e|[labels centres]] eqn:Hkm.
    { eexists _, _. by apply bind_lift_inl. }
    rewrite (bind_lift_inr _ _ s _ eq_refl).
    apply Hkmeans in Hkm.
    destruct labels as [|l0 labels]; [done|].
    apply Forall_cons in Hrect as [Hr _].
    assert ((2 <? ncols (r :: rest))%nat = false) as ->.
    { apply Nat.ltb_ge. simpl. lia. }
    
rewrite (bind_returns _ _ s s (r :: rest, [Fin 1.0; Fin 0.0]) eq_refl).
    cbn [imap for_each fst snd].
    unfold bind at 1 2 3. unfold list_getitem at 1.
    destruct (StockClusterRequest.nodes req) as [|node0 nodes];
      [by eexists _, _|].
    cbn [lookup list_lookup ret]. unfold bind at 1. unfold matrix_getitem at 1.
    destruct r as [|a [|b r']]; [by eexists _, _ | | simpl in Hr; lia].
    cbn [mget lookup list_lookup mbind option_bind ret].
    unfold bind at 1. unfold matrix_getitem at 1. by eexists _, _. }
  split; [by eexists _, _|].
  intros j s1. unfold post_gcn_cluster, route.
  destruct (StockClusterRequest.validate req); [|done].
  by rewrite Hraise.
Qed.

End cluster_facts.

Lemma gcn_cluster_needs_two_columns_witness :
  (exists detail s',
     gcn_cluster (T := toy_sklearn) cluster_one_feature 0%nat
     = (inl (HTTPException 500 detail), s'))
  /\ (forall j s',
        post_gcn_cluster (T := toy_sklearn) cluster_one_feature 0%nat
        <> (Ok200 j, s')).
Proof.
  apply (gcn_cluster_needs_two_columns (T := toy_sklearn)
           cluster_one_feature 1%nat 0%nat).
  - intros k X labels centres [= <- _]. apply length_replicate.
  - repeat constructor.
  - lia.
Defined.

(** ** [POST /gcn/importance] on well-formed requests *)

Lemma insert_desc_Permutation {A} (key : A -> fl) (a : A) (l : list A) :
  insert_desc key a l ≡ₚ a :: l.
Proof.
  induction l as [|b l IH]; cbn [insert_desc]; [done|].
  destruct (Fl.ltb (key b) (key a)); [done|].
  rewrite IH. apply Permutation_swap.
Qed.

(** Sorting keeps every entry, as often as it occurs. *)
Lemma sorted_desc_Permutation {A} (key : A -> fl) (l : list A) :
  sorted_desc key l ≡ₚ l.
Proof.
  unfold sorted_desc.
  assert (forall acc, foldl (fun acc a => insert_desc key a acc) acc l
                      ≡ₚ acc ++ l) as H; [|apply (H [])].
  induction l as [|a l IH]; intros acc; cbn [foldl].
  - by rewrite app_nil_r.
  - rewrite IH, insert_desc_Permutation. cbn [app]. apply Permutation_middle.
Qed.

Section importance_facts.
Context {N : Numerics} {T : Torch}.

(** The names of the pairs a comprehension over [range(len)] collects. *)
Lemma pairs_loop_names (names : list string) (values : list fl) (len a : nat)
  (acc l : list (string * fl)) (s s' : rng) :
  for_each (seq a len)
    (fun l i =>
       k <- list_getitem names i ;;
       v <- list_getitem values i ;;
       ret (l ++ [(k, v)])) acc s = (inr l, s') ->
  l.*1 = acc.*1 ++ take len (drop a names).
Proof.
  revert a acc s. induction len as [|len IH]; intros a acc s; cbn [seq for_each].
  - intros [= <- <-]. by rewrite take_0, app_nil_r.
  - unfold bind at 1. unfold bind at 1. unfold list_getitem at 1.
    destruct (names !! a) as [k0|] eqn:Hk0; [|discriminate].
    cbn [ret]. unfold bind at 1. unfold list_getitem at 1.
    destruct (values !! a) as [v0|] eqn:Hv0; [|discriminate].
    cbn [ret]. intros Hloop. rewrite (IH _ _ _ Hloop).
    rewrite fmap_app. cbn [fmap list_fmap fst].
    rewrite <- app_assoc. f_equal.
    rewrite (drop_S names k0 a Hk0). done.
Qed.

(** X10.  [feature_importance] on a non-empty rectangular feature matrix
    with one feature name per column, for every edge list and every list of
    node names: the handler raises nothing and returns its dict;
    [feature_importance] reports every feature name exactly once (as often
    as it was given), [top_features] is the first five entries of the same
    list, and [method] is ["gradient_based"]. *)
Theorem feature_importance_success (req : FeatureImportanceRequest.t)
  (f : nat) (s : rng) :
  FeatureImportanceRequest.features req <> [] ->
  Forall (fun row => length row = f) (FeatureImportanceRequest.features req) ->
  length (FeatureImportanceRequest.feature_names req) = f ->
  exists ranked s',
    feature_importance req s
    = (inr
         (JDict
            [("feature_importance", JList (map importance_item ranked));
             ("top_features", JList (map importance_item (take 5 ranked)));
             ("method", JStr "gradient_based")]), s')
    /\ ranked.*1 ≡ₚ FeatureImportanceRequest.feature_names req
    /\ length ranked = f.
Proof.
  intros Hne Hrect Hnames.
  destruct (predict_inputs _ (FeatureImportanceRequest.adjacency req) f
              Hne Hrect) as (Harr & Hshape & Hn0 & Hadj).
  set (n := length (FeatureImportanceRequest.features req)) in *.
  set (adj := normalize_adj
                (build_adj_matrix n (FeatureImportanceRequest.adjacency req)))
    in *.
  set (x := FeatureImportanceRequest.features req) in *.
  set (names := FeatureImportanceRequest.feature_names req) in *.
  destruct (SimpleGCN_new_returns f 32 s) as (m & s1 & Hnew).
  destruct (train_model_simple n x adj m 100 0.01 s1 Hadj eq_refl)
    as (m2 & info & Htrain); [lia | apply default_lr |].
  destruct (forward_simple m2 false n x adj s1 Hadj eq_refl)
    as (out & Hout & _).
  set (gradients := mean_abs_columns (input_gradient m2 x adj) f).
  set (importance := map (fun g => (g / vsum gradients)%fl) gradients).
  assert (length importance = f) as Himp.
  { unfold importance, gradients, mean_abs_columns.
    by rewrite !length_map, length_seq. }
  destruct (score_pairs_loop names importance f 0 [] s1)
    as (items & Hitems & Hlen); [lia | lia |].
  pose proof (pairs_loop_names _ _ _ _ _ _ _ _ Hitems) as Hfst.
  exists (sorted_desc snd items), s1. split_and!.
  - unfold feature_importance, try_except. cbn zeta.
    fold x names.
    rewrite (bind_lift_inr _ _ s (Arr2 x) Harr).
    rewrite (bind_lift_inr _ _ s (n, f) Hshape).
    rewrite Hnames, Nat.eqb_refl. cbn [negb as_matrix]. fold adj.
    rewrite (bind_returns _ _ s s1 _ Hnew).
    rewrite (bind_returns _ _ s1 s1 _ Htrain). cbn [fst].
    rewrite (bind_returns _ _ s1 s1 _ Hout).
    fold gradients. fold importance.
    rewrite (bind_returns _ _ s1 s1 _ Hitems).
    done.
  - rewrite sorted_desc_Permutation, Hfst. cbn [fmap list_fmap app].
    rewrite drop_0, take_ge by lia. done.
  - rewrite length_sorted_desc, Hlen. simpl. lia.
Qed.

End importance_facts.

Lemma feature_importance_success_witness :
  exists ranked s',
    feature_importance (N := rational_numerics) (T := stub_torch)
      importance_two_features 0%nat
    = (inr
         (JDict
            [("feature_importance", JList (map importance_item ranked));
             ("top_features", JList (map importance_item (take 5 ranked)));
             ("method", JStr "gradient_based")]), s')
    /\ ranked.*1 ≡ₚ ["momentum"; "value"]
    /\ length ranked = 2%nat.
Proof.
  apply (feature_importance_success (N := rational_numerics)
           (T := stub_torch) importance_two_features 2%nat 0%nat).
  - discriminate.
  - repeat constructor.
  - reflexivity.
Defined.

(** ** The graph builders of model.py *)

Lemma mget_map (g : fl -> fl) (A : matrix) (i j : nat) :
  mget (map (map g) A) i j = g <$> mget A i j.
Proof.
  unfold mget. rewrite list_lookup_fmap.
  destruct (A !! i) as [row|]; [|done]. cbn.
  by rewrite list_lookup_fmap.
Qed.

(** [np.fill_diagonal] changes the entries of the diagonal and no other. *)
Lemma mget_fill_diagonal (A : matrix) (v : fl) (i j : nat) :
  mget (fill_diagonal A v) i j
  = (fun x => if decide (i = j) then v else x) <$> mget A i j.
Proof.
  unfold mget, fill_diagonal. rewrite list_lookup_imap.
  destruct (A !! i) as [row|]; [|done]. cbn.
  destruct (decide (i = j)) as [->|Hne].
  - destruct (row !! j) as [x|] eqn:Hx.
    + rewrite list_lookup_insert_eq; [done|]. by eapply lookup_lt_Some.
    + cbn. apply lookup_ge_None. rewrite length_insert.
      by apply lookup_ge_None.
  - rewrite list_lookup_insert_ne by done.
    by destruct (row !! j).
Qed.

Lemma has_shape_map (g : fl -> fl) (n m : nat) (A : matrix) :
  has_shape n m A -> has_shape n m (map (map g) A).
Proof.
  intros [Hlen Hrows]. split; [by rewrite length_map|].
  apply Forall_fmap. eapply Forall_impl; [exact Hrows|].
  intros row Hrow. cbn. by rewrite length_map.
Qed.

Lemma has_shape_fill_diagonal (v : fl) (n m : nat) (A : matrix) :
  has_shape n m A -> has_shape n m (fill_diagonal A v).
Proof.
  intros [Hlen Hrows]. unfold fill_diagonal. split; [by rewrite length_imap|].
  apply Forall_lookup. intros i row. rewrite list_lookup_imap.
  destruct (A !! i) as [row0|] eqn:Hrow0; [|done]. intros [= <-].
  rewrite length_insert.
  by eapply (Forall_lookup_1 _ A i row0) in Hrows.
Qed.

Lemma has_shape_transpose (n : nat) (A : matrix) :
  has_shape n n A -> has_shape n n (transpose A).
Proof.
  intros HA. unfold transpose. destruct (decide (n = 0)%nat) as [->|Hn].
  - destruct HA as [Hlen _]. by destruct A.
  - rewrite (ncols_shape n n A HA) by lia. split.
    + by rewrite length_map, length_seq.
    + apply Forall_fmap, Forall_forall. intros j _. cbn.
      rewrite length_column. apply HA.
Qed.

(** [A.T[i, j]] is [A[j, i]]. *)
Lemma mget_transpose (n : nat) (A : matrix) (i j : nat) :
  has_shape n n A -> (i < n)%nat -> (j < n)%nat ->
  mget (transpose A) i j = mget A j i.
Proof.
  intros HA Hi Hj. unfold transpose. unfold mget at 1.
  rewrite list_lookup_fmap, (ncols_shape n n A HA) by lia.
  rewrite lookup_seq_lt by done. cbn.
  destruct (mget_in_shape n n A j i HA Hj Hi) as [x Hx].
  rewrite Hx. by apply column_lookup.
Qed.

Lemma mget_zip_with (g : fl -> fl -> fl) (A B : matrix) (i j : nat) :
  mget (zip_with (zip_with g) A B) i j
  = match mget A i j, mget B i j with
    | Some a, Some b => Some (g a b)
    | _, _ => None
    end.
Proof.
  unfold mget. rewrite lookup_zip_with.
  destruct (A !! i) as [ra|]; [|done]. cbn.
  destruct (B !! i) as [rb|]; cbn.
  - rewrite lookup_zip_with.
    destruct (ra !! j); [|done]. cbn. by destruct (rb !! j).
  - by destruct (ra !! j).
Qed.

Lemma has_shape_zip_with (g : fl -> fl -> fl) (n m : nat) (A B : matrix) :
  has_shape n m A -> has_shape n m B ->
  has_shape n m (zip_with (zip_with g) A B).
Proof.
  intros [HlA HrA] [HlB HrB]. split.
  - rewrite length_zip_with. lia.
  - apply Forall_lookup. intros i row. rewrite lookup_zip_with.
    destruct (A !! i) as [ra|] eqn:Ha; [|done]. cbn.
    destruct (B !! i) as [rb|] eqn:Hb; [|done]. cbn. intros [= <-].
    rewrite length_zip_with.
    eapply (Forall_lookup_1 _ A i ra) in HrA; [|done].
    eapply (Forall_lookup_1 _ B i rb) in HrB; [|done]. cbn in *. lia.
Qed.

Section graph_facts.
Context {N : Numerics} {T : Torch}.

(** X11.  [build_correlation_graph], when [np.corrcoef] gives an [n] by [n]
    matrix: the result is [n] by [n] with entries 0.0 and 1.0 only and a
    zero diagonal; off the diagonal the entry is 1.0 exactly when the
    absolute correlation is above the threshold; a NaN correlation (a
    constant series) makes no edge; and a symmetric correlation matrix
    gives a symmetric graph. *)
Theorem build_correlation_graph_spec (returns corr : matrix) (threshold : Q)
  (n : nat) :
  corrcoef returns = inr corr -> has_shape n n corr ->
  exists adj,
    build_correlation_graph returns threshold = inr adj
    /\ has_shape n n adj
    /\ (forall i, (i < n)%nat -> mget adj i i = Some (Fin 0))
    /\ (forall i j q, i <> j -> mget corr i j = Some (Fin q) ->
          mget adj i j
          = Some (if Qlt_le_dec threshold (Qabs q) then Fin 1 else Fin 0))
    /\ (forall i j, i <> j -> mget corr i j = Some NaN ->
          mget adj i j = Some (Fin 0))
    /\ (forall i j x, mget adj i j = Some x -> x = Fin 0 \/ x = Fin 1)
    /\ ((forall i j, mget corr i j = mget corr j i) ->
        forall i j, mget adj i j = mget adj j i).
Proof.
  intros Hcorr Hshape. unfold build_correlation_graph. rewrite Hcorr.
  eexists. split; [reflexivity|].
  set (edge := fun c => if Fl.gtb (fl_abs c) (Fin threshold)
                        then Fin 1 else Fin 0).
  assert (forall i j,
            mget (fill_diagonal (map (map edge) corr) (Fin 0)) i j
            = (fun c => if decide (i = j) then Fin 0 else edge c)
                <$> mget corr i j) as Hentry.
  { intros i j. rewrite mget_fill_diagonal, mget_map.
    by destruct (mget corr i j). }
  split_and!.
  - by apply has_shape_fill_diagonal, has_shape_map.
  - intros i Hi. rewrite Hentry.
    destruct (mget_in_shape n n corr i i Hshape Hi Hi) as [c ->]. cbn.
    by rewrite decide_True.
  - intros i j q Hne Hc. rewrite Hentry, Hc. cbn.
    rewrite decide_False by done. unfold edge. cbn.
    destruct (Qlt_le_dec threshold (Qabs q)) as [Hlt|Hge].
    + by rewrite (proj2 (Qltb_lt _ _) Hlt).
    + by rewrite (proj2 (Qltb_ge _ _) Hge).
  - intros i j Hne Hc. rewrite Hentry, Hc. cbn.
    by rewrite decide_False.
  - intros i j x. rewrite Hentry.
    destruct (mget corr i j) as [c|]; [|done]. cbn. intros [= <-].
    case_decide; [by left|]. unfold edge.
    destruct (Fl.gtb _ _); auto.
  - intros Hsym i j. rewrite !Hentry, (Hsym i j).
    destruct (mget corr j i); [|done]. cbn.
    destruct (decide (i = j)) as [->|Hne].
    + by rewrite decide_True.
    + by rewrite decide_False by congruence.
Qed.

(** X12.  [build_knn_graph], when [kneighbors_graph] gives an [n] by [n]
    connectivity matrix (entries 0.0 and 1.0): the result is [n] by [n]
    and symmetric, with an edge between [i] and [j] as soon as one of them
    is among the neighbours of the other, and none otherwise. *)
Theorem build_knn_graph_spec (features adj : matrix) (k : Z) (n : nat) :
  kneighbors_graph features k = inr adj -> has_shape n n adj ->
  (forall i j x, mget adj i j = Some x -> x = Fin 0 \/ x = Fin 1) ->
  exists g,
    build_knn_graph features k = inr g
    /\ has_shape n n g
    /\ (forall i j,
          mget adj i j = Some (Fin 1) \/ mget adj j i = Some (Fin 1) ->
          (i < n)%nat -> (j < n)%nat -> mget g i j = Some (Fin 1))
    /\ (forall i j,
          mget adj i j = Some (Fin 0) -> mget adj j i = Some (Fin 0) ->
          mget g i j = Some (Fin 0))
    /\ (forall i j, mget g i j = mget g j i).
Proof.
  intros Hknn Hshape Hbinary. unfold build_knn_graph. rewrite Hknn.
  eexists. split; [reflexivity|].
  pose proof (has_shape_transpose n adj Hshape) as HshapeT.
  assert (forall i j, (i < n)%nat -> (j < n)%nat ->
            exists a b,
              mget adj i j = Some a /\ mget adj j i = Some b
              /\ (a = Fin 0 \/ a = Fin 1) /\ (b = Fin 0 \/ b = Fin 1)
              /\ mget (zip_with (zip_with Fl.max) adj (transpose adj)) i j
                 = Some (Fl.max a b)) as Hentry.
  { intros i j Hi Hj.
    destruct (mget_in_shape n n adj i j Hshape Hi Hj) as [a Ha].
    destruct (mget_in_shape n n adj j i Hshape Hj Hi) as [b Hb].
    exists a, b. split_and!; [done | done | by eapply Hbinary
                              | by eapply Hbinary |].
    by rewrite mget_zip_with, (mget_transpose n) , Ha, Hb. }
  split_and!.
  - by apply has_shape_zip_with.
  - intros i j Hedge Hi Hj.
    destruct (Hentry i j Hi Hj) as (a & b & Ha & Hb & Ha01 & Hb01 & ->).
    rewrite Ha, Hb in Hedge.
    destruct Hedge as [[= ->]|[= ->]].
    + by destruct Hb01 as [->| ->].
    + by destruct Ha01 as [->| ->].
  - intros i j Ha Hb.
    destruct (mget_lt n n adj i j _ Hshape Ha) as [Hi Hj].
    destruct (Hentry i j Hi Hj) as (a & b & Ha' & Hb' & _ & _ & ->).
    rewrite Ha in Ha'. rewrite Hb in Hb'.
    by injection Ha' as <-; injection Hb' as <-.
  - intros i j.
    destruct (decide (i < n)%nat) as [Hi|Hi];
      [destruct (decide (j < n)%nat) as [Hj|Hj]|].
    + destruct (Hentry i j Hi Hj) as (a & b & Ha & Hb & Ha01 & Hb01 & ->).
      destruct (Hentry j i Hj Hi) as (b' & a' & Hb' & Ha' & _ & _ & ->).
      rewrite Ha in Ha'. rewrite Hb in Hb'.
      injection Ha' as <-; injection Hb' as <-.
      by destruct Ha01 as [->| ->], Hb01 as [->| ->].
    + rewrite !(mget_out_of_shape n n) by
        (first [by apply has_shape_zip_with | lia]). done.
    + rewrite !(mget_out_of_shape n n) by
        (first [by apply has_shape_zip_with | lia]). done.
Qed.

End graph_facts.

(** Two perfectly correlated series. *)
Lemma build_correlation_graph_spec_witness :
  exists adj,
    build_correlation_graph (T := toy_sklearn)
      [[Fin 1; Fin 2]; [Fin 2; Fin 4]] 0.3 = inr adj
    /\ has_shape 2 2 adj
    /\ (forall i, (i < 2)%nat -> mget adj i i = Some (Fin 0))
    /\ (forall i j q, i <> j -> mget (ones 2 2) i j = Some (Fin q) ->
          mget adj i j
          = Some (if Qlt_le_dec 0.3 (Qabs q) then Fin 1 else Fin 0))
    /\ (forall i j, i <> j -> mget (ones 2 2) i j = Some NaN ->
          mget adj i j = Some (Fin 0))
    /\ (forall i j x, mget adj i j = Some x -> x = Fin 0 \/ x = Fin 1)
    /\ ((forall i j, mget (ones 2 2) i j = mget (ones 2 2) j i) ->
        forall i j, mget adj i j = mget adj j i).
Proof.
  apply (build_correlation_graph_spec (T := toy_sklearn)
           [[Fin 1; Fin 2]; [Fin 2; Fin 4]] (ones 2 2) 0.3 2).
  - reflexivity.
  - split; [reflexivity | repeat constructor].
Defined.

(** Three rows whose nearest neighbours form a directed ring. *)
Lemma build_knn_graph_spec_witness :
  exists g,
    build_knn_graph (T := toy_sklearn) [[Fin 1]; [Fin 2]; [Fin 3]] 1 = inr g
    /\ has_shape 3 3 g
    /\ (forall i j,
          mget (ring_graph 3) i j = Some (Fin 1)
          \/ mget (ring_graph 3) j i = Some (Fin 1) ->
          (i < 3)%nat -> (j < 3)%nat -> mget g i j = Some (Fin 1))
    /\ (forall i j,
          mget (ring_graph 3) i j = Some (Fin 0) ->
          mget (ring_graph 3) j i = Some (Fin 0) ->
          mget g i j = Some (Fin 0))
    /\ (forall i j, mget g i j = mget g j i).
Proof.
  apply (build_knn_graph_spec (T := toy_sklearn)
           [[Fin 1]; [Fin 2]; [Fin 3]] (ring_graph 3) 1 3).
  - reflexivity.
  - split; [reflexivity | repeat constructor].
  - intros i j x H.
    destruct i as [|[|[|i]]]; destruct j as [|[|[|j]]]; vm_compute in H;
      first [discriminate H | injection H as <-; auto].
Defined.

(** ** [RankingLoss] and [CombinedLoss] *)

Lemma mget_pairwise_diff (v : vector) (i j : nat) :
  mget (pairwise_diff v) i j
  = match v !! i, v !! j with
    | Some a, Some b => Some (a - b)%fl
    | _, _ => None
    end.
Proof.
  unfold mget, pairwise_diff. rewrite list_lookup_fmap.
  destruct (v !! i) as [a|]; [|done]. cbn.
  rewrite list_lookup_fmap. by destruct (v !! j).
Qed.

Lemma length_pairwise_diff (v : vector) :
  length (pairwise_diff v) = length v.
Proof. unfold pairwise_diff. by rewrite length_map. Qed.

(** The masked entries are those above the diagonal. *)
Lemma elem_of_upper_triangle (loss : matrix) (x : fl) :
  x ∈ concat (imap (fun i row => drop (S i) row) loss)
  <-> exists i j, (i < j)%nat /\ mget loss i j = Some x.
Proof.
  rewrite list_elem_of_In, in_concat. split.
  - intros (l & Hl & Hx).
    apply list_elem_of_In, elem_of_lookup_imap in Hl as (i & row & -> & Hrow).
    apply list_elem_of_In, list_elem_of_lookup in Hx as [k Hk].
    rewrite lookup_drop in Hk.
    exists i, (S i + k)%nat. split; [lia|]. unfold mget. by rewrite Hrow.
  - intros (i & j & Hij & Hx). unfold mget in Hx.
    destruct (loss !! i) as [row|] eqn:Hrow; [|done].
    exists (drop (S i) row). split.
    + apply list_elem_of_In, elem_of_lookup_imap. by exists i, row.
    + apply list_elem_of_In, list_elem_of_lookup. exists (j - S i)%nat.
      rewrite lookup_drop. by replace (S i + (j - S i))%nat with j by lia.
Qed.

(** The mean of non-negative values, at least one of them: it is finite and
    non-negative, and it is zero exactly when all of them are. *)
Lemma tensor_mean_nonneg (v : vector) :
  v <> [] -> Forall Fl.nonneg v ->
  exists q, tensor_mean v = Fin q /\ 0 <= q
    /\ (q == 0 <-> Forall (Fl.equals 0) v).
Proof.
  intros Hne Hv. unfold tensor_mean, vsum, Fl.zero.
  destruct (foldl_add_nonneg v 0 Hv) as (t & Ht & H0 & Hall).
  rewrite Ht. cbn [Fl.div].
  assert (0 < inject_Z (Z.of_nat (length v))) as Hlen.
  { destruct v; [done|]. unfold Qlt. cbn. lia. }
  rewrite (proj2 (Qeqb_neq _ _)) by lra.
  exists (t / inject_Z (Z.of_nat (length v))).
  split_and!; [done | |].
  - apply Qle_shift_div_l; [done | lra].
  - split.
    + intros Hq.
      assert (t == 0) as Ht0.
      { assert (t == t / inject_Z (Z.of_nat (length v))
                     * inject_Z (Z.of_nat (length v))) as Heq
          by (field; lra).
        rewrite Hq in Heq. lra. }
      rewrite Forall_forall in Hall, Hv. apply Forall_forall. intros x Hx.
      specialize (Hall x Hx). specialize (Hv x Hx).
      destruct x as [b| | |]; try done. cbn in *. lra.
    + intros Hzero.
      pose proof (foldl_add_zero v 0 ltac:(lra) Hzero) as Hsum.
      rewrite Ht in Hsum. cbn in Hsum. rewrite Hsum.
      unfold Qdiv. lra.
Qed.

Section loss_facts.
Variable sign_of_nan : fl.

(** The hinge of one pair: [relu(margin - sign(t_i - t_j) * (p_i - p_j))]. *)
Lemma hinge_entry (margin pi pj ti tj : Q) :
  exists h,
    Fl.relu (Fin margin
             - torch_sign sign_of_nan (Fin ti - Fin tj) * (Fin pi - Fin pj))%fl
    = Fin h
    /\ 0 <= h
    /\ (h == 0 <-> margin <= Qsign (ti - tj) * (pi - pj)).
Proof.
  cbn. unfold Fl.sub. cbn.
  destruct (Fl.Qltb (margin + - (Qsign (ti + - tj) * (pi + - pj))) 0) eqn:E.
  - apply Qltb_lt in E. exists 0. split_and!; [done | lra |].
    unfold Qminus. split; [lra | done].
  - apply Qltb_ge in E. eexists. split_and!; [reflexivity | done |].
    unfold Qminus. split; lra.
Qed.

Lemma pair_losses_lookup (margin : Q) (predictions targets : vector)
  (i j : nat) :
  mget (pair_losses sign_of_nan margin predictions targets) i j
  = match predictions !! i, predictions !! j, targets !! i, targets !! j with
    | Some pi, Some pj, Some ti, Some tj =>
        Some (Fl.relu (Fin margin
                       - torch_sign sign_of_nan (ti - tj) * (pi - pj)))%fl
    | _, _, _, _ => None
    end.
Proof.
  unfold pair_losses.
  rewrite mget_map, mget_zip_with, mget_map, !mget_pairwise_diff.
  destruct (predictions !! i), (predictions !! j), (targets !! i),
    (targets !! j); done.
Qed.

Lemma finite_lookup (v : vector) (i : nat) (x : fl) :
  all_finite v -> v !! i = Some x -> exists q, x = Fin q.
Proof.
  intros Hv Hx. eapply Forall_lookup_1 in Hv; [|done].
  destruct x; try done. by eexists.
Qed.

(** On finite operands of one length the loss is the mean of the hinges of
    the pairs [i < j]. *)
Lemma ranking_loss_selected (margin : Q) (predictions targets : vector)
  (n : nat) :
  length predictions = n -> length targets = n ->
  all_finite predictions -> all_finite targets ->
  exists selected,
    RankingLoss_forward sign_of_nan margin predictions targets
    = inr (tensor_mean selected)
    /\ (forall x, x ∈ selected ->
          exists i j pi pj ti tj h,
            (i < j < n)%nat
            /\ predictions !! i = Some (Fin pi)
            /\ predictions !! j = Some (Fin pj)
            /\ targets !! i = Some (Fin ti)
            /\ targets !! j = Some (Fin tj)
            /\ x = Fin h /\ 0 <= h
            /\ (h == 0 <-> margin <= Qsign (ti - tj) * (pi - pj)))
    /\ (forall i j pi pj ti tj, (i < j)%nat ->
          predictions !! i = Some (Fin pi) ->
          predictions !! j = Some (Fin pj) ->
          targets !! i = Some (Fin ti) ->
          targets !! j = Some (Fin tj) ->
          exists h, Fin h ∈ selected
            /\ (h == 0 <-> margin <= Qsign (ti - tj) * (pi - pj)))
    /\ ((n <= 1)%nat -> selected = [])
    /\ ((2 <= n)%nat -> selected <> [] /\ Forall Fl.nonneg selected).
Proof.
  intros Hp Ht Hfp Hft.
  unfold RankingLoss_forward, torch_mul, upper_triangle. cbn zeta.
  rewrite decide_True
    by (by rewrite length_map, !length_pairwise_diff, Hp, Ht).
  fold (pair_losses sign_of_nan margin predictions targets).
  rewrite decide_True.
  2:{ unfold pair_losses.
      rewrite length_map, length_zip_with, length_map,
        !length_pairwise_diff. lia. }
  set (selected :=
         concat (imap (fun i row => drop (S i) row)
                   (pair_losses sign_of_nan margin predictions targets))).
  assert (forall x, x ∈ selected ->
            exists i j pi pj ti tj h,
              (i < j < n)%nat
              /\ predictions !! i = Some (Fin pi)
              /\ predictions !! j = Some (Fin pj)
              /\ targets !! i = Some (Fin ti)
              /\ targets !! j = Some (Fin tj)
              /\ x = Fin h /\ 0 <= h
              /\ (h == 0 <-> margin <= Qsign (ti - tj) * (pi - pj)))
    as Hsel; [|
  assert (forall i j pi pj ti tj, (i < j)%nat ->
            predictions !! i = Some (Fin pi) ->
            predictions !! j = Some (Fin pj) ->
            targets !! i = Some (Fin ti) ->
            targets !! j = Some (Fin tj) ->
            exists h, Fin h ∈ selected
              /\ (h == 0 <-> margin <= Qsign (ti - tj) * (pi - pj)))
    as Hpair; [|
  exists selected; split_and!; [reflexivity | exact Hsel | exact Hpair | |]]].
  - intros x Hx. apply elem_of_upper_triangle in Hx as (i & j & Hij & Hx).
    rewrite pair_losses_lookup in Hx.
    destruct (predictions !! i) as [a|] eqn:Ha; [|done].
    destruct (predictions !! j) as [b|] eqn:Hb; [|done].
    destruct (targets !! i) as [c|] eqn:Hc; [|done].
    destruct (targets !! j) as [d|] eqn:Hd; [|done].
    destruct (finite_lookup _ _ _ Hfp Ha) as [pi ->].
    destruct (finite_lookup _ _ _ Hfp Hb) as [pj ->].
    destruct (finite_lookup _ _ _ Hft Hc) as [ti ->].
    destruct (finite_lookup _ _ _ Hft Hd) as [tj ->].
    destruct (hinge_entry margin pi pj ti tj) as (h & Hh & H0 & Hiff).
    rewrite Hh in Hx. injection Hx as <-.
    exists i, j, pi, pj, ti, tj, h.
    pose proof (lookup_lt_Some _ _ _ Hb). split_and!; try done; lia.
  - intros i j pi pj ti tj Hij Ha Hb Hc Hd.
    destruct (hinge_entry margin pi pj ti tj) as (h & Hh & H0 & Hiff).
    exists h. split; [|done].
    apply elem_of_upper_triangle. exists i, j. split; [done|].
    by rewrite pair_losses_lookup, Ha, Hb, Hc, Hd, Hh.
  - intros Hn. destruct selected as [|x rest]; [done|].
    destruct (Hsel x) as (i & j & _ & _ & _ & _ & _ & Hij & _);
      [apply list_elem_of_here | lia].
  - intros Hn. split.
    + destruct (lookup_lt_is_Some_2 predictions 0) as [a Ha]; [lia|].
      destruct (lookup_lt_is_Some_2 predictions 1) as [b Hb]; [lia|].
      destruct (lookup_lt_is_Some_2 targets 0) as [c Hc]; [lia|].
      destruct (lookup_lt_is_Some_2 targets 1) as [d Hd]; [lia|].
      destruct (finite_lookup _ _ _ Hfp Ha) as [pi ->].
      destruct (finite_lookup _ _ _ Hfp Hb) as [pj ->].
      destruct (finite_lookup _ _ _ Hft Hc) as [ti ->].
      destruct (finite_lookup _ _ _ Hft Hd) as [tj ->].
      destruct (Hpair 0%nat 1%nat pi pj ti tj) as (h & Hin & _);
        [lia | done | done | done | done |].
      intros Hnil. rewrite Hnil in Hin. by apply elem_of_nil in Hin.
    + apply Forall_forall. intros x Hx.
      destruct (Hsel x Hx) as (_ & _ & _ & _ & _ & _ & h & _ & _ & _ & _ & _
                               & -> & Hh & _).
      exact Hh.
Qed.


(** The squared differences of finite values are non-negative numbers. *)
Lemma squares_nonneg (predictions targets : vector) :
  all_finite predictions -> all_finite targets ->
  Forall Fl.nonneg
    (zip_with (fun p t => ((p - t) * (p - t))%fl) predictions targets).
Proof.
  intros Hp. revert targets.
  induction Hp as [|p predictions Hfin _ IH]; intros targets Ht; [done|].
  destruct Ht as [|t targets Hfin' Ht]; [done|]. cbn [zip_with].
  apply Forall_cons. split; [|by apply IH].
  destruct p as [a| | |], t as [b| | |]; try done. cbn.
  generalize (a + - b). intros x.
  destruct (Qlt_le_dec x 0) as [Hneg|Hpos].
  - assert (x * x == (- x) * (- x)) as -> by ring.
    apply Qmult_le_0_compat; lra.
  - by apply Qmult_le_0_compat.
Qed.

(** X14.  [CombinedLoss.forward] on finite predictions and targets.  With
    one length [n] for both: fewer than two entries give NaN for every
    [alpha], since the ranking term is NaN (there is no pair to rank); two
    or more entries and [alpha] in [0, 1] give a loss that is never
    negative.  With two different lengths, both at least 2, the call
    raises RuntimeError (no operand can be broadcast). *)
Theorem CombinedLoss_forward_spec (alpha margin : Q)
  (predictions targets : vector) :
  all_finite predictions -> all_finite targets ->
  (length predictions = length targets ->
   (length predictions <= 1)%nat ->
   CombinedLoss_forward sign_of_nan alpha margin predictions targets
   = inr NaN)
  /\ (length predictions = length targets ->
      (2 <= length predictions)%nat -> 0 <= alpha <= 1 ->
      exists loss,
        CombinedLoss_forward sign_of_nan alpha margin predictions targets
        = inr loss
        /\ Fl.ltb loss (Fin 0) = false)
  /\ (length predictions <> length targets ->
      (2 <= length predictions)%nat -> (2 <= length targets)%nat ->
      exists msg,
        CombinedLoss_forward sign_of_nan alpha margin predictions targets
        = inl (RuntimeError msg)).
Proof.
  intros Hfp Hft. unfold CombinedLoss_forward, MSELoss. cbn zeta.
  split_and!.
  - intros Hlen Hn. rewrite decide_True by done.
    destruct (ranking_loss_selected margin predictions targets
                (length predictions) eq_refl (eq_sym Hlen) Hfp Hft)
      as (selected & -> & _ & _ & Hfew & _).
    rewrite (Hfew Hn). f_equal.
    change (tensor_mean []) with NaN.
    match goal with
    | |- (Fin alpha * ?m + _)%fl = _ => by destruct (Fin alpha * m)%fl
    end.
  - intros Hlen Hn Halpha. rewrite decide_True by done.
    destruct (ranking_loss_selected margin predictions targets
                (length predictions) eq_refl (eq_sym Hlen) Hfp Hft)
      as (selected & -> & _ & _ & _ & Hmany).
    destruct (Hmany Hn) as [Hne Hnonneg].
    destruct (tensor_mean_nonneg selected Hne Hnonneg) as (r & -> & Hr & _).
    destruct (tensor_mean_nonneg
                (zip_with (fun p t => ((p - t) * (p - t))%fl)
                   predictions targets))
      as (m & -> & Hm & _).
    + destruct predictions as [|a predictions]; [simpl in Hn; lia|].
      by destruct targets.
    + by apply squares_nonneg.
    + eexists. split; [reflexivity|]. cbn. apply Qltb_ge. nra.
  - intros Hlen Hp Ht. rewrite decide_False by done.
    destruct predictions as [|a [|b predictions]]; [simpl in Hp; lia..|].
    destruct targets as [|c [|d targets]]; [simpl in Ht; lia..|].
    by eexists.
Qed.

End loss_facts.


Lemma CombinedLoss_forward_spec_witness :
  exists loss,
    CombinedLoss_forward NaN 0.5 0.1 [Fin 3; Fin 1] [Fin 2; Fin 1]
    = inr loss
    /\ Fl.ltb loss (Fin 0) = false.
Proof.
  destruct (CombinedLoss_forward_spec NaN 0.5 0.1 [Fin 3; Fin 1]
              [Fin 2; Fin 1]) as (_ & H & _).
  - repeat constructor.
  - repeat constructor.
  - apply H; [reflexivity | simpl; lia | split; discriminate].
Defined.

(** ** [evaluate_predictions] *)

Lemma length_remove_dups_le (l : list nat) :
  (length (remove_dups l) <= length l)%nat.
Proof.
  induction l as [|x l IH]; cbn [remove_dups]; [done|].
  destruct (decide_rel elem_of x l); cbn [length]; lia.
Qed.

Lemma length_last_k {A} (k : nat) (l : list A) :
  k <> 0%nat -> (length (last_k k l) <= k)%nat.
Proof.
  intros Hk. unfold last_k.
  rewrite (proj2 (Nat.eqb_neq k 0) Hk), length_drop. lia.
Qed.

Section evaluation_facts.
Context {N : Numerics} {T : Torch}.
Variable pearsonr : list fl -> list fl -> result fl.
Variable argsort : list fl -> list nat.

(** X15.  [evaluate_predictions] on fewer than five predictions never
    returns: the top-20% group has [n // 5 = 0] members and the precision
    divides by it, so when the two SciPy calls go through the function
    raises ZeroDivisionError.  Whenever it does return, there were at
    least five predictions, [top20_precision] is a number of [0, 1], and
    [ic] is not NaN. *)
Theorem evaluate_predictions_spec (predictions targets : vector) :
  ((length predictions < 5)%nat ->
   (exists e, evaluate_predictions pearsonr argsort predictions targets
              = inl e)
   /\ (forall rho r,
         spearmanr predictions targets = inr rho ->
         pearsonr predictions targets = inr r ->
         exists msg,
           evaluate_predictions pearsonr argsort predictions targets
           = inl (ZeroDivisionError msg)))
  /\ (forall m,
        evaluate_predictions pearsonr argsort predictions targets = inr m ->
        (5 <= length predictions)%nat
        /\ Fl.between 0 1 (top20_precision m)
        /\ Fl.is_nan (ic m) = false).
Proof.
  unfold evaluate_predictions. cbn zeta. split.
  - intros Hn.
    assert ((length predictions / 5)%nat = 0%nat) as ->
      by by apply Nat.div_small.
    cbn [Nat.eqb]. split.
    + destruct (spearmanr predictions targets); [by eexists|].
      destruct (pearsonr predictions targets); by eexists.
    + intros rho r -> ->. by eexists.
  - intros m.
    destruct (spearmanr predictions targets) as [|rho]; [done|].
    destruct (pearsonr predictions targets) as [|r]; [done|].
    destruct (length predictions / 5 =? 0)%nat eqn:Hk; [done|].
    apply Nat.eqb_neq in Hk.
    destruct (corrcoef [predictions; targets]) as [|c]; [done|].
    destruct (mget c 0 1) as [x|]; [|done].
    destruct (np_sub predictions targets) as [|diff]; [done|].
    intros [= <-]. cbn [top20_precision ic]. split_and!.
    + destruct (decide (5 <= length predictions)%nat) as [|Hlt]; [done|].
      exfalso. apply Hk, Nat.div_small. lia.
    + change (Nat.divmod (length predictions) 4 0 4).1
        with (length predictions / 5)%nat.
      set (k := (length predictions / 5)%nat) in *.
      set (c0 := common_count _ _).
      assert (c0 <= k)%nat as Hc.
      { unfold c0, common_count.
        etrans; [apply length_remove_dups_le|].
        etrans; [apply length_filter|]. by apply length_last_k. }
      assert (0 < inject_Z (Z.of_nat k)) as Hkpos.
      { rewrite <- (Zlt_Qlt 0). lia. }
      assert (0 <= inject_Z (Z.of_nat c0)) as Hcnn.
      { rewrite <- (Zle_Qle 0). lia. }
      assert (inject_Z (Z.of_nat c0) <= inject_Z (Z.of_nat k)) as Hck.
      { rewrite <- Zle_Qle. lia. }
      cbn [Fl.between]. split.
      * apply Qle_shift_div_l; [done | lra].
      * apply Qle_shift_div_r; [done | lra].
    + by destruct x.
Qed.

End evaluation_facts.

(** A degenerate call: three predictions, so an empty top-20% group. *)
Lemma evaluate_predictions_spec_witness :
  exists msg,
    evaluate_predictions (N := rational_numerics) (T := toy_sklearn)
      (fun _ _ => inr (Fin 1)) (fun v => seq 0 (length v))
      [Fin 1; Fin 2; Fin 3] [Fin 2; Fin 1; Fin 3]
    = inl (ZeroDivisionError msg).
Proof.
  destruct (evaluate_predictions_spec (N := rational_numerics)
              (T := toy_sklearn) (fun _ _ => inr (Fin 1))
              (fun v => seq 0 (length v))
              [Fin 1; Fin 2; Fin 3] [Fin 2; Fin 1; Fin 3]) as [H _].
  destruct H as [_ H]; [simpl; lia|].
  by apply (H (Fin 1) (Fin 1)).
Defined.

(** ** [POST /gcn/compare] with fewer names than feature rows *)

Section compare_short.
Context {N : Numerics} {T : Torch}.



End compare_short.


(** ** Malformed feature matrices *)

Lemma np_array_ragged (r : list fl) (rest : list (list fl)) :
  Exists (fun r' => length r' <> length r) rest ->
  exists msg, np_array (r :: rest) = inl (ValueError msg).
Proof.
  intros Hragged. unfold np_array.
  destruct (forallb _ rest) eqn:Hall; [|by eexists].
  exfalso. rewrite forallb_forall in Hall.
  apply Exists_exists in Hragged as (r' & Hin & Hlen).
  apply Hlen, Nat.eqb_eq, Hall. by apply list_elem_of_In.
Qed.

Section malformed_facts.
Context {N : Numerics} {T : Torch}.

(** The first two statements of a handler body, on a malformed matrix:
    [features] is the field of the request the body reads. *)
Ltac malformed_body features Hmal :=
  match goal with
  | |- context [try_except ?b reraise_500 ?s] =>
      let e := fresh "e" in
      let Hb := fresh "Hb" in
      assert (exists e, b s = (inl e, s)) as [e Hb];
      [ destruct features as [|r rest];
        [ by eexists
        | destruct (np_array_ragged r rest Hmal) as [msg Hmsg];
          eexists; by apply bind_lift_inl ]
      | exists (str_exn e); by apply try_except_raises ]
  end.

(** X17.  A feature matrix that is empty or ragged (rows of different
    lengths) is answered with a 500 by each of the five POST handlers:
    [np.array] or the unpacking of its shape raises ValueError before any
    graph is built or any model created, and the random generator is left
    as it was. *)
Theorem malformed_features_500 (s : rng) :
  (forall req, malformed (GCNRequest.features req) ->
     exists detail,
       gcn_predict req s = (inl (HTTPException 500 detail), s))
  /\ (forall req, malformed (AdvancedGCNRequest.features req) ->
        exists detail,
          gcn_advanced req s = (inl (HTTPException 500 detail), s))
  /\ (forall req, malformed (MultiModelRequest.features req) ->
        exists detail,
          gcn_compare req s = (inl (HTTPException 500 detail), s))
  /\ (forall req, malformed (StockClusterRequest.features req) ->
        exists detail,
          gcn_cluster req s = (inl (HTTPException 500 detail), s))
  /\ (forall req, malformed (FeatureImportanceRequest.features req) ->
        exists detail,
          feature_importance req s = (inl (HTTPException 500 detail), s)).
Proof.
  split_and!; intros req Hmal.
  - unfold gcn_predict. cbn zeta.
    malformed_body (GCNRequest.features req) Hmal.
  - unfold gcn_advanced. cbn zeta.
    malformed_body (AdvancedGCNRequest.features req) Hmal.
  - unfold gcn_compare. cbn zeta.
    malformed_body (MultiModelRequest.features req) Hmal.
  - unfold gcn_cluster. cbn zeta.
    malformed_body (StockClusterRequest.features req) Hmal.
  - unfold feature_importance. cbn zeta.
    malformed_body (FeatureImportanceRequest.features req) Hmal.
Qed.

End malformed_facts.

Lemma malformed_features_500_witness :
  exists detail,
    gcn_predict (N := rational_numerics) (T := stub_torch) predict_ragged
      0%nat
    = (inl (HTTPException 500 detail), 0%nat).
Proof.
  destruct (malformed_features_500 (N := rational_numerics)
              (T := stub_torch) 0%nat) as [H _].
  apply (H predict_ragged).
  apply Exists_cons_hd. simpl. lia.
Defined.

(** ** [POST /gcn/cluster] on well-formed requests *)

Section cluster_success.
Context {N : Numerics} {T : Torch}.

(** The loop that files every row under its label: the list of a label
    grows by one point for each row that carries it. *)
Lemma clusters_loop (nodes : list string) (coords : matrix)
  (labels : list Z) (a : nat) (acc : list (string * list json)) (s : rng) :
  (a + length labels <= length nodes)%nat ->
  (forall i, (i < a + length labels)%nat ->
     is_Some (mget coords i 0) /\ is_Some (mget coords i 1)) ->
  exists clusters,
    for_each (imap (fun i l => ((a + i)%nat, l)) labels)
      (fun clusters (il : nat * Z) =>
         let label_str := pretty (il.2 : Z) in
         node <- list_getitem nodes il.1 ;;
         cx <- matrix_getitem coords il.1 0 ;;
         cy <- matrix_getitem coords il.1 1 ;;
         ret (cluster_append label_str
                (JDict [("node", JStr node); ("x", JFloat cx);
                        ("y", JFloat cy)])
                clusters)) acc s
    = (inr clusters, s)
    /\ forall l : Z,
         length (default [] (dict_get (pretty l) clusters))
         = (length (default [] (dict_get (pretty l) acc))
            + count_label labels l)%nat.
Proof.
  revert a acc. induction labels as [|l0 labels IH]; intros a acc Hnodes Hcoords.
  - exists acc. split; [done|]. intros l. unfold count_label. simpl. lia.
  - rewrite imap_cons. cbn [for_each length] in *.
    destruct (lookup_lt_is_Some_2 nodes (a + 0)) as [node Hnode]; [lia|].
    destruct (Hcoords (a + 0)%nat) as [[cx Hcx] [cy Hcy]]; [lia|].
    set (point := JDict [("node", JStr node); ("x", JFloat cx);
                         ("y", JFloat cy)]).
    rewrite (bind_returns _ _ s s (cluster_append (pretty l0) point acc)).
    2:{ cbn zeta. cbn [fst snd].
        rewrite (bind_returns _ _ s s node) by by apply list_getitem_Some.
        unfold matrix_getitem. rewrite Hcx, Hcy. done. }
    rewrite (imap_ext _ (fun i l => ((S a + i)%nat, l))).
    2:{ intros i l _. cbn. f_equal. lia. }
    destruct (IH (S a) (cluster_append (pretty l0) point acc))
      as (clusters & Hloop & Hcount); [lia | |].
    { intros i Hi. apply Hcoords. lia. }
    exists clusters. split; [done|]. intros l. rewrite Hcount.
    unfold cluster_append. rewrite dict_get_set.
    unfold count_label. rewrite filter_cons.
    destruct (decide (pretty l0 = pretty l)) as [Heq|Hne].
    + apply (inj pretty) in Heq as ->. rewrite decide_True by done.
      cbn [default from_option id]. rewrite length_app. cbn [length]. lia.
    + rewrite decide_False by congruence. lia.
Qed.

(** The loop that lists the centres with the size of their cluster. *)
Lemma centers_loop (centres : list (list fl))
  (clusters : list (string * list json)) (len a : nat) (acc : list json)
  (s : rng) :
  (a + len <= length centres)%nat ->
  exists cc,
    for_each (seq a len)
      (fun centers i =>
         center <- list_getitem centres i ;;
         ret (centers ++
                [JDict [("cluster", JNat i);
                        ("center", JList (map JFloat center));
                        ("size",
                         JNat (length
                                 (default []
                                    (dict_get (pretty (Z.of_nat i))
                                       clusters))))]])) acc s
    = (inr (acc ++ cc), s)
    /\ map (center_field "cluster") cc
       = map (fun i => Some (Z.of_nat i)) (seq a len)
    /\ map (center_field "size") cc
       = map (fun i =>
                Some (Z.of_nat
                        (length (default []
                                   (dict_get (pretty (Z.of_nat i))
                                      clusters)))))
           (seq a len).
Proof.
  revert a acc. induction len as [|len IH]; intros a acc Hlen;
    cbn [seq for_each].
  - exists []. by rewrite app_nil_r.
  - destruct (lookup_lt_is_Some_2 centres a) as [center Hcenter]; [lia|].
    set (entry :=
           JDict [("cluster", JNat a);
                  ("center", JList (map JFloat center));
                  ("size",
                   JNat (length
                           (default []
                              (dict_get (pretty (Z.of_nat a)) clusters))))]).
    rewrite (bind_returns _ _ s s (acc ++ [entry])).
    2:{ rewrite (bind_returns _ _ s s center) by by apply list_getitem_Some.
        done. }
    destruct (IH (S a) (acc ++ [entry])) as (cc & -> & Hcluster & Hsize);
      [lia|].
    exists (entry :: cc). split_and!.
    + by rewrite <- app_assoc.
    + cbn [map]. by rewrite Hcluster.
    + cbn [map]. by rewrite Hsize.
Qed.

(** The loop of the [node_labels] comprehension. *)
Lemma node_labels_loop (nodes : list string) (labels : list Z) (len a : nat)
  (acc : list (string * json)) (s : rng) :
  (a + len <= length nodes)%nat -> (a + len <= length labels)%nat ->
  exists d,
    for_each (seq a len)
      (fun d i =>
         node <- list_getitem nodes i ;;
         label <- list_getitem labels i ;;
         ret (dict_set node (JInt label) d)) acc s = (inr d, s)
    /\ forall k, is_Some (dict_get k d)
         <-> is_Some (dict_get k acc)
             \/ exists i, (a <= i < a + len)%nat /\ nodes !! i = Some k.
Proof.
  revert a acc. induction len as [|len IH]; intros a acc Hnodes Hlabels; simpl.
  - exists acc. split; [done|]. intros k. split; [by left|].
    intros [H|(i & Hi & _)]; [done | lia].
  - destruct (lookup_lt_is_Some_2 nodes a) as [k0 Hk0]; [lia|].
    destruct (lookup_lt_is_Some_2 labels a) as [v0 Hv0]; [lia|].
    rewrite (bind_returns _ _ s s (dict_set k0 (JInt v0) acc)).
    2:{ rewrite (bind_returns _ _ s s k0) by by apply list_getitem_Some.
        rewrite (bind_returns _ _ s s v0) by by apply list_getitem_Some.
        done. }
    destruct (IH (S a) (dict_set k0 (JInt v0) acc)) as (d & Hd & Hkeys);
      [lia | lia |].
    exists d. split; [done|]. intros k. rewrite Hkeys, dict_get_set.
    split.
    + intros [H|(i & Hi & Hki)].
      * case_decide as Hk; [subst; right; exists a; split; [lia | done]|].
        by left.
      * right. exists i. split; [lia | done].
    + intros [H|(i & Hi & Hki)].
      * left. by case_decide.
      * destruct (decide (i = a)) as [->|Hne].
        -- left. rewrite Hk0 in Hki. injection Hki as ->.
           by rewrite decide_True.
        -- right. exists i. split; [lia | done].
Qed.

(** X18.  [gcn_cluster] on a non-empty rectangular feature matrix with at
    least two columns, a cluster count not above the number of rows [n],
    and at least [n] node names, when K-Means labels every row and returns
    one centre per cluster (and PCA, used above two columns, returns [n]
    rows of two coordinates): the handler raises nothing and returns its
    dict; the points filed under the key of a label are as many as the
    rows with that label; [cluster_centers] lists the clusters 0, 1, ...
    in order, each with the number of rows labelled with it as [size];
    [node_labels] has a key for exactly the first [n] node names;
    [n_clusters] is echoed. *)
Theorem gcn_cluster_success (req : StockClusterRequest.t) (f : nat)
  (labels : list Z) (centres : list (list fl)) (s : rng) :
  StockClusterRequest.features req <> [] ->
  Forall (fun row => length row = f) (StockClusterRequest.features req) ->
  (2 <= f)%nat ->
  (StockClusterRequest.n_clusters req
   <= Z.of_nat (length (StockClusterRequest.features req)))%Z ->
  (length (StockClusterRequest.features req)
   <= length (StockClusterRequest.nodes req))%nat ->
  KMeans_fit_predict (StockClusterRequest.n_clusters req)
    (StockClusterRequest.features req) = inr (labels, centres) ->
  length labels = length (StockClusterRequest.features req) ->
  length centres = Z.to_nat (StockClusterRequest.n_clusters req) ->
  ((2 < f)%nat ->
   exists coords ev,
     PCA_fit_transform (StockClusterRequest.features req) = inr (coords, ev)
     /\ has_shape (length (StockClusterRequest.features req)) 2 coords) ->
  exists clusters cc nl ev,
    gcn_cluster req s
    = (inr
         (JDict
            [("clusters",
              JDict (map (fun kv : string * list json => (kv.1, JList kv.2))
                       clusters));
             ("cluster_centers", JList cc);
             ("node_labels", JDict nl);
             ("pca_explained_variance", JList (map JFloat ev));
             ("n_clusters", JInt (StockClusterRequest.n_clusters req))]), s)
    /\ (forall l : Z,
          length (default [] (dict_get (pretty l) clusters))
          = count_label labels l)
    /\ map (center_field "cluster") cc
       = map (fun i => Some (Z.of_nat i))
           (seq 0 (Z.to_nat (StockClusterRequest.n_clusters req)))
    /\ map (center_field "size") cc
       = map (fun i => Some (Z.of_nat (count_label labels (Z.of_nat i))))
           (seq 0 (Z.to_nat (StockClusterRequest.n_clusters req)))
    /\ (forall name,
          is_Some (dict_get name nl)
          <-> name ∈ take (length (StockClusterRequest.features req))
                       (StockClusterRequest.nodes req)).
Proof.
  intros Hne Hrect Hf Hkn Hnodes Hkm Hlabels Hcentres Hpca.
  set (features := StockClusterRequest.features req) in *.
  set (n := length features) in *.
  set (nodes := StockClusterRequest.nodes req) in *.
  set (k := StockClusterRequest.n_clusters req) in *.
  destruct (np_array_rectangular features f Hne Hrect) as [Harr Hshape].
  assert (ncols features = f) as Hcols.
  { destruct features as [|r rest]; [done|].
    by apply Forall_cons in Hrect as [? _]. }
  (* the coordinates that are plotted *)
  assert (exists coords ev,
            (if (2 <? f)%nat then lift (PCA_fit_transform features)
             else ret (features, [Fin 1.0; Fin 0.0])) s
            = (inr (coords, ev), s)
            /\ forall i, (i < n)%nat ->
                 is_Some (mget coords i 0) /\ is_Some (mget coords i 1))
    as (coords & ev & Hcoords & Hxy).
  { destruct (2 <? f)%nat eqn:E.
    - apply Nat.ltb_lt in E.
      destruct (Hpca E) as (coords & ev & Hfit & Hshape2).
      exists coords, ev. split; [unfold lift; by rewrite Hfit|].
      intros i Hi. split; apply (mget_in_shape n 2); (done || lia).
    - exists features, [Fin 1.0; Fin 0.0]. split; [done|].
      intros i Hi.
      split; apply (mget_in_shape n f); (done || lia || by split). }
  destruct (clusters_loop nodes coords labels 0 [] s)
    as (clusters & Hclusters & Hcount).
  { rewrite Hlabels. simpl. lia. }
  { intros i Hi. apply Hxy. rewrite Hlabels in Hi. simpl in Hi. lia. }
  destruct (centers_loop centres clusters (Z.to_nat k) 0 [] s)
    as (cc & Hcc & Hcluster & Hsize); [lia|].
  destruct (node_labels_loop nodes labels n 0 [] s)
    as (nl & Hnl & Hkeys); [lia | lia |].
  exists clusters, cc, nl, ev. split_and!.
  - unfold gcn_cluster, try_except. cbn zeta. fold features nodes k.
    rewrite (bind_lift_inr _ _ s _ Harr).
    rewrite (bind_lift_inr _ _ s _ Hshape).
    fold n. rewrite (proj2 (Z.ltb_ge (Z.of_nat n) k)) by lia.
    cbn [as_matrix].
    rewrite (bind_lift_inr _ _ s _ Hkm).
    rewrite Hcols.
    rewrite (bind_returns _ _ s s _ Hcoords).
    change (imap pair labels)
      with (imap (fun i l => ((0 + i)%nat, l)) labels).
    rewrite (bind_returns _ _ s s _ Hclusters).
    rewrite (bind_returns _ _ s s _ Hcc).
    rewrite (bind_returns _ _ s s _ Hnl).
    done.
  - intros l. rewrite Hcount. simpl. lia.
  - exact Hcluster.
  - rewrite Hsize. apply map_ext. intros i. by rewrite Hcount.
  - intros name. rewrite Hkeys. split.
    + intros [[? [=]]|(i & Hi & Hname)].
      apply list_elem_of_lookup. exists i.
      apply lookup_take_Some. split; [done | lia].
    + intros Hin. apply list_elem_of_lookup in Hin as [i Hi].
      apply lookup_take_Some in Hi as [Hi Hlt]. right. exists i.
      split; [lia | done].
Qed.

End cluster_success.

(** Four stocks, two features, two clusters; the stand-in K-Means puts
    every stock in cluster 0. *)
Lemma gcn_cluster_success_witness :
  exists clusters cc nl ev,
    gcn_cluster (T := toy_sklearn) cluster_two_features 0%nat
    = (inr
         (JDict
            [("clusters",
              JDict (map (fun kv : string * list json => (kv.1, JList kv.2))
                       clusters));
             ("cluster_centers", JList cc);
             ("node_labels", JDict nl);
             ("pca_explained_variance", JList (map JFloat ev));
             ("n_clusters", JInt 2)]), 0%nat)
    /\ (forall l : Z,
          length (default [] (dict_get (pretty l) clusters))
          = count_label [0; 0; 0; 0]%Z l)
    /\ map (center_field "cluster") cc = [Some 0; Some 1]%Z
    /\ map (center_field "size") cc = [Some 4; Some 0]%Z
    /\ (forall name,
          is_Some (dict_get name nl) <-> name ∈ ["A"; "B"; "C"; "D"]).
Proof.
  apply (gcn_cluster_success (T := toy_sklearn) cluster_two_features 2
           [0; 0; 0; 0]%Z [[Fin 1; Fin 0]; [Fin 1; Fin 0]] 0%nat).
  - discriminate.
  - repeat constructor.
  - lia.
  - simpl. lia.
  - simpl. lia.
  - reflexivity.
  - reflexivity.
  - reflexivity.
  - intros H. lia.
Defined.

(** ** [POST /gcn/compare]: one entry per requested model type *)

(** Assigning to a key keeps the order of the keys; a new key goes last. *)
Lemma dict_keys_set {V} (k : string) (v : V) (d : list (string * V)) :
  dict_keys (dict_set k v d)
  = if decide (k ∈ dict_keys d) then dict_keys d else dict_keys d ++ [k].
Proof.
  unfold dict_keys. induction d as [|[k0 v0] d IH]; cbn.
  - rewrite decide_False; [done|]. apply not_elem_of_nil.
  - destruct (decide (k0 = k)) as [->|Hne]; cbn.
    + rewrite decide_True; [done|]. apply list_elem_of_here.
    + rewrite IH. destruct (decide (k ∈ d.*1)) as [Hin|Hout].
      * rewrite decide_True; [done|]. by apply list_elem_of_further.
      * rewrite decide_False; [done|].
        rewrite not_elem_of_cons. split; [congruence | done].
Qed.

Lemma Forall_dict_set {V} (P : string * V -> Prop) (k : string) (v : V)
  (d : list (string * V)) :
  P (k, v) -> Forall P d -> Forall P (dict_set k v d).
Proof.
  intros Hkv. induction 1 as [|[k0 v0] d Hx Hd IH]; cbn.
  - by apply Forall_singleton.
  - destruct (decide (k0 = k)); apply Forall_cons; auto.
Qed.

Section compare_loop.
Context {N : Numerics} {T : Torch}.

Lemma bind_inr_inv {A B} (c : M rng A) (k : A -> M rng B) s s' b :
  bind c k s = (inr b, s') ->
  exists a s1, c s = (inr a, s1) /\ k a s1 = (inr b, s').
Proof.
  unfold bind. destruct (c s) as [[e|a] s1]; [done|]. by exists a, s1.
Qed.

(** A turn of the model loop never raises: it stores the scores of the
    model, or the message of whatever went wrong, under the model type. *)
Lemma compare_one_returns (nodes : list string) (n f : nat) (x : matrix)
  (dt : dtype) (adj : matrix) (epochs : Z) (results : list (string * compare_entry))
  (model_type : string) (s : rng) :
  exists entry s',
    compare_one nodes n f x dt adj epochs results model_type s
    = (inr (dict_set model_type entry results), s')
    /\ ((exists scores top5, entry = Scored scores top5)
        \/ exists error, entry = Failed error).
Proof.
  unfold compare_one, try_except.
  match goal with
  | |- context [match ?b s with _ => _ end] => destruct (b s) as [[e|r] s']
                                                 eqn:Hbody
  end.
  - eexists _, _. split; [reflexivity|]. right. by eexists.
  - apply bind_inr_inv in Hbody as (model & s1 & _ & Hbody).
    apply bind_inr_inv in Hbody as (model' & s2 & _ & Hbody).
    apply bind_inr_inv in Hbody as (scores & s3 & _ & Hbody).
    apply bind_inr_inv in Hbody as (norm & s4 & _ & Hbody).
    apply bind_inr_inv in Hbody as (sc & s5 & _ & Hbody).
    apply bind_inr_inv in Hbody as (pairs & s6 & _ & Hbody).
    injection Hbody as <- <-.
    eexists _, _. split; [reflexivity|]. left. by eexists _, _.
Qed.

Lemma compare_loop_from (nodes : list string) (n f : nat) (x : matrix)
  (dt : dtype) (adj : matrix) (epochs : Z) (model_types : list string)
  (acc : list (string * compare_entry)) (s : rng) :
  NoDup (dict_keys acc) ->
  Forall (fun kr : string * compare_entry => has_scores kr.2 = true
                                             \/ exists e, kr.2 = Failed e)
    acc ->
  exists results s',
    for_each model_types (compare_one nodes n f x dt adj epochs) acc s
    = (inr results, s')
    /\ (forall k, k ∈ dict_keys results
                  <-> k ∈ dict_keys acc \/ k ∈ model_types)
    /\ NoDup (dict_keys results)
    /\ Forall (fun kr : string * compare_entry =>
                 has_scores kr.2 = true \/ exists e, kr.2 = Failed e)
         results.
Proof.
  revert acc s. induction model_types as [|t model_types IH];
    intros acc s Hnodup Hentries; cbn [for_each].
  - exists acc, s. split_and!; [done | | done | done].
    intros k. split; [by left|]. intros [?|Hin]; [done|].
    by apply elem_of_nil in Hin.
  - destruct (compare_one_returns nodes n f x dt adj epochs acc t s)
      as (entry & s1 & Hone & Hentry).
    rewrite (bind_returns _ _ s s1 _ Hone).
    destruct (IH (dict_set t entry acc) s1)
      as (results & s' & Hloop & Hkeys & Hnd & Hall).
    + rewrite dict_keys_set. case_decide; [done|].
      apply NoDup_app. split_and!; [done | | apply NoDup_singleton].
      intros k Hk Hk'. apply list_elem_of_singleton in Hk' as ->. done.
    + apply Forall_dict_set; [|done]. cbn.
      destruct Hentry as [(sc & top5 & ->)|[e ->]]; [by left | right; eauto].
    + exists results, s'. split_and!; [done | | done | done].
      intros k. rewrite Hkeys, dict_keys_set, elem_of_cons.
      case_decide as Ht.
      * split; [intros [?|?]; auto|].
        intros [?|[->|?]]; auto.
      * rewrite elem_of_app, list_elem_of_singleton. tauto.
Qed.

(** X19.  The model loop of [gcn_compare] never fails, for any list of
    model types, any inputs, either dtype of the adjacency and any
    behaviour of the library: every
    exception of a turn is caught and stored.  After the loop [results]
    has exactly one entry for each distinct model type requested, and
    each entry holds scores or an error message. *)
Theorem compare_loop_isolates (nodes : list string) (n f : nat)
  (x : matrix) (dt : dtype) (adj : matrix) (epochs : Z) (model_types : list string) (s : rng) :
  exists results s',
    for_each model_types (compare_one nodes n f x dt adj epochs) [] s
    = (inr results, s')
    /\ (forall k, k ∈ dict_keys results <-> k ∈ model_types)
    /\ NoDup (dict_keys results)
    /\ Forall (fun kr : string * compare_entry =>
                 has_scores kr.2 = true \/ exists e, kr.2 = Failed e)
         results.
Proof.
  destruct (compare_loop_from nodes n f x dt adj epochs model_types [] s)
    as (results & s' & Hloop & Hkeys & Hnd & Hall).
  - apply NoDup_nil_2.
  - done.
  - exists results, s'. split_and!; [done | | done | done].
    intros k. rewrite Hkeys. split; [|by right].
    intros [Hin|?]; [|done]. by apply elem_of_nil in Hin.
Qed.

End compare_loop.

(** ** The correlation branch of the handlers *)

Lemma map_length_shape (n m : nat) (A : matrix) :
  has_shape n m A -> map length A = replicate n m.
Proof.
  intros [<- Hrows]. induction Hrows as [|row A Hrow _ IH]; [done|].
  cbn. by rewrite Hrow, IH.
Qed.

(** [np.eye(n)[i, j]] *)
Lemma mget_eye (n i j : nat) :
  (i < n)%nat -> (j < n)%nat ->
  mget (eye n) i j = Some (if decide (i = j) then Fl.one else Fl.zero).
Proof.
  intros Hi Hj. unfold mget, eye.
  rewrite lookup_diag, lookup_replicate_2 by done. cbn.
  rewrite length_replicate.
  destruct (decide (i = j)) as [->|Hne].
  - rewrite list_lookup_insert_eq; [done|]. by rewrite length_replicate.
  - rewrite list_lookup_insert_ne by done. by rewrite lookup_replicate_2.
Qed.

Lemma has_shape_eye (n : nat) : has_shape n n (eye n).
Proof.
  unfold eye. pose proof (has_shape_diag (replicate n Fl.one)) as H.
  by rewrite length_replicate in H.
Qed.

Section correlation_facts.
Context {N : Numerics} {T : Torch}.

(** X20.  The correlation branch of [gcn_advanced] and [gcn_compare]
    ([build_correlation_graph], then [A + np.eye(n)]) on a rectangular
    [returns] whose correlation matrix is [m] by [m].  With one return
    series per node ([m = n]) the graph is [n] by [n] with ones on the
    diagonal and 0.0 or 1.0 elsewhere, like the graph of an edge list.
    With another number of series (and neither [m] nor [n] equal to 1)
    the addition cannot broadcast and raises ValueError, which the
    handlers answer with a 500. *)
Theorem correlation_source_spec (returns corr : matrix) (threshold : Q)
  (n m : nat) :
  np_array returns = inr (Arr2 returns) ->
  corrcoef returns = inr corr -> has_shape m m corr ->
  (m = n ->
   exists A,
     correlation_source returns threshold n = inr A
     /\ has_shape n n A
     /\ (forall i, (i < n)%nat -> mget A i i = Some (Fin 1))
     /\ (forall i j x, i <> j -> mget A i j = Some x ->
           x = Fin 0 \/ x = Fin 1))
  /\ (m <> n -> m <> 1%nat -> n <> 1%nat ->
      exists msg,
        correlation_source returns threshold n = inl (ValueError msg)).
Proof.
  intros Harr Hcorr Hshape.
  unfold correlation_source, build_correlation_graph.
  rewrite Harr. cbn [as_matrix]. rewrite Hcorr.
  set (edge := fun c => if Fl.gtb (fl_abs c) (Fin threshold)
                        then Fin 1 else Fin 0).
  set (adj := fill_diagonal (map (map edge) corr) (Fin 0)).
  assert (has_shape m m adj) as Hadj
    by by apply has_shape_fill_diagonal, has_shape_map.
  split.
  - intros ->. unfold np_add.
    rewrite bool_decide_true.
    2:{ by rewrite (map_length_shape n n adj),
          (map_length_shape n n (eye n)) by (done || apply has_shape_eye). }
    eexists. split; [reflexivity|].
    assert (forall i j, (i < n)%nat -> (j < n)%nat ->
              exists c,
                mget corr i j = Some c
                /\ mget (madd adj (eye n)) i j
                   = Some ((if decide (i = j) then Fin 0 else edge c)
                           + (if decide (i = j) then Fl.one else Fl.zero))%fl)
      as Hentry.
    { intros i j Hi Hj.
      destruct (mget_in_shape n n corr i j Hshape Hi Hj) as [c Hc].
      exists c. split; [done|]. unfold madd.
      rewrite mget_zip_with, mget_eye by done. unfold adj.
      by rewrite mget_fill_diagonal, mget_map, Hc. }
    split_and!.
    + apply has_shape_zip_with; [done | apply has_shape_eye].
    + intros i Hi. destruct (Hentry i i Hi Hi) as (c & _ & ->).
      by rewrite !decide_True.
    + intros i j x Hne Hx.
      assert (has_shape n n (madd adj (eye n))) as Hsum
        by (apply has_shape_zip_with; [done | apply has_shape_eye]).
      destruct (mget_lt n n _ i j x Hsum Hx) as [Hi Hj].
      destruct (Hentry i j Hi Hj) as (c & _ & Hsome).
      rewrite Hsome in Hx. rewrite !decide_False in Hx by done.
      injection Hx as <-. unfold edge.
      destruct (Fl.gtb _ _); [by right | by left].
  - intros Hmn Hm Hn. unfold np_add.
    rewrite bool_decide_false.
    2:{ intros Heq. apply (f_equal length) in Heq.
        rewrite !length_map in Heq.
        destruct Hadj as [Hl _]. destruct (has_shape_eye n) as [Hl' _].
        congruence. }
    destruct Hadj as [Hl _]. destruct (has_shape_eye n) as [Hl' _].
    destruct adj as [|r1 [|r2 adj']], (eye n) as [|e1 [|e2 eye']];
      cbn in Hl, Hl'; try lia; try by eexists.
    all: repeat case_match; by eexists.
Qed.

End correlation_facts.

(** Two return series for two nodes. *)
Lemma correlation_source_spec_witness :
  exists A,
    correlation_source (T := toy_sklearn) [[Fin 1; Fin 2]; [Fin 2; Fin 4]]
      0.3 2 = inr A
    /\ has_shape 2 2 A
    /\ (forall i, (i < 2)%nat -> mget A i i = Some (Fin 1))
    /\ (forall i j x, i <> j -> mget A i j = Some x ->
          x = Fin 0 \/ x = Fin 1).
Proof.
  destruct (correlation_source_spec (T := toy_sklearn)
              [[Fin 1; Fin 2]; [Fin 2; Fin 4]] (ones 2 2) 0.3 2 2) as [H _].
  - reflexivity.
  - reflexivity.
  - split; [reflexivity | repeat constructor].
  - by apply H.
Defined.

(** ** [GraphConvLayer.forward] *)



